(** * Budget planner (app.py): the data handlers over the relational store

    A shallow embedding of the Flask handlers of [app.py] and of the SQL
    statements they run.  A handler is a function from the caller's session,
    the JSON body of the request, the clock and the store to a response and
    the store afterwards.  The account pages ([home], [login], [register],
    [logout]) and the figures the browser script derives from the data
    ([updateDashboardStats], [addRemainingBalanceToGoal],
    [updateNotificationCount]) are embedded next to them.

    Numbers are what they are in the program: Python's [int] is an integer
    of any size, its [float] and every JavaScript number a binary64; a cell
    of the store is NULL, a 64-bit integer, a binary64 or text. *)

From Stdlib Require Import ZArith QArith Qround Qabs List String Bool Lia Lqa.
From Stdlib Require Import DecimalString Sorted Permutation Floats.
Import ListNotations.

Local Open Scope Z_scope.

(** ** Values *)

(** A binary64. *)
Abbreviation double := PrimFloat.float (only parsing).

(** A value decoded from the request's JSON: [None], a bool, an [int], a
    [float], a [str] as the UTF-8 text it encodes to, a [str] with a lone
    surrogate, which encodes to none, and a list or dict, which no handler
    looks into. *)
Inductive pyval : Type :=
  | PNone
  | PBool (b : bool)
  | PInt (z : Z)
  | PFloat (f : double)
  | PStr (s : string)
  | PSurrogates
  | PComposite.

(** A cell of the store, or a value of an SQL expression. *)
Inductive sqlval : Type :=
  | SNull
  | SInt (z : Z)
  | SReal (f : double)
  | SText (s : string).

(** An INTEGER or a REAL. *)
Inductive number : Type :=
  | NInt (z : Z)
  | NReal (f : double).

Definition cell_of (n : number) : sqlval :=
  match n with
  | NInt z => SInt z
  | NReal f => SReal f
  end.

(** What an uncaught Python exception can be in the handlers. *)
Inductive exn : Type :=
  | IntegrityError   (* sqlite3: NOT NULL or UNIQUE violated *)
  | InterfaceError   (* sqlite3: a parameter of a type it cannot bind
                        (ProgrammingError as of Python 3.11) *)
  | OperationalError (* sqlite3: integer overflow in SUM *)
  | ValueError       (* float() on text that is no number; a DATE cell
                        that is no date *)
  | TypeError        (* float() on None; a DATE cell that is a number *)
  | OverflowError    (* an int beyond 64 bits bound to a statement; a
                        datetime out of range *)
  | UnicodeEncodeError. (* a str with a lone surrogate bound to a statement *)

(** [request.json] as the dict it is, a key occurring once;
    [d.get(k, default)]. *)
Definition jsonobj : Type := list (string * pyval).

Fixpoint dict_get (d : jsonobj) (k : string) (default : pyval) : pyval :=
  match d with
  | [] => default
  | (k', v) :: rest => if String.eqb k' k then v else dict_get rest k default
  end.

(** The integers of 64 bits. *)
Definition int64 (z : Z) : bool :=
  (-9223372036854775808 <=? z) && (z <=? 9223372036854775807).

Definition is_nan (f : double) : bool := negb (PrimFloat.eqb f f).

(** sqlite3 binds [None] as NULL, a bool as the integer 1 or 0, an [int] of
    64 bits as itself (a larger one makes [execute] raise OverflowError), a
    [float] as itself, NaN as NULL, and a [str] as its UTF-8 text (one that
    has none makes [execute] raise); any other type makes [execute] raise
    before the statement runs. *)
Definition bind (v : pyval) : exn + sqlval :=
  match v with
  | PNone => inr SNull
  | PBool b => inr (SInt (if b then 1 else 0))
  | PInt z => if int64 z then inr (SInt z) else inl OverflowError
  | PFloat f => if is_nan f then inr SNull else inr (SReal f)
  | PStr s => inr (SText s)
  | PSurrogates => inl UnicodeEncodeError
  | PComposite => inl InterfaceError
  end.

(** ** Binary64 *)

(** [m * 2^e] *)
Definition magnitude (m : positive) (e : Z) : Q :=
  if 0 <=? e then inject_Z (Zpos m * 2 ^ e)
  else Qmake (Zpos m) (Z.to_pos (2 ^ (- e))).

(** The rational a finite double denotes. *)
Definition float_value (f : double) : option Q :=
  match Prim2SF f with
  | S754_zero _ => Some 0%Q
  | S754_finite s m e => Some (if s then Qopp (magnitude m e) else magnitude m e)
  | S754_infinity _ | S754_nan => None
  end.

(** The integer a double denotes, when it denotes one. *)
Definition float_integer (f : double) : option Z :=
  match float_value f with
  | Some q => if Qeq_bool q (inject_Z (Qfloor q)) then Some (Qfloor q) else None
  | None => None
  end.

(** The double nearest to a 64-bit integer, the even one on a tie: C's
    [(double)i] and Python's [float(i)]. *)
Definition float_of_int64 (z : Z) : double :=
  if z =? -9223372036854775808 then (-9223372036854775808)%float
  else if z <? 0 then PrimFloat.opp (PrimFloat.of_uint63 (Uint63.of_Z (- z)))
  else PrimFloat.of_uint63 (Uint63.of_Z z).

Definition Qlt_bool (a b : Q) : bool := negb (Qle_bool b a).

(** Python's [z > f] for an [int] and a [float]: the comparison of the two
    numbers as they are, without rounding the integer. *)
Definition int_gt_float (z : Z) (f : double) : bool :=
  match Prim2SF f with
  | S754_nan => false
  | S754_infinity negative => negative
  | _ => match float_value f with
         | Some q => Qlt_bool q (inject_Z z)
         | None => false
         end
  end.

(** A number printed with a fixed count of digits after the point (the sign,
    the digits read as one natural number, and how many of them follow the
    point), or printed otherwise: [nan], an infinity, and in JavaScript a
    magnitude from 1e21 on; such a text reads back as the number itself. *)
Inductive printed : Type :=
  | Fixed (minus : bool) (digits : N) (after_point : nat)
  | Plain (x : double).

(** The number a fixed text denotes. *)
Definition printed_value (p : printed) : option Q :=
  match p with
  | Fixed minus n d =>
      let magnitude := Qmake (Z.of_N n) (Z.to_pos (10 ^ Z.of_nat d)) in
      Some (if minus then Qopp magnitude else magnitude)
  | Plain _ => None
  end.

(** The integer nearest to a rational that is not negative, the even one on
    a tie. *)
Definition round_half_even (q : Q) : Z :=
  let n := Qfloor q in
  match Qcompare (q - inject_Z n) (1 # 2) with
  | Lt => n
  | Gt => n + 1
  | Eq => if Z.even n then n else n + 1
  end.

(** Python's [f"{x:.2f}"]: the exact value of the double rounded to two
    places, half to even, under the sign of [x]. *)
Definition format_2f (x : double) : printed :=
  match Prim2SF x with
  | S754_zero s => Fixed s 0 2
  | S754_finite s _ _ =>
      match float_value x with
      | Some q => Fixed s (Z.to_N (round_half_even (Qabs q * 100))) 2
      | None => Plain x
      end
  | S754_infinity _ | S754_nan => Plain x
  end.

(** JavaScript's [x.toFixed(f)]: [n / 10^f] for the integer [n] nearest to
    the magnitude times [10^f], the larger one on a tie, with a minus sign
    when [x < 0]; the text of [String(x)] when [x] is not finite or its
    magnitude is 1e21 or more. *)
Definition toFixed (f : nat) (x : double) : printed :=
  match float_value x with
  | Some q =>
      if Qle_bool (inject_Z (10 ^ 21)) (Qabs q) then Plain x
      else Fixed (Qlt_bool q 0)
                 (Z.to_N (Qfloor (Qabs q * inject_Z (10 ^ Z.of_nat f) + (1 # 2))))
                 f
  | None => Plain x
  end.

(** [p > 0] in JavaScript, for the text of a number. *)
Definition printed_positive (p : printed) : bool :=
  match p with
  | Fixed minus n _ => negb minus && (0 <? n)%N
  | Plain x => PrimFloat.ltb 0 x
  end.

(** [x || 0] in JavaScript, for a number: 0 for NaN and for both zeros. *)
Definition or_zero (x : double) : double :=
  if is_nan x || PrimFloat.eqb x 0 then 0%float else x.

(** ** Time *)

(** A date and time as both clocks print it, [YYYY-MM-DD HH:MM:SS]: the
    fields are kept, and the order of these equal-width texts is the
    lexicographic order of the fields. *)
Record datetime : Type := mkdt {
  year : Z; month : Z; day : Z; hour : Z; minute : Z; second : Z
}.

(** The month key ['%Y-%m']. *)
Definition month_key : Type := (Z * Z)%type.

Definition strftime_Ym (d : datetime) : month_key := (year d, month d).

Definition month_eqb (a b : month_key) : bool :=
  (fst a =? fst b) && (snd a =? snd b).

Definition month_ltb (a b : month_key) : bool :=
  (fst a <? fst b) || ((fst a =? fst b) && (snd a <? snd b)).

Fixpoint lex_leb (a b : list Z) : bool :=
  match a, b with
  | [], _ => true
  | _ :: _, [] => false
  | x :: a', y :: b' => (x <? y) || ((x =? y) && lex_leb a' b')
  end.

Definition dt_fields (d : datetime) : list Z :=
  [year d; month d; day d; hour d; minute d; second d].

(** [a <= b] on timestamp texts. *)
Definition dt_leb (a b : datetime) : bool := lex_leb (dt_fields a) (dt_fields b).

(** [datetime.now().replace(day=1, hour=0, minute=0, second=0, microsecond=0)] *)
Definition month_start (d : datetime) : datetime :=
  mkdt (year d) (month d) 1 0 0 0.

Definition is_leap (y : Z) : bool :=
  ((y mod 4 =? 0) && negb (y mod 100 =? 0)) || (y mod 400 =? 0).

Definition days_in_month (y m : Z) : Z :=
  if m =? 2 then (if is_leap y then 29 else 28)
  else if (m =? 4) || (m =? 6) || (m =? 9) || (m =? 11) then 30
  else 31.

(** The day before; [None] before 0001-01-01, where [datetime] ends. *)
Definition prev_day (d : datetime) : option datetime :=
  if 1 <? day d then
    Some (mkdt (year d) (month d) (day d - 1) (hour d) (minute d) (second d))
  else if 1 <? month d then
    Some (mkdt (year d) (month d - 1) (days_in_month (year d) (month d - 1))
               (hour d) (minute d) (second d))
  else if 1 <? year d then
    Some (mkdt (year d - 1) 12 31 (hour d) (minute d) (second d))
  else None.

(** [d - timedelta(days=n)] *)
Fixpoint minus_days (n : nat) (d : datetime) : option datetime :=
  match n with
  | O => Some d
  | S n' => match prev_day d with
            | Some d' => minus_days n' d'
            | None => None
            end
  end.

(** The clocks a request reads, in the order it reads them:
    [datetime.now()], the server's local time, and the store's
    [CURRENT_TIMESTAMP], which is UTC.  No handler but [add_expense] reads
    either clock twice; there the insert of the expense reads
    [current_timestamp], the overspend check reads [now] for the current
    month and [now_again] for the start of the month, and the insert of the
    notification reads [current_timestamp_again]. *)
Record clock : Type := mkclock {
  now : datetime;
  current_timestamp : datetime;
  now_again : datetime;
  current_timestamp_again : datetime
}.

(** A request served within one reading of each clock. *)
Definition at_instant (local utc : datetime) : clock := mkclock local utc local utc.

(** ** Text and numbers in the store

    The conversions between text and numbers, the sum of numbers that are
    not all integers and the reading of a date belong to SQLite and to
    Python, not to [app.py]; the handlers are embedded over any choice of
    them. *)
Record conversions : Type := mkconv {
  (* NUMERIC affinity: the number a text cell is stored as, when the text is
     a well-formed numeric literal *)
  numeric_text : string -> option number;
  (* the number the operator + reads a text as *)
  text_value : string -> number;
  (* Python's float() on a str *)
  py_float : string -> option double;
  (* TEXT affinity: the text a REAL is stored as *)
  text_of_real : double -> string;
  (* SUM over cells that are not NULL and not all INTEGER: the total (NULL
     if it is NaN), or the integer overflow it raises *)
  sum_with_reals : list sqlval -> option (option number);
  (* the converter sqlite3 registers for columns declared DATE, on a cell
     that is not NULL: the text of the date, or the exception it raises *)
  convert_date : sqlval -> exn + string
}.

(** The decimal text of an integer. *)
Definition text_of_int (z : Z) : string := NilZero.string_of_int (Z.to_int z).

(** Conversions that know the integer literals of 64 bits and take every
    text cell of a DATE column as a date, for the examples. *)
Definition integer_literals : conversions :=
  let read s :=
    match option_map Z.of_int (NilZero.int_of_string s) with
    | Some z => if int64 z then Some z else None
    | None => None
    end in
  mkconv (fun s => option_map NInt (read s))
         (fun s => match read s with Some z => NInt z | None => NInt 0 end)
         (fun s => option_map float_of_int64 (read s))
         (fun f => EmptyString)
         (fun cells => None)
         (fun v => match v with SText s => inr s | _ => inl TypeError end).

(** ** The store *)

Record user_row : Type := {
  usr_id : Z; usr_username : string; usr_password_hash : string
}.

Record income_row : Type := mkincome {
  inc_user_id : option Z;
  inc_amount : sqlval;
  inc_month_year : month_key;
  inc_created_at : datetime
}.

Record budget_row : Type := mkbudget {
  bud_user_id : option Z;
  bud_category : string;
  bud_amount : sqlval;
  bud_month_year : month_key;
  bud_created_at : datetime
}.

Record expense_row : Type := mkexpense {
  exp_user_id : option Z;
  exp_category : string;
  exp_amount : sqlval;
  exp_description : option string;
  exp_timestamp : datetime
}.

Record goal_row : Type := mkgoal {
  goal_user_id : option Z;
  goal_name : string;
  goal_target_amount : sqlval;
  goal_current_amount : sqlval;
  goal_deadline : sqlval;
  goal_created_at : datetime
}.

(** The one message the code writes,
    [f"Overspending alert! You've exceeded your '{category}' budget by {overspent_amount:.2f}"],
    kept as the two values it prints: the category of the request, and the
    amount as the text of its two decimals. *)
Record alert : Type := mkalert {
  alert_category : pyval;
  alert_overspent : printed
}.

Record notification_row : Type := mknotification {
  ntf_user_id : option Z;
  ntf_message : alert;
  ntf_type : string;
  ntf_is_read : bool;
  ntf_created_at : datetime
}.

(** The six tables of [init_db], each in rowid order (the [id] column, which
    no handler reads, is the position). *)
Record database : Type := mkdb {
  users : list user_row;
  income : list income_row;
  budgets : list budget_row;
  expenses : list expense_row;
  goals : list goal_row;
  notifications : list notification_row
}.

Definition empty_db : database := mkdb [] [] [] [] [] [].

Definition set_income_rows (db : database) (rows : list income_row) : database :=
  mkdb (users db) rows (budgets db) (expenses db) (goals db) (notifications db).

Definition set_budget_rows (db : database) (rows : list budget_row) : database :=
  mkdb (users db) (income db) rows (expenses db) (goals db) (notifications db).

Definition set_expense_rows (db : database) (rows : list expense_row) : database :=
  mkdb (users db) (income db) (budgets db) rows (goals db) (notifications db).

Definition set_goal_rows (db : database) (rows : list goal_row) : database :=
  mkdb (users db) (income db) (budgets db) (expenses db) rows (notifications db).

Definition set_notification_rows (db : database) (rows : list notification_row) : database :=
  mkdb (users db) (income db) (budgets db) (expenses db) (goals db) rows.

(** ** Sessions and responses *)

(** The Flask session: [login] sets both keys, [logout] clears both. *)
Record session : Type := mksession { logged_in : bool; user_id : option Z }.

Definition login_session (uid : Z) : session := mksession true (Some uid).

Definition anonymous : session := mksession false None.

Inductive error : Type :=
  | NotAuthorized              (* "Not authorized" *)
  | InvalidAmount              (* "Invalid amount" *)
  | GoalExists (name : pyval). (* "A goal with the name '...' already exists." *)
(** The payload of [load_user_data], as the JSON it is sent as: the
    amounts are numbers, the dicts keyed by category and by name are lists
    of items in the order of their keys. *)
Record expense_view : Type := mkexpense_view {
  ev_category : string; ev_amount : double; ev_description : string;
  ev_timestamp : datetime
}.

Record goal_view : Type := mkgoal_view {
  gv_target : double; gv_current : double; gv_deadline : string
}.

Record notification_view : Type := mknotification_view {
  nv_message : alert; nv_type : string; nv_is_read : bool; nv_created_at : datetime
}.

Record read_model : Type := mkread_model {
  rm_income_amount : double;
  rm_income_updated_at : option datetime;
  rm_budgets : list (string * double);
  rm_expenses : list expense_view;
  rm_goals : list (string * goal_view);
  rm_notifications : list notification_view
}.

Inductive payload : Type :=
  | Success                                              (* {"success": True} *)
  | Data (d : read_model)
  | Notifications (l : list notification_view)
  | Trends (labels : list month_key) (totals : list double).

(** What a handler answers: [jsonify(...)] with status 200, an error body
    with its status, or an exception that leaves the handler. *)
Inductive response : Type :=
  | Jsonify (p : payload)
  | ErrorResponse (status : Z) (e : error)
  | Raised (e : exn).

Definition result (A : Type) : Type := (exn + A)%type.

Notation "x <- e ;; k" :=
  (match e with inl err => inl err | inr x => k end)
  (at level 61, e at next level, right associativity).

(** [check_session]: the error response, or [None]. *)
Definition check_session (s : session) : option response :=
  if negb (logged_in s) then Some (ErrorResponse 401 NotAuthorized) else None.

(** ** Comparisons in WHERE clauses *)

(** [user_id = ?]: NULL equals nothing. *)
Definition user_is (col param : option Z) : bool :=
  match col, param with
  | Some a, Some b => a =? b
  | _, _ => false
  end.


(** ORDER BY key DESC, rows of equal key in rowid order. *)
Fixpoint insert_desc {A : Type} (key : A -> datetime) (x : A) (l : list A) : list A :=
  match l with
  | [] => [x]
  | y :: rest => if dt_leb (key x) (key y) then y :: insert_desc key x rest
                 else x :: l
  end.

Definition order_by_desc {A : Type} (key : A -> datetime) (l : list A) : list A :=
  fold_left (fun sorted x => insert_desc key x sorted) l [].

(** GROUP BY month ORDER BY month: the groups in ascending key order, each
    with the amounts of its rows. *)
Fixpoint group_insert (k : month_key) (v : sqlval)
    (gs : list (month_key * list sqlval)) : list (month_key * list sqlval) :=
  match gs with
  | [] => [(k, [v])]
  | (k', vs) :: rest =>
      if month_eqb k k' then (k', vs ++ [v]) :: rest
      else if month_ltb k k' then (k, [v]) :: gs
      else (k', vs) :: group_insert k v rest
  end.

Fixpoint traverse {A B : Type} (f : A -> result B) (l : list A) : result (list B) :=
  match l with
  | [] => inr []
  | x :: rest => y <- f x ;; ys <- traverse f rest ;; inr (y :: ys)
  end.

(** Rows in the ascending order of a text key, rows of equal key in the
    order they had: the order an index on the key gives. *)
Fixpoint insert_asc {A : Type} (key : A -> string) (x : A) (l : list A) : list A :=
  match l with
  | [] => [x]
  | y :: rest => if String.leb (key y) (key x) then y :: insert_asc key x rest
                 else x :: l
  end.

Definition order_by_text {A : Type} (key : A -> string) (l : list A) : list A :=
  fold_left (fun sorted x => insert_asc key x sorted) l [].

(** A Python dict as [jsonify] writes it: one item for each key, with the
    value set last, in the order of the keys. *)
Fixpoint set_item {A : Type} (k : string) (v : A) (items : list (string * A))
    : list (string * A) :=
  match items with
  | [] => [(k, v)]
  | (k', v') :: rest =>
      if String.eqb k k' then (k, v) :: rest
      else if String.leb k k' then (k, v) :: items
      else (k', v') :: set_item k v rest
  end.

Definition dict_items {A : Type} (pairs : list (string * A)) : list (string * A) :=
  fold_left (fun items '(k, v) => set_item k v items) pairs [].

(** ** The statements and the handlers *)

Section Handlers.

Variable cv : conversions.

(** A column declared DECIMAL, DATE, TIMESTAMP or BOOLEAN has NUMERIC
    affinity: text that is a numeric literal is stored as the number, and a
    REAL that is a whole number strictly between the ends of the 64-bit
    range as the INTEGER. *)
Definition numeric_affinity (v : sqlval) : sqlval :=
  match v with
  | SText s => match numeric_text cv s with Some n => cell_of n | None => v end
  | SReal f => match float_integer f with
               | Some z => if (-9223372036854775808 <? z) && (z <? 9223372036854775807)
                           then SInt z else v
               | None => v
               end
  | _ => v
  end.

(** A column declared VARCHAR or TEXT has TEXT affinity: its content is
    text, or NULL ([None]). *)
Definition text_cell (v : sqlval) : option string :=
  match v with
  | SNull => None
  | SInt z => Some (text_of_int z)
  | SReal f => Some (text_of_real cv f)
  | SText s => Some s
  end.

(** [column = ?] on a VARCHAR column: the parameter is compared as text. *)
Definition text_is (col : string) (param : sqlval) : bool :=
  match text_cell param with
  | Some s => String.eqb col s
  | None => false
  end.

Definition some_cell (v : sqlval) : option sqlval :=
  match v with
  | SNull => None
  | _ => Some v
  end.

(** A NOT NULL column refuses NULL. *)
Definition not_null {A : Type} (cell : option A) : result A :=
  match cell with
  | Some x => inr x
  | None => inl IntegrityError
  end.

(** The cells of a list when all are INTEGER. *)
Fixpoint all_integers (cells : list sqlval) : option (list Z) :=
  match cells with
  | [] => Some []
  | SInt z :: rest => option_map (cons z) (all_integers rest)
  | _ :: rest => None
  end.

(** The running total of SUM over integers, in the order of the rows:
    [None] as soon as a partial sum leaves the 64-bit range. *)
Fixpoint sum_integers (total : Z) (cells : list Z) : option Z :=
  match cells with
  | [] => Some total
  | z :: rest => if int64 (total + z) then sum_integers (total + z) rest else None
  end.

(** SUM(amount): NULL over no row that is not NULL; the exact total when
    every cell is an INTEGER, unless it overflows, which raises. *)
Definition sql_sum (cells : list sqlval) : result (option number) :=
  match filter (fun v => match v with SNull => false | _ => true end) cells with
  | [] => inr None
  | values =>
      match all_integers values with
      | Some integers =>
          match sum_integers 0 integers with
          | Some total => inr (Some (NInt total))
          | None => inl OperationalError
          end
      | None =>
          match sum_with_reals cv values with
          | Some total => inr total
          | None => inl OperationalError
          end
      end
  end.

(** The number an operand of + is read as; [None] for NULL. *)
Definition sql_number (v : sqlval) : option number :=
  match v with
  | SNull => None
  | SInt z => Some (NInt z)
  | SReal f => Some (NReal f)
  | SText s => Some (text_value cv s)
  end.

Definition real_of (n : number) : double :=
  match n with
  | NInt z => float_of_int64 z
  | NReal f => f
  end.

(** A REAL result of an expression; NaN is NULL. *)
Definition real_result (f : double) : sqlval :=
  if is_nan f then SNull else SReal f.

(** [a + b] in SQL: NULL when either is; the exact sum of two integers
    unless it overflows; else the sum of the two as doubles. *)
Definition sql_add (a b : sqlval) : sqlval :=
  match sql_number a, sql_number b with
  | Some (NInt x), Some (NInt y) =>
      if int64 (x + y) then SInt (x + y)
      else real_result (float_of_int64 x + float_of_int64 y)
  | Some x, Some y => real_result (real_of x + real_of y)
  | _, _ => SNull
  end.

(** Python's [float(cell)]. *)
Definition float (v : sqlval) : result double :=
  match v with
  | SInt z => inr (float_of_int64 z)
  | SReal f => inr f
  | SText s => match py_float cv s with
               | Some f => inr f
               | None => inl ValueError
               end
  | SNull => inl TypeError
  end.

(** *** /api/income *)

Definition isinstance_int_float (v : pyval) : bool :=
  match v with
  | PBool _ => true      (* bool is a subclass of int *)
  | PInt _ => true
  | PFloat _ => true
  | _ => false
  end.

(** [amount < 0], for a value that passed the isinstance test. *)
Definition lt_zero (v : pyval) : bool :=
  match v with
  | PInt z => z <? 0
  | PFloat f => PrimFloat.ltb f 0
  | _ => false
  end.

(** INSERT INTO income ... ON CONFLICT(user_id, month_year) DO UPDATE SET
    amount = excluded.amount, created_at = CURRENT_TIMESTAMP *)
Fixpoint upsert_income (uid : option Z) (amount : sqlval) (m : month_key)
    (ts : datetime) (rows : list income_row) : list income_row :=
  match rows with
  | [] => [mkincome uid amount m ts]
  | r :: rest =>
      if user_is (inc_user_id r) uid && month_eqb (inc_month_year r) m
      then mkincome (inc_user_id r) amount (inc_month_year r) ts :: rest
      else r :: upsert_income uid amount m ts rest
  end.

Definition execute_upsert_income (uid : option Z) (amount : pyval) (m : month_key)
    (ts : datetime) (db : database) : result database :=
  a <- bind amount ;;
  amt <- not_null (some_cell (numeric_affinity a)) ;;
  inr (set_income_rows db (upsert_income uid amt m ts (income db))).

Definition set_income (s : session) (json : jsonobj) (clk : clock) (db : database)
    : response * database :=
  match check_session s with
  | Some error_response => (error_response, db)
  | None =>
      let amount := dict_get json "amount" PNone in
      if negb (isinstance_int_float amount) || lt_zero amount
      then (ErrorResponse 400 InvalidAmount, db)
      else
        let current_month := strftime_Ym (now clk) in
        match execute_upsert_income (user_id s) amount current_month
                                    (current_timestamp clk) db with
        | inl e => (Raised e, db)
        | inr db' => (Jsonify Success, db')
        end
  end.

(** *** /api/budget and /api/budget/delete *)

(** INSERT INTO budgets ... ON CONFLICT(user_id, category, month_year)
    DO UPDATE SET amount = excluded.amount *)
Fixpoint upsert_budget (uid : option Z) (category : string) (amount : sqlval)
    (m : month_key) (ts : datetime) (rows : list budget_row) : list budget_row :=
  match rows with
  | [] => [mkbudget uid category amount m ts]
  | r :: rest =>
      if user_is (bud_user_id r) uid && String.eqb (bud_category r) category
         && month_eqb (bud_month_year r) m
      then mkbudget (bud_user_id r) (bud_category r) amount (bud_month_year r)
                    (bud_created_at r) :: rest
      else r :: upsert_budget uid category amount m ts rest
  end.

Definition execute_upsert_budget (uid : option Z) (category amount : pyval)
    (m : month_key) (ts : datetime) (db : database) : result database :=
  c <- bind category ;;
  a <- bind amount ;;
  cat <- not_null (text_cell c) ;;
  amt <- not_null (some_cell (numeric_affinity a)) ;;
  inr (set_budget_rows db (upsert_budget uid cat amt m ts (budgets db))).

Definition add_budget (s : session) (json : jsonobj) (clk : clock) (db : database)
    : response * database :=
  match check_session s with
  | Some error_response => (error_response, db)
  | None =>
      let category := dict_get json "category" PNone in
      let amount := dict_get json "amount" PNone in
      let current_month := strftime_Ym (now clk) in
      match execute_upsert_budget (user_id s) category amount current_month
                                  (current_timestamp clk) db with
      | inl e => (Raised e, db)
      | inr db' => (Jsonify Success, db')
      end
  end.

(** The WHERE clause of the budget statements. *)
Definition budget_where (uid : option Z) (c : sqlval) (m : month_key)
    (r : budget_row) : bool :=
  user_is (bud_user_id r) uid && text_is (bud_category r) c
  && month_eqb (bud_month_year r) m.

(** DELETE FROM budgets WHERE user_id = ? AND category = ? AND month_year = ? *)
Definition execute_delete_budget (uid : option Z) (category : pyval)
    (m : month_key) (db : database) : result database :=
  c <- bind category ;;
  inr (set_budget_rows db
         (filter (fun r => negb (budget_where uid c m r)) (budgets db))).

Definition delete_budget (s : session) (json : jsonobj) (clk : clock) (db : database)
    : response * database :=
  match check_session s with
  | Some error_response => (error_response, db)
  | None =>
      let category := dict_get json "category" PNone in
      let current_month := strftime_Ym (now clk) in
      match execute_delete_budget (user_id s) category current_month db with
      | inl e => (Raised e, db)
      | inr db' => (Jsonify Success, db')
      end
  end.

(** *** /api/expense and the overspend check *)

(** INSERT INTO expenses (user_id, category, amount, description); the
    timestamp is the column's default. *)
Definition execute_insert_expense (uid : option Z)
    (category amount description : pyval) (ts : datetime) (db : database)
    : result database :=
  c <- bind category ;;
  a <- bind amount ;;
  d <- bind description ;;
  cat <- not_null (text_cell c) ;;
  amt <- not_null (some_cell (numeric_affinity a)) ;;
  inr (set_expense_rows db (expenses db ++ [mkexpense uid cat amt (text_cell d) ts])).

(** SELECT SUM(amount) as total FROM expenses
    WHERE user_id = ? AND category = ? AND timestamp >= ? *)
Definition select_total (uid : option Z) (c : sqlval) (since : datetime)
    (db : database) : result (option number) :=
  sql_sum (map exp_amount
             (filter (fun e => user_is (exp_user_id e) uid
                               && text_is (exp_category e) c
                               && dt_leb since (exp_timestamp e))
                     (expenses db))).


(** A Python number: an [int] or a [float]. *)
Inductive pynum : Type :=
  | PyInt (z : Z)
  | PyFloat (f : double).

(** [total_spent_row['total'] or 0]: the int 0 for NULL and for a total
    that is zero. *)
Definition or_0 (total : option number) : pynum :=
  match total with
  | None => PyInt 0
  | Some (NInt z) => PyInt z
  | Some (NReal f) => if PrimFloat.eqb f 0 then PyInt 0 else PyFloat f
  end.

(** [total_spent > budget_amount] *)
Definition py_gt (a : pynum) (b : double) : bool :=
  match a with
  | PyInt z => int_gt_float z b
  | PyFloat f => PrimFloat.ltb b f
  end.

(** [total_spent - budget_amount]: an [int] is rounded to a [float]
    first. *)
Definition py_sub (a : pynum) (b : double) : double :=
  match a with
  | PyInt z => (float_of_int64 z - b)%float
  | PyFloat f => (f - b)%float
  end.

(** The total of the month, with [month_start] the first instant of the
    current month on the server's clock. *)
Definition total_spent (uid : option Z) (c : sqlval) (clk : clock) (db : database)
    : result pynum :=
  total <- select_total uid c (month_start (now_again clk)) db ;;
  inr (or_0 total).

Definition check_overspending (uid : option Z) (category : pyval) (clk : clock)
    (db : database) : result database :=
  let current_month := strftime_Ym (now clk) in
  c <- bind category ;;
  match find (budget_where uid c current_month) (budgets db) with
  | None => inr db
  | Some budget =>
      total_spent <- total_spent uid c clk db ;;
      budget_amount <- float (bud_amount budget) ;;
      if py_gt total_spent budget_amount then
        let overspent_amount := py_sub total_spent budget_amount in
        inr (set_notification_rows db
               (notifications db ++
                [mknotification uid (mkalert category (format_2f overspent_amount))
                                "danger" false (current_timestamp_again clk)]))
      else inr db
  end.

Definition add_expense (s : session) (json : jsonobj) (clk : clock) (db : database)
    : response * database :=
  match check_session s with
  | Some error_response => (error_response, db)
  | None =>
      let category := dict_get json "category" PNone in
      let amount := dict_get json "amount" PNone in
      let description := dict_get json "description" (PStr "") in
      match execute_insert_expense (user_id s) category amount description
                                   (current_timestamp clk) db with
      | inl e => (Raised e, db)
      | inr db1 =>
          match check_overspending (user_id s) category clk db1 with
          | inl e => (Raised e, db1)
          | inr db2 => (Jsonify Success, db2)
          end
      end
  end.

(** *** /api/goal, /api/goal/delete and /api/saving *)

Definition goal_where (uid : option Z) (n : sqlval) (g : goal_row) : bool :=
  user_is (goal_user_id g) uid && text_is (goal_name g) n.

(** INSERT INTO goals (user_id, name, target_amount, deadline), under
    NOT NULL on the three and UNIQUE(user_id, name); [current_amount]
    defaults to 0. *)
Definition execute_insert_goal (uid : option Z) (name target deadline : pyval)
    (ts : datetime) (db : database) : result database :=
  n <- bind name ;;
  t <- bind target ;;
  d <- bind deadline ;;
  nm <- not_null (text_cell n) ;;
  tgt <- not_null (some_cell (numeric_affinity t)) ;;
  dl <- not_null (some_cell (numeric_affinity d)) ;;
  if existsb (fun g => user_is (goal_user_id g) uid && String.eqb (goal_name g) nm)
             (goals db)
  then inl IntegrityError
  else inr (set_goal_rows db (goals db ++ [mkgoal uid nm tgt (SInt 0) dl ts])).

Definition add_goal (s : session) (json : jsonobj) (clk : clock) (db : database)
    : response * database :=
  match check_session s with
  | Some error_response => (error_response, db)
  | None =>
      let name := dict_get json "name" PNone in
      let target_amount := dict_get json "target" PNone in
      let deadline := dict_get json "deadline" PNone in
      match execute_insert_goal (user_id s) name target_amount deadline
                                (current_timestamp clk) db with
      | inr db' => (Jsonify Success, db')
      | inl IntegrityError => (ErrorResponse 400 (GoalExists name), db)
      | inl e => (Raised e, db)
      end
  end.

(** DELETE FROM goals WHERE user_id = ? AND name = ? *)
Definition execute_delete_goal (uid : option Z) (name : pyval) (db : database)
    : result database :=
  n <- bind name ;;
  inr (set_goal_rows db (filter (fun g => negb (goal_where uid n g)) (goals db))).

Definition delete_goal (s : session) (json : jsonobj) (clk : clock) (db : database)
    : response * database :=
  match check_session s with
  | Some error_response => (error_response, db)
  | None =>
      let name := dict_get json "name" PNone in
      match execute_delete_goal (user_id s) name db with
      | inl e => (Raised e, db)
      | inr db' => (Jsonify Success, db')
      end
  end.

(** UPDATE goals SET current_amount = current_amount + ?
    WHERE user_id = ? AND name = ? *)
Definition execute_update_goal (amount : pyval) (uid : option Z) (goal_name' : pyval)
    (db : database) : result database :=
  a <- bind amount ;;
  n <- bind goal_name' ;;
  inr (set_goal_rows db
         (map (fun g =>
                 if goal_where uid n g
                 then mkgoal (goal_user_id g) (goal_name g) (goal_target_amount g)
                             (numeric_affinity (sql_add (goal_current_amount g) a))
                             (goal_deadline g) (goal_created_at g)
                 else g)
              (goals db))).

Definition add_saving (s : session) (json : jsonobj) (clk : clock) (db : database)
    : response * database :=
  match check_session s with
  | Some error_response => (error_response, db)
  | None =>
      let goal_name' := dict_get json "goal_name" PNone in
      let amount := dict_get json "amount" PNone in
      match execute_update_goal amount (user_id s) goal_name' db with
      | inl e => (Raised e, db)
      | inr db' => (Jsonify Success, db')
      end
  end.

(** *** The read handlers *)

Definition notification_dict (n : notification_row) : notification_view :=
  mknotification_view (ntf_message n) (ntf_type n) (ntf_is_read n) (ntf_created_at n).

(** SELECT ... FROM notifications WHERE user_id = ?
    ORDER BY created_at DESC LIMIT 50 *)
Definition get_notifications (s : session) (clk : clock) (db : database)
    : response * database :=
  match check_session s with
  | Some error_response => (error_response, db)
  | None =>
      let rows :=
        firstn 50 (order_by_desc ntf_created_at
                     (filter (fun n => user_is (ntf_user_id n) (user_id s))
                             (notifications db))) in
      (Jsonify (Notifications (map notification_dict rows)), db)
  end.

(** [load_user_data]: the five queries, then the dict built from them.  The
    budgets come through the index of their UNIQUE constraint, in the order
    of their categories, and the goals through theirs, in the order of
    their names, before they are sorted by [created_at]; the deadline of a
    goal is converted as its row is fetched, before any amount is read. *)
Definition load_user_data (uid : option Z) (clk : clock) (db : database)
    : result read_model :=
  let current_month := strftime_Ym (now clk) in
  let income_row :=
    find (fun r => user_is (inc_user_id r) uid
                   && month_eqb (inc_month_year r) current_month) (income db) in
  let budget_rows :=
    order_by_text bud_category
      (filter (fun r => user_is (bud_user_id r) uid
                        && month_eqb (bud_month_year r) current_month) (budgets db)) in
  let expense_rows :=
    order_by_desc exp_timestamp
      (filter (fun e => user_is (exp_user_id e) uid) (expenses db)) in
  let goal_rows :=
    order_by_desc goal_created_at
      (order_by_text goal_name
         (filter (fun g => user_is (goal_user_id g) uid) (goals db))) in
  goals_fetched <- traverse (fun g => match goal_deadline g with
                                      | SNull => inr (g, "None"%string)
                                      | deadline => d <- convert_date cv deadline ;;
                                                    inr (g, d)
                                      end) goal_rows ;;
  let notification_rows :=
    firstn 10 (order_by_desc ntf_created_at
                 (filter (fun n => user_is (ntf_user_id n) uid
                                   && negb (ntf_is_read n))
                         (notifications db))) in
  amount <- match income_row with
            | Some r => float (inc_amount r)
            | None => inr 0%float
            end ;;
  budgets' <- traverse (fun b => a <- float (bud_amount b) ;;
                                 inr (bud_category b, a)) budget_rows ;;
  expenses' <- traverse (fun e => a <- float (exp_amount e) ;;
                                  inr (mkexpense_view (exp_category e) a
                                         (match exp_description e with
                                          | Some d => d
                                          | None => ""%string
                                          end)
                                         (exp_timestamp e))) expense_rows ;;
  goals' <- traverse (fun '(g, d) => t <- float (goal_target_amount g) ;;
                                     c <- float (goal_current_amount g) ;;
                                     inr (goal_name g, mkgoal_view t c d))
                     goals_fetched ;;
  inr (mkread_model amount (option_map inc_created_at income_row)
         (dict_items budgets') expenses' (dict_items goals')
         (map notification_dict notification_rows)).

Definition get_data (s : session) (clk : clock) (db : database)
    : response * database :=
  match check_session s with
  | Some error_response => (error_response, db)
  | None =>
      match load_user_data (user_id s) clk db with
      | inl e => (Raised e, db)
      | inr d => (Jsonify (Data d), db)
      end
  end.

(** SELECT strftime('%Y-%m', timestamp) as month, SUM(amount) as total_expenses
    FROM expenses WHERE user_id = ? AND timestamp >= ?
    GROUP BY month ORDER BY month,
    with [six_months_ago] the text ['%Y-%m-01'] of the day 180 days back;
    then [float] of each total. *)
Definition generate_trend_analysis (uid : option Z) (clk : clock) (db : database)
    : result (list month_key * list double) :=
  match minus_days 180 (now clk) with
  | None => inl OverflowError
  | Some d =>
      let six_months_ago := [year d; month d; 1] in
      let rows :=
        filter (fun e => user_is (exp_user_id e) uid
                         && lex_leb six_months_ago (dt_fields (exp_timestamp e)))
               (expenses db) in
      trends <- traverse (fun g => total <- sql_sum (snd g) ;; inr (fst g, total))
                  (fold_left (fun gs e => group_insert (strftime_Ym (exp_timestamp e))
                                                       (exp_amount e) gs)
                             rows []) ;;
      totals <- traverse (fun t => float (match snd t with
                                          | Some total => cell_of total
                                          | None => SNull
                                          end)) trends ;;
      inr (map fst trends, totals)
  end.

Definition get_trends (s : session) (clk : clock) (db : database)
    : response * database :=
  match check_session s with
  | Some error_response => (error_response, db)
  | None =>
      match generate_trend_analysis (user_id s) clk db with
      | inl e => (Raised e, db)
      | inr t => (Jsonify (Trends (fst t) (snd t)), db)
      end
  end.

(** *** The server as a transition system *)

Inductive request : Type :=
  | GetData
  | SetIncome (json : jsonobj)
  | AddBudget (json : jsonobj)
  | DeleteBudget (json : jsonobj)
  | AddExpense (json : jsonobj)
  | AddGoal (json : jsonobj)
  | DeleteGoal (json : jsonobj)
  | AddSaving (json : jsonobj)
  | GetNotifications
  | GetTrends.

Definition handle (s : session) (r : request) (clk : clock) (db : database)
    : response * database :=
  match r with
  | GetData => get_data s clk db
  | SetIncome json => set_income s json clk db
  | AddBudget json => add_budget s json clk db
  | DeleteBudget json => delete_budget s json clk db
  | AddExpense json => add_expense s json clk db
  | AddGoal json => add_goal s json clk db
  | DeleteGoal json => delete_goal s json clk db
  | AddSaving json => add_saving s json clk db
  | GetNotifications => get_notifications s clk db
  | GetTrends => get_trends s clk db
  end.

(** The stores the data handlers can produce from one that holds accounts
    only. *)
Inductive reachable : database -> Prop :=
  | reachable_init (accounts : list user_row) :
      reachable (mkdb accounts [] [] [] [] [])
  | reachable_step (db : database) (s : session) (r : request) (clk : clock) :
      reachable db -> reachable (snd (handle s r clk db)).

End Handlers.

(** ** The account pages

    [home], [login], [register] and [logout].  A view is a function from the
    method and the form of the request, the caller's session and the store
    to a page, the session afterwards and the store afterwards.  The
    password hash belongs to werkzeug, not to [app.py]: the views are
    embedded over any choice of it. *)

Record hashing : Type := mkhashing {
  (* the hash of a password under the salt the call draws *)
  generate_password_hash : string -> string -> string;
  (* whether a stored hash accepts what the form gave as the password;
     [None] when the call raises *)
  check_password_hash : string -> option string -> option bool
}.

Inductive http_method : Type := GET | POST.

(** [request.form]: a field that was not sent reads [None]. *)
Record form : Type := mkform {
  form_username : option string;
  form_password : option string;
  form_confirm_password : option string
}.

Inductive template : Type := LOGIN_HTML | REGISTER_HTML | MAIN_HTML.

Inductive login_message : Type :=
  | InvalidCredentials         (* "Invalid credentials" *)
  | PleaseFillOutAllFields     (* "Please fill out all fields." *)
  | PasswordsDontMatch         (* "Passwords don't match" *)
  | PasswordTooShort           (* "Password must be at least 6 characters" *)
  | UsernameAlreadyExists.     (* "Username already exists" *)

(** The targets of [url_for]. *)
Inductive endpoint : Type := login_endpoint | home_endpoint.

Inductive page : Type :=
  | Redirect (target : endpoint)
  | Render (t : template) (message : option login_message)
  | PageRaised.                (* an exception leaves the view *)

Definition set_user_rows (db : database) (rows : list user_row) : database :=
  mkdb rows (income db) (budgets db) (expenses db) (goals db) (notifications db).

(** The id AUTOINCREMENT gives a new row: one above every id of the table,
    and 1 in an empty table. *)
Definition next_user_id (rows : list user_row) : Z :=
  1 + fold_right Z.max 0 (map usr_id rows).

(** SELECT * FROM users WHERE username = ?, [fetchone] *)
Definition select_user (username : option string) (db : database) : option user_row :=
  match username with
  | Some n => find (fun r => String.eqb (usr_username r) n) (users db)
  | None => None
  end.

(** INSERT INTO users (username, password_hash) VALUES (?, ?), under
    UNIQUE on the username. *)
Definition execute_insert_user (username password_hash : string) (db : database)
    : result database :=
  if existsb (fun r => String.eqb (usr_username r) username) (users db)
  then inl IntegrityError
  else inr (set_user_rows db
              (users db ++ [Build_user_row (next_user_id (users db)) username
                                           password_hash])).

(** The truth value of a form field: [None] and the empty text are false. *)
Definition truthy (v : option string) : bool :=
  match v with
  | Some t => negb (String.eqb t "")
  | None => false
  end.

(** [v == "..."] *)
Definition field_is (v : option string) (t : string) : bool :=
  match v with
  | Some t' => String.eqb t' t
  | None => false
  end.

Definition home (s : session) (db : database) : page * session * database :=
  if negb (logged_in s) then (Redirect login_endpoint, s, db)
  else (Render MAIN_HTML None, s, db).

Section Accounts.

Variable h : hashing.

(** [salt] is what [generate_password_hash] draws during the request. *)
Definition login (method : http_method) (f : form) (salt : string) (s : session)
    (db : database) : page * session * database :=
  match method with
  | POST =>
      let username := form_username f in
      let password := form_password f in
      let finish (user : option user_row) (db : database) :=
        match user with
        | Some user =>
            match check_password_hash h (usr_password_hash user) password with
            | Some true =>
                (Redirect home_endpoint, mksession true (Some (usr_id user)), db)
            | Some false => (Render LOGIN_HTML (Some InvalidCredentials), s, db)
            | None => (PageRaised, s, db)
            end
        | None => (Render LOGIN_HTML (Some InvalidCredentials), s, db)
        end in
      match select_user username db with
      | Some user => finish (Some user) db
      | None =>
          if field_is username "demo" && field_is password "demo" then
            let password_hash := generate_password_hash h salt "demo" in
            match execute_insert_user "demo" password_hash db with
            | inr db' => finish (select_user username db') db'
            | inl IntegrityError => finish (select_user username db) db
            | inl _ => (PageRaised, s, db)
            end
          else finish None db
      end
  | GET => (Render LOGIN_HTML None, s, db)
  end.

(** [len(password)] counts the characters of the text, here its [ascii]s. *)
Definition register (method : http_method) (f : form) (salt : string) (s : session)
    (db : database) : page * session * database :=
  match method with
  | POST =>
      if negb (truthy (form_username f) && truthy (form_password f)
               && truthy (form_confirm_password f))
      then (Render REGISTER_HTML (Some PleaseFillOutAllFields), s, db)
      else
        match form_username f, form_password f, form_confirm_password f with
        | Some username, Some password, Some confirm_password =>
            if negb (String.eqb password confirm_password)
            then (Render REGISTER_HTML (Some PasswordsDontMatch), s, db)
            else if (String.length password <? 6)%nat
            then (Render REGISTER_HTML (Some PasswordTooShort), s, db)
            else
              let password_hash := generate_password_hash h salt password in
              match execute_insert_user username password_hash db with
              | inr db' => (Redirect login_endpoint, s, db')
              | inl IntegrityError =>
                  (Render REGISTER_HTML (Some UsernameAlreadyExists), s, db)
              | inl _ => (PageRaised, s, db)
              end
        | _, _, _ => (Render REGISTER_HTML (Some PleaseFillOutAllFields), s, db)
        end
  | GET => (Render REGISTER_HTML None, s, db)
  end.

(** [session.clear()] *)
Definition logout (s : session) (db : database) : page * session * database :=
  (Redirect login_endpoint, anonymous, db).

(** *** The site as a transition system *)

Inductive visit : Type :=
  | Home
  | Login (method : http_method) (f : form)
  | Register (method : http_method) (f : form)
  | Logout
  | Api (r : request).

Variable cv : conversions.

Definition serve (salt : string) (clk : clock) (s : session) (v : visit)
    (db : database) : (page + response) * session * database :=
  match v with
  | Home => let '(p, s', db') := home s db in (inl p, s', db')
  | Login method f => let '(p, s', db') := login method f salt s db in (inl p, s', db')
  | Register method f =>
      let '(p, s', db') := register method f salt s db in (inl p, s', db')
  | Logout => let '(p, s', db') := logout s db in (inl p, s', db')
  | Api r => let '(a, db') := handle cv s r clk db in (inr a, s, db')
  end.

(** The stores the site can reach from the one [init_db] creates, together
    with the session cookies it has signed.  A cookie stays valid until the
    server starts again and draws a new secret key; the store stays. *)
Inductive site : database -> list session -> Prop :=
  | site_init : site empty_db [anonymous]
  | site_restart (db : database) (cookies : list session) :
      site db cookies -> site db [anonymous]
  | site_visit (db : database) (cookies : list session) (s : session) (v : visit)
        (salt : string) (clk : clock) :
      site db cookies -> In s cookies ->
      site (snd (serve salt clk s v db)) (snd (fst (serve salt clk s v db)) :: cookies).

End Accounts.

(** ** The browser's notification badge *)

(** [updateNotificationCount]: the number on the bell and whether it shows,
    from the notifications the page holds. *)
Definition updateNotificationCount (notifications : list notification_view)
    : nat * bool :=
  let count := List.length (filter (fun n => negb (nv_is_read n)) notifications) in
  (count, (0 <? count)%nat).

(** [JSON.parse] refuses the tokens [NaN] and [Infinity], which [jsonify]
    writes for a float that is not finite. *)
Definition is_finite (x : double) : bool :=
  match float_value x with
  | Some _ => true
  | None => false
  end.

Definition json_parses (d : read_model) : bool :=
  is_finite (rm_income_amount d)
  && forallb (fun b => is_finite (snd b)) (rm_budgets d)
  && forallb (fun e => is_finite (ev_amount e)) (rm_expenses d)
  && forallb (fun g => is_finite (gv_target (snd g)) && is_finite (gv_current (snd g)))
             (rm_goals d).

(** [loadState]: the state of the page becomes what /api/data answered;
    when the call fails the state stays. *)
Definition loadState (answer : response) (state : read_model) : read_model :=
  match answer with
  | Jsonify (Data d) => if json_parses d then d else state
  | _ => state
  end.

(** [loadNotifications]: the notifications of the state become what
    /api/notifications answered. *)
Definition loadNotifications (answer : response) (state : read_model) : read_model :=
  match answer with
  | Jsonify (Notifications l) =>
      mkread_model (rm_income_amount state) (rm_income_updated_at state)
                   (rm_budgets state) (rm_expenses state) (rm_goals state) l
  | _ => state
  end.

(** ** The browser's dashboard and the quick save *)


(** [expenses.reduce((sum, e) => sum + e.amount, 0)] *)
Definition reduce_amounts (expenses : list expense_view) : double :=
  fold_left (fun sum e => (sum + ev_amount e)%float) expenses 0%float.

(** What [updateDashboardStats] computes and what it puts on the page. *)
Record dashboard : Type := mkdashboard {
  totalExpenses : double;
  remaining : double;
  dashboard_income : printed;         (* income.toFixed(2) *)
  dashboard_expenses : printed;       (* totalExpenses.toFixed(2) *)
  dashboard_remaining : printed;      (* remaining.toFixed(2) *)
  dashboard_savings_rate : printed    (* the figure before the percent sign *)
}.

(** The text of the number 0. *)
Definition zero_text : printed := Fixed false 0 0.

Definition updateDashboardStats (state : read_model) (expenses : list expense_view)
    : dashboard :=
  let totalExpenses := reduce_amounts expenses in
  let income := or_zero (rm_income_amount state) in
  let remaining := (income - totalExpenses)%float in
  let savingsRate :=
    if PrimFloat.ltb 0 income then toFixed 1 (remaining / income * 100)%float
    else zero_text in
  mkdashboard totalExpenses remaining
              (toFixed 2 income) (toFixed 2 totalExpenses) (toFixed 2 remaining)
              (if printed_positive savingsRate then savingsRate else zero_text).


(** ** Vocabulary of the properties *)

(** The rows a (user, month), a (user, category, month) and a (user, name)
    address. *)
Definition income_key (u : Z) (m : month_key) (r : income_row) : bool :=
  user_is (inc_user_id r) (Some u) && month_eqb (inc_month_year r) m.

Definition budget_key (u : Z) (c : string) (m : month_key) (r : budget_row) : bool :=
  user_is (bud_user_id r) (Some u) && String.eqb (bud_category r) c
  && month_eqb (bud_month_year r) m.

Definition goal_key (u : Z) (n : string) (g : goal_row) : bool :=
  user_is (goal_user_id g) (Some u) && String.eqb (goal_name g) n.

Definition at_most_one {A : Type} (p : A -> bool) (l : list A) : Prop :=
  (List.length (filter p l) <= 1)%nat.

(** The three UNIQUE constraints of the schema. *)
Definition unique_keys (db : database) : Prop :=
  (forall u m, at_most_one (income_key u m) (income db))
  /\ (forall u c m, at_most_one (budget_key u c m) (budgets db))
  /\ (forall u n, at_most_one (goal_key u n) (goals db)).

(** A value sqlite3 can bind: anything but a list, an object, an integer
    beyond 64 bits or a string with a lone surrogate. *)
Definition is_bindable (v : pyval) : bool :=
  match v with
  | PComposite | PSurrogates => false
  | PInt z => int64 z
  | _ => true
  end.

(** A value the store keeps as a cell that is not NULL: a boolean, a
    string that encodes as UTF-8, an integer of 64 bits, or a float other
    than NaN. *)
Definition is_stored (v : pyval) : bool :=
  match v with
  | PBool _ | PStr _ => true
  | PInt z => int64 z
  | PFloat f => negb (is_nan f)
  | PNone | PSurrogates | PComposite => false
  end.


(** What a VARCHAR column and a DECIMAL or DATE column hold for a value
    that is stored. *)
Definition cell_text (cv : conversions) (v : pyval) : string :=
  match v with
  | PStr s => s
  | PInt z => text_of_int z
  | PFloat f => text_of_real cv f
  | PBool b => if b then "1"%string else "0"%string
  | _ => EmptyString
  end.

Definition cell_number (cv : conversions) (v : pyval) : sqlval :=
  match v with
  | PInt z => SInt z
  | PBool b => SInt (if b then 1 else 0)
  | PFloat f => numeric_affinity cv (SReal f)
  | PStr s => numeric_affinity cv (SText s)
  | _ => SNull
  end.

(** The budget rows and the goal rows a request addresses by a category or
    a name: those of the key of its text, and none when the value is stored
    as NULL. *)
Definition addressed_budget (cv : conversions) (u : Z) (category : pyval)
    (m : month_key) (r : budget_row) : bool :=
  is_stored category && budget_key u (cell_text cv category) m r.

Definition addressed_goal (cv : conversions) (u : Z) (name : pyval) (g : goal_row)
    : bool :=
  is_stored name && goal_key u (cell_text cv name) g.

(** The cell a bindable value is bound as. *)
Definition bound (v : pyval) : sqlval :=
  match v with
  | PBool b => SInt (if b then 1 else 0)
  | PInt z => SInt z
  | PFloat f => if is_nan f then SNull else SReal f
  | PStr s => SText s
  | PNone | PSurrogates | PComposite => SNull
  end.

(** What an income request comes to, by its amount: the Validation error
    for what is no number (absent, null, a string, a list, an object) and
    for a negative number; an exception of the store for an integer beyond
    64 bits and for NaN, which pass the handler's test; else the cell the
    request sets, a boolean counting as 1 or 0. *)
Inductive income_verdict : Type :=
  | Rejected
  | Fails (e : exn)
  | Sets (cell : sqlval).

Definition accepted_income (cv : conversions) (v : pyval) : income_verdict :=
  match v with
  | PBool b => Sets (SInt (if b then 1 else 0))
  | PInt z => if z <? 0 then Rejected
              else if int64 z then Sets (SInt z) else Fails OverflowError
  | PFloat f => if PrimFloat.ltb f 0 then Rejected
                else if is_nan f then Fails IntegrityError
                else Sets (numeric_affinity cv (SReal f))
  | _ => Rejected
  end.

(** The trailing six calendar months, the current one included. *)
Definition in_trailing_six_months (today : datetime) (k : month_key) : bool :=
  let index (m : month_key) := fst m * 12 + snd m in
  (index (strftime_Ym today) - 5 <=? index k) && (index k <=? index (strftime_Ym today)).

Definition month_lt (a b : month_key) : Prop := month_ltb a b = true.

(** The amounts a grouping files under a month key. *)
Definition amounts_of (k : month_key) (gs : list (month_key * list sqlval))
    : list sqlval :=
  flat_map (fun g => if month_eqb (fst g) k then snd g else []) gs.

(** The rows the trend query keeps, and those of them of one month. *)
Definition trend_where (uid : option Z) (since : list Z) (e : expense_row) : bool :=
  user_is (exp_user_id e) uid && lex_leb since (dt_fields (exp_timestamp e)).

Definition trend_rows (uid : option Z) (since : list Z) (k : month_key)
    (db : database) : list expense_row :=
  filter (fun e => month_eqb (strftime_Ym (exp_timestamp e)) k)
         (filter (trend_where uid since) (expenses db)).

(** The sum of the amounts of rows whose amounts are integers. *)
Definition integer_amount (v : sqlval) : Z :=
  match v with
  | SInt z => z
  | _ => 0
  end.

Definition total_amount (rows : list expense_row) : Z :=
  fold_right (fun e total => integer_amount (exp_amount e) + total) 0 rows.

(** An amount that is a whole number and not negative. *)
Definition whole_amount (e : expense_row) : Prop :=
  exists z, exp_amount e = SInt z /\ 0 <= z.

(** A timestamp as the store writes it. *)
Definition timestamp_wellformed (ts : datetime) : Prop :=
  1 <= day ts /\ 0 <= hour ts /\ 0 <= minute ts /\ 0 <= second ts.

(** The expenses of a user in a category in a month. *)
Definition month_to_date (u : Z) (c : string) (m : month_key) (db : database)
    : list expense_row :=
  filter (fun e => user_is (exp_user_id e) (Some u) && String.eqb (exp_category e) c
                   && month_eqb (strftime_Ym (exp_timestamp e)) m)
         (expenses db).

(** The rows of one user, table by table (the accounts are no user's
    rows). *)
Definition rows_of (u : Z) (db : database) : database :=
  mkdb []
       (filter (fun r => user_is (inc_user_id r) (Some u)) (income db))
       (filter (fun r => user_is (bud_user_id r) (Some u)) (budgets db))
       (filter (fun r => user_is (exp_user_id r) (Some u)) (expenses db))
       (filter (fun r => user_is (goal_user_id r) (Some u)) (goals db))
       (filter (fun r => user_is (ntf_user_id r) (Some u)) (notifications db)).

(** The exception an execution ends in, if any. *)
Definition raised {A : Type} (r : result A) : option exn :=
  match r with
  | inl e => Some e
  | inr _ => None
  end.

(** An alert as the overspend check writes it: unread and of type
    danger. *)
Definition fresh_alert (n : notification_row) : Prop :=
  ntf_is_read n = false /\ ntf_type n = "danger"%string.

(** Newest first: no row is older than one listed before it. *)
Definition newest_first {A : Type} (key : A -> datetime) (l : list A) : Prop :=
  StronglySorted (fun a b => dt_leb (key b) (key a) = true) l.

(** The notification rows of a user. *)
Definition notifications_of (uid : option Z) (db : database) : list notification_row :=
  filter (fun n => user_is (ntf_user_id n) uid) (notifications db).

(** [check_password_hash] accepts the password a hash was generated from. *)
Definition hash_correct (h : hashing) : Prop :=
  forall salt password,
    check_password_hash h (generate_password_hash h salt password) (Some password)
    = Some true.

(** The id is the id of an account of the store. *)
Definition has_account (db : database) (uid : option Z) : Prop :=
  exists account, In account (users db) /\ uid = Some (usr_id account).

(** The [user_id] of every row of the five data tables satisfies [P]. *)
Definition all_owned (P : option Z -> Prop) (db : database) : Prop :=
  Forall (fun r => P (inc_user_id r)) (income db)
  /\ Forall (fun r => P (bud_user_id r)) (budgets db)
  /\ Forall (fun r => P (exp_user_id r)) (expenses db)
  /\ Forall (fun r => P (goal_user_id r)) (goals db)
  /\ Forall (fun r => P (ntf_user_id r)) (notifications db).

(** User names and ids are unique, the ids are above zero, every cookie is
    the empty session or the session of an account, and every row of the
    data tables belongs to an account. *)
Definition accounts_wellformed (db : database) (cookies : list session) : Prop :=
  NoDup (map usr_username (users db))
  /\ NoDup (map usr_id (users db))
  /\ Forall (fun account => 0 < usr_id account) (users db)
  /\ Forall (fun s => s = anonymous
                      \/ (logged_in s = true /\ has_account db (user_id s)))
            cookies
  /\ all_owned (has_account db) db.

(** The store after a list of visits, each with the salt it draws, its clock
    and the session of the caller. *)
Definition browse (h : hashing) (cv : conversions)
    (visits : list (string * clock * session * visit)) (db : database) : database :=
  fold_left (fun d '(salt, clk, s, v) => snd (serve h cv salt clk s v d)) visits db.

(** ** A worked account

    The scenario of the specification: the user with id 1 sets an income of
    5000, budgets 300 for Food and spends 120 on it, on 4 November 2026, on
    a server whose clock is UTC. *)

(** The store after a list of requests of one session at one clock reading. *)
Definition run (cv : conversions) (s : session) (clk : clock) (rs : list request)
    (db : database) : database :=
  fold_left (fun d r => snd (handle cv s r clk d)) rs db.

Definition alice : session := login_session 1.

Definition november_4 : clock :=
  at_instant (mkdt 2026 11 4 12 0 0) (mkdt 2026 11 4 12 0 0).

Definition food (amount : Z) : jsonobj :=
  [("category"%string, PStr "Food"); ("amount"%string, PInt amount)].

Definition after_first_expense : database :=
  run integer_literals alice november_4
      [SetIncome [("amount"%string, PInt 5000)]; AddBudget (food 300);
       AddExpense (food 120)]
      empty_db.


(** 02:00 on 1 November 2026 on a server five and a half hours ahead of
    UTC. *)
Definition first_of_november : clock :=
  at_instant (mkdt 2026 11 1 2 0 0) (mkdt 2026 10 31 20 30 0).

Definition car_goal : jsonobj :=
  [("name"%string, PStr "Car"); ("target"%string, PInt 9000);
   ("deadline"%string, PStr "2027-06-30")].

Definition with_car_goal : database :=
  run integer_literals alice november_4 [AddGoal car_goal] empty_db.



(** A hashing that keeps the password as it is, for the examples. *)
Definition clear_text : hashing :=
  mkhashing (fun salt password => password)
            (fun password_hash password =>
               match password with
               | Some p => Some (String.eqb password_hash p)
               | None => None
               end).

(** Bob registers, logs in and records the scenario's first expense. *)
Definition bob_form : form :=
  mkform (Some "bob"%string) (Some "secret1"%string) (Some "secret1"%string).

Definition bob_registers : database :=
  snd (register clear_text POST bob_form "" anonymous empty_db).

Definition bob_spends : database :=
  browse clear_text integer_literals
         [(""%string, november_4, anonymous, Register POST bob_form);
          (""%string, november_4, anonymous, Login POST bob_form);
          (""%string, november_4, login_session 1, Api (AddExpense (food 120)))]
         empty_db.

Definition demo_form : form := mkform (Some "demo"%string) (Some "demo"%string) None.

(** One Food expense of 100 recorded at noon on the 15th of each month
    from May to November 2026. *)
Definition mid_month (mo : Z) : clock :=
  at_instant (mkdt 2026 mo 15 12 0 0) (mkdt 2026 mo 15 12 0 0).

Definition seven_months : database :=
  fold_left (fun db mo => snd (handle integer_literals alice (AddExpense (food 100))
                                      (mid_month mo) db))
            [5; 6; 7; 8; 9; 10; 11] empty_db.

(** A read model with an income and nothing else, and an expense of it. *)
Definition income_of (i : double) : read_model := mkread_model i None [] [] [] [].

Definition spending (a : double) : expense_view :=
  mkexpense_view "Food" a "" (mkdt 2026 11 4 12 0 0).

(** * Properties *)

(** ** Keys and comparisons *)

Lemma month_eqb_eq (a b : month_key) : month_eqb a b = true <-> a = b.
Proof.
  destruct a as [y m], b as [y' m']; unfold month_eqb; simpl.
  rewrite andb_true_iff, !Z.eqb_eq. split.
  - intros [-> ->]; reflexivity.
  - intros E; inversion E; auto.
Qed.

Lemma month_eqb_refl (a : month_key) : month_eqb a a = true.
Proof. apply month_eqb_eq; reflexivity. Qed.

Lemma user_is_eq (col param : option Z) :
  user_is col param = true <-> exists u, col = Some u /\ param = Some u.
Proof.
  destruct col as [a|], param as [b|]; simpl; split;
    try discriminate; try (intros (u & E1 & E2); discriminate).
  - intros E; apply Z.eqb_eq in E; subst; eauto.
  - intros (u & E1 & E2); inversion E1; inversion E2; subst; apply Z.eqb_refl.
Qed.

Lemma user_is_refl (u : Z) : user_is (Some u) (Some u) = true.
Proof. simpl; apply Z.eqb_refl. Qed.

Lemma user_is_null (col : option Z) : user_is col None = false.
Proof. destruct col; reflexivity. Qed.

Lemma Qlt_bool_iff (a b : Q) : Qlt_bool a b = true <-> (a < b)%Q.
Proof.
  unfold Qlt_bool. rewrite negb_true_iff. split.
  - intros E. apply Qnot_le_lt. intros L. apply Qle_bool_iff in L. congruence.
  - intros L. destruct (Qle_bool b a) eqn:E; [|reflexivity].
    apply Qle_bool_iff in E. exfalso. apply (Qlt_not_le _ _ L E).
Qed.

Lemma filter_none {A : Type} (p : A -> bool) (l : list A) :
  (forall x, In x l -> p x = false) -> filter p l = [].
Proof.
  induction l as [|x l IH]; intros H; simpl; [reflexivity|].
  rewrite (H x (or_introl eq_refl)). apply IH. intros y Hy. apply H. right; exact Hy.
Qed.


Lemma filter_length_le {A : Type} (p : A -> bool) (l : list A) :
  (List.length (filter p l) <= List.length l)%nat.
Proof.
  induction l as [|x l IH]; simpl; [lia|]. destruct (p x); simpl; lia.
Qed.

(** A key that addresses at most one row addresses the row [find] returns. *)
Lemma find_the_one {A : Type} (p : A -> bool) (l : list A) (x : A) :
  at_most_one p l -> In x l -> p x = true -> find p l = Some x.
Proof.
  unfold at_most_one. induction l as [|y l IH]; simpl; intros U Hin Hp; [contradiction|].
  destruct (p y) eqn:Ey.
  - destruct Hin as [->|Hin]; [reflexivity|]. exfalso.
    assert (In x (filter p l)) as Hx by (apply filter_In; auto).
    destruct (filter p l); [contradiction|]. simpl in U. lia.
  - destruct Hin as [->|Hin]; [congruence|]. apply IH; auto.
Qed.

Lemma find_pointwise {A : Type} (p q : A -> bool) (l : list A) :
  (forall x, p x = q x) -> find p l = find q l.
Proof.
  intros H. induction l as [|y l IH]; simpl; [reflexivity|].
  rewrite H, IH. reflexivity.
Qed.

Lemma find_none {A : Type} (p : A -> bool) (l : list A) :
  (forall x, In x l -> p x = false) -> find p l = None.
Proof.
  induction l as [|y l IH]; simpl; intros H; [reflexivity|].
  rewrite (H y (or_introl eq_refl)). apply IH. intros x Hx. apply H. right; exact Hx.
Qed.


Lemma filter_filter_comm {A : Type} (p q : A -> bool) (l : list A) :
  filter p (filter q l) = filter q (filter p l).
Proof.
  induction l as [|x l IH]; simpl; [reflexivity|].
  destruct (p x) eqn:Ep, (q x) eqn:Eq; simpl; rewrite ?Ep, ?Eq, IH; reflexivity.
Qed.

Lemma at_most_one_filter {A : Type} (p q : A -> bool) (l : list A) :
  at_most_one p l -> at_most_one p (filter q l).
Proof.
  unfold at_most_one. intros H. rewrite filter_filter_comm.
  pose proof (filter_length_le q (filter p l)). lia.
Qed.

Lemma at_most_one_app_other {A : Type} (p : A -> bool) (l : list A) (x : A) :
  at_most_one p l -> p x = false -> at_most_one p (l ++ [x]).
Proof.
  unfold at_most_one. intros H E. rewrite filter_app. simpl. rewrite E.
  rewrite app_nil_r. exact H.
Qed.

Lemma at_most_one_app_fresh {A : Type} (p : A -> bool) (l : list A) (x : A) :
  (forall y, In y l -> p y = false) -> at_most_one p (l ++ [x]).
Proof.
  unfold at_most_one. intros H. rewrite filter_app, (filter_none p l H). simpl.
  destruct (p x); simpl; lia.
Qed.

(** ** The upsert statements *)

Lemma upsert_income_same (u : Z) (amt : sqlval) (m : month_key) (ts : datetime)
    (rows : list income_row) :
  filter (income_key u m) (upsert_income (Some u) amt m ts rows)
  = match filter (income_key u m) rows with
    | [] => [mkincome (Some u) amt m ts]
    | r :: rest => mkincome (inc_user_id r) amt (inc_month_year r) ts :: rest
    end.
Proof.
  induction rows as [|r rows IH]; simpl.
  - unfold income_key; simpl. rewrite Z.eqb_refl, month_eqb_refl. reflexivity.
  - fold (income_key u m r). destruct (income_key u m r) eqn:E; simpl.
    + unfold income_key in *; simpl. rewrite E. reflexivity.
    + rewrite E. exact IH.
Qed.

Lemma upsert_income_other (uid : option Z) (amt : sqlval) (m : month_key)
    (ts : datetime) (u' : Z) (m' : month_key) (rows : list income_row) :
  income_key u' m' (mkincome uid amt m ts) = false ->
  filter (income_key u' m') (upsert_income uid amt m ts rows)
  = filter (income_key u' m') rows.
Proof.
  intros H. induction rows as [|r rows IH]; simpl.
  - rewrite H. reflexivity.
  - destruct (user_is (inc_user_id r) uid && month_eqb (inc_month_year r) m) eqn:E; simpl.
    + apply andb_true_iff in E. destruct E as [Eu Em].
      apply user_is_eq in Eu. destruct Eu as (x & Ex & ->).
      apply month_eqb_eq in Em.
      unfold income_key in *; simpl in *. rewrite Ex, Em. simpl. rewrite H. reflexivity.
    + rewrite IH. reflexivity.
Qed.

Lemma upsert_income_unique (uid : option Z) (amt : sqlval) (m : month_key)
    (ts : datetime) (rows : list income_row) :
  (forall u' m', at_most_one (income_key u' m') rows) ->
  forall u' m', at_most_one (income_key u' m') (upsert_income uid amt m ts rows).
Proof.
  intros U u' m'. specialize (U u' m'). unfold at_most_one in *.
  destruct (income_key u' m' (mkincome uid amt m ts)) eqn:E.
  - unfold income_key in E; simpl in E. apply andb_true_iff in E. destruct E as [Eu Em].
    apply user_is_eq in Eu. destruct Eu as (x & -> & Ex). inversion Ex; subst x.
    apply month_eqb_eq in Em. subst m'.
    rewrite upsert_income_same. destruct (filter (income_key u' m) rows); simpl in *; lia.
  - rewrite upsert_income_other by exact E. exact U.
Qed.

Lemma upsert_budget_same (u : Z) (c : string) (amt : sqlval) (m : month_key)
    (ts : datetime) (rows : list budget_row) :
  filter (budget_key u c m) (upsert_budget (Some u) c amt m ts rows)
  = match filter (budget_key u c m) rows with
    | [] => [mkbudget (Some u) c amt m ts]
    | r :: rest => mkbudget (bud_user_id r) (bud_category r) amt (bud_month_year r)
                            (bud_created_at r) :: rest
    end.
Proof.
  induction rows as [|r rows IH]; simpl.
  - unfold budget_key; simpl. rewrite Z.eqb_refl, String.eqb_refl, month_eqb_refl.
    reflexivity.
  - fold (budget_key u c m r). destruct (budget_key u c m r) eqn:E; simpl.
    + unfold budget_key in *; simpl. rewrite E. reflexivity.
    + rewrite E. exact IH.
Qed.

Lemma upsert_budget_other (uid : option Z) (c : string) (amt : sqlval)
    (m : month_key) (ts : datetime) (u' : Z) (c' : string) (m' : month_key)
    (rows : list budget_row) :
  budget_key u' c' m' (mkbudget uid c amt m ts) = false ->
  filter (budget_key u' c' m') (upsert_budget uid c amt m ts rows)
  = filter (budget_key u' c' m') rows.
Proof.
  intros H. induction rows as [|r rows IH]; simpl.
  - rewrite H. reflexivity.
  - destruct (user_is (bud_user_id r) uid && String.eqb (bud_category r) c
              && month_eqb (bud_month_year r) m) eqn:E; simpl.
    + apply andb_true_iff in E. destruct E as [E Em].
      apply andb_true_iff in E. destruct E as [Eu Ec].
      apply user_is_eq in Eu. destruct Eu as (x & Ex & ->).
      apply String.eqb_eq in Ec. apply month_eqb_eq in Em.
      unfold budget_key in *; simpl in *. rewrite Ex, Ec, Em. simpl. rewrite H. reflexivity.
    + rewrite IH. reflexivity.
Qed.

Lemma upsert_budget_unique (uid : option Z) (c : string) (amt : sqlval)
    (m : month_key) (ts : datetime) (rows : list budget_row) :
  (forall u' c' m', at_most_one (budget_key u' c' m') rows) ->
  forall u' c' m', at_most_one (budget_key u' c' m') (upsert_budget uid c amt m ts rows).
Proof.
  intros U u' c' m'. specialize (U u' c' m'). unfold at_most_one in *.
  destruct (budget_key u' c' m' (mkbudget uid c amt m ts)) eqn:E.
  - unfold budget_key in E; simpl in E. apply andb_true_iff in E. destruct E as [E Em].
    apply andb_true_iff in E. destruct E as [Eu Ec].
    apply user_is_eq in Eu. destruct Eu as (x & -> & Ex). inversion Ex; subst x.
    apply String.eqb_eq in Ec. apply month_eqb_eq in Em. subst c' m'.
    rewrite upsert_budget_same. destruct (filter (budget_key u' c m) rows); simpl in *; lia.
  - rewrite upsert_budget_other by exact E. exact U.
Qed.

(** The amounts of the rows an upsert leaves under other keys, and every
    other column of every row, are as before: the statement rewrites one
    amount or adds one row. *)
Lemma upsert_budget_length (uid : option Z) (c : string) (amt : sqlval)
    (m : month_key) (ts : datetime) (rows : list budget_row) :
  (List.length rows <= List.length (upsert_budget uid c amt m ts rows)
                    <= List.length rows + 1)%nat.
Proof.
  induction rows as [|r rows IH]; simpl; [lia|].
  destruct (user_is (bud_user_id r) uid && String.eqb (bud_category r) c
            && month_eqb (bud_month_year r) m); simpl; lia.
Qed.

(** ** The UNIQUE constraints hold in every reachable store *)

(** Case analysis on a scrutinee of the goal that has none inside it. *)
Ltac break_match :=
  match goal with
  | |- context [match ?x with _ => _ end] =>
      lazymatch x with
      | context [match _ with _ => _ end] => fail
      | _ => destruct x eqn:?
      end
  end.

Lemma unique_keys_set_income (db : database) (rows : list income_row) :
  unique_keys db -> (forall u m, at_most_one (income_key u m) rows) ->
  unique_keys (set_income_rows db rows).
Proof. intros (_ & B & G) I. repeat split; assumption. Qed.

Lemma unique_keys_set_budgets (db : database) (rows : list budget_row) :
  unique_keys db -> (forall u c m, at_most_one (budget_key u c m) rows) ->
  unique_keys (set_budget_rows db rows).
Proof. intros (I & _ & G) B. repeat split; assumption. Qed.

Lemma unique_keys_set_goals (db : database) (rows : list goal_row) :
  unique_keys db -> (forall u n, at_most_one (goal_key u n) rows) ->
  unique_keys (set_goal_rows db rows).
Proof. intros (I & B & _) G. repeat split; assumption. Qed.

Lemma unique_keys_set_expenses (db : database) (rows : list expense_row) :
  unique_keys db -> unique_keys (set_expense_rows db rows).
Proof. intros (I & B & G). repeat split; assumption. Qed.

Lemma unique_keys_set_notifications (db : database) (rows : list notification_row) :
  unique_keys db -> unique_keys (set_notification_rows db rows).
Proof. intros (I & B & G). repeat split; assumption. Qed.

Lemma filter_map_length {A : Type} (p : A -> bool) (f : A -> A) (l : list A) :
  (forall x, p (f x) = p x) ->
  List.length (filter p (map f l)) = List.length (filter p l).
Proof.
  intros H. induction l as [|x l IH]; simpl; [reflexivity|].
  rewrite H. destruct (p x); simpl; rewrite IH; reflexivity.
Qed.

Section Invariant.

Variable cv : conversions.

(** The overspend check writes to the notifications table only. *)
Lemma check_overspending_frame (uid : option Z) (category : pyval) (clk : clock)
    (db db' : database) :
  check_overspending cv uid category clk db = inr db' ->
  db' = db \/ exists n, db' = set_notification_rows db (notifications db ++ [n]).
Proof.
  unfold check_overspending.
  repeat break_match; intros H; try discriminate; inversion H; subst; eauto.
Qed.

Lemma handle_unique_keys (s : session) (r : request) (clk : clock) (db : database) :
  unique_keys db -> unique_keys (snd (handle cv s r clk db)).
Proof.
  intros U. destruct r; simpl.
  - unfold get_data. repeat break_match; simpl; exact U.
  - unfold set_income, execute_upsert_income, not_null.
    repeat (break_match; try discriminate); simpl; try exact U.
    apply unique_keys_set_income; [exact U|].
    apply upsert_income_unique. apply U.
  - unfold add_budget, execute_upsert_budget, not_null.
    repeat (break_match; try discriminate); simpl; try exact U.
    apply unique_keys_set_budgets; [exact U|].
    apply upsert_budget_unique. apply U.
  - unfold delete_budget, execute_delete_budget.
    repeat (break_match; try discriminate); simpl; try exact U.
    apply unique_keys_set_budgets; [exact U|].
    intros u c m. apply at_most_one_filter. apply U.
  - unfold add_expense.
    destruct (check_session s); simpl; [exact U|].
    destruct (execute_insert_expense _ _ _ _ _ _ _) as [e|db1] eqn:E1; simpl; [exact U|].
    assert (unique_keys db1) as U1.
    { revert E1. unfold execute_insert_expense, not_null.
      repeat break_match; intros E1; try discriminate.
      all: inversion E1; subst; apply unique_keys_set_expenses; exact U. }
    destruct (check_overspending _ _ _ _ _) as [e|db2] eqn:E2; simpl; [exact U1|].
    apply check_overspending_frame in E2. destruct E2 as [->|(n & ->)]; [exact U1|].
    apply unique_keys_set_notifications. exact U1.
  - unfold add_goal, execute_insert_goal, not_null.
    repeat (break_match; try discriminate); simpl; try exact U.
    apply unique_keys_set_goals; [exact U|].
    intros u n.
    match goal with
    | |- at_most_one _ (_ ++ [?g]) => destruct (goal_key u n g) eqn:K
    end.
    + apply at_most_one_app_fresh. intros g Hg.
      unfold goal_key in K; simpl in K. apply andb_true_iff in K. destruct K as [Ku Kn].
      apply user_is_eq in Ku. destruct Ku as (x & Es & Ex). inversion Ex; subst x.
      apply String.eqb_eq in Kn. subst n.
      destruct (goal_key u _ g) eqn:Kg; [|reflexivity].
      match goal with H : existsb _ _ = false |- _ =>
        rewrite <- H; symmetry; apply existsb_exists end.
      exists g. split; [exact Hg|]. rewrite Es. exact Kg.
    + apply at_most_one_app_other; [apply U | exact K].
  - unfold delete_goal, execute_delete_goal.
    repeat (break_match; try discriminate); simpl; try exact U.
    apply unique_keys_set_goals; [exact U|].
    intros u n. apply at_most_one_filter. apply U.
  - unfold add_saving, execute_update_goal.
    repeat (break_match; try discriminate); simpl; try exact U.
    apply unique_keys_set_goals; [exact U|].
    intros u n. unfold at_most_one. rewrite filter_map_length; [apply U|].
    intros g. destruct (goal_where cv (user_id s) _ g); reflexivity.
  - unfold get_notifications. repeat break_match; simpl; exact U.
  - unfold get_trends. repeat break_match; simpl; exact U.
Qed.

Lemma reachable_unique_keys (db : database) : reachable cv db -> unique_keys db.
Proof.
  induction 1 as [accounts|db s r clk _ IH].
  - repeat split; intros; unfold at_most_one; simpl; lia.
  - apply handle_unique_keys. exact IH.
Qed.

End Invariant.

(** ** Values in the store *)

Lemma stored_text (cv : conversions) (v : pyval) :
  is_stored v = true ->
  exists c, bind v = inr c /\ text_cell cv c = Some (cell_text cv v).
Proof.
  destruct v as [|b|z|f|s| |]; simpl; try discriminate; intros H.
  - destruct b; eexists; split; reflexivity.
  - rewrite H. eexists; split; reflexivity.
  - apply negb_true_iff in H. rewrite H. eexists; split; reflexivity.
  - eexists; split; reflexivity.
Qed.

Lemma numeric_affinity_not_null (cv : conversions) (c : sqlval) :
  c <> SNull -> some_cell (numeric_affinity cv c) = Some (numeric_affinity cv c).
Proof.
  destruct c as [|z|f|s]; simpl; intros N; try congruence; try reflexivity.
  - destruct (float_integer f) as [z|]; [|reflexivity].
    destruct (_ && _); reflexivity.
  - destruct (numeric_text cv s) as [[z|f]|]; reflexivity.
Qed.

Lemma stored_number (cv : conversions) (v : pyval) :
  is_stored v = true ->
  exists a, bind v = inr a
            /\ some_cell (numeric_affinity cv a) = Some (cell_number cv v).
Proof.
  destruct v as [|b|z|f|s| |]; simpl; try discriminate; intros H.
  - eexists; split; reflexivity.
  - rewrite H. eexists; split; reflexivity.
  - apply negb_true_iff in H. rewrite H. eexists; split; [reflexivity|].
    apply numeric_affinity_not_null. discriminate.
  - eexists; split; [reflexivity|].
    apply (numeric_affinity_not_null cv (SText s)). discriminate.
Qed.

(** What is not stored is refused: the binding raises, or the cell is
    NULL. *)
Lemma not_stored (cv : conversions) (v : pyval) :
  is_stored v = false ->
  (exists e, bind v = inl e)
  \/ (bind v = inr SNull).
Proof.
  destruct v as [|b|z|f|s| |]; simpl; try discriminate; intros H.
  - right; reflexivity.
  - rewrite H. left; eexists; reflexivity.
  - apply negb_false_iff in H. rewrite H. right; reflexivity.
  - left; eexists; reflexivity.
  - left; eexists; reflexivity.
Qed.

Lemma bindable_bind (v : pyval) :
  is_bindable v = true -> exists c, bind v = inr c.
Proof.
  destruct v as [|b|z|f|s| |]; simpl; try discriminate; intros H; eauto.
  - rewrite H; eauto.
  - destruct (is_nan f); eauto.
Qed.

Lemma not_bindable (v : pyval) :
  is_bindable v = false -> exists e, bind v = inl e.
Proof.
  destruct v as [|b|z|f|s| |]; simpl; try discriminate; intros H; eauto.
  rewrite H; eauto.
Qed.

Lemma stored_bindable (v : pyval) : is_stored v = true -> is_bindable v = true.
Proof. destruct v; simpl; congruence. Qed.

(** A budget request whose category and amount are stored is the upsert of
    that row. *)
Lemma add_budget_stored (cv : conversions) (u : Z) (json : jsonobj) (clk : clock)
    (db : database) :
  is_stored (dict_get json "category" PNone) = true ->
  is_stored (dict_get json "amount" PNone) = true ->
  add_budget cv (login_session u) json clk db
  = (Jsonify Success,
     set_budget_rows db
       (upsert_budget (Some u) (cell_text cv (dict_get json "category" PNone))
                      (cell_number cv (dict_get json "amount" PNone))
                      (strftime_Ym (now clk)) (current_timestamp clk) (budgets db))).
Proof.
  intros Hc Ha.
  destruct (stored_text cv _ Hc) as (c & Bc & Tc).
  destruct (stored_number cv _ Ha) as (a & Ba & Na).
  unfold add_budget, execute_upsert_budget; simpl.
  rewrite Bc, Ba, Tc, Na. reflexivity.
Qed.

(** Any other budget request raises and writes nothing. *)
Lemma add_budget_refused (cv : conversions) (u : Z) (json : jsonobj) (clk : clock)
    (db : database) :
  is_stored (dict_get json "category" PNone)
  && is_stored (dict_get json "amount" PNone) = false ->
  exists e, add_budget cv (login_session u) json clk db = (Raised e, db).
Proof.
  intros H. unfold add_budget, execute_upsert_budget; simpl.
  destruct (is_stored (dict_get json "category" PNone)) eqn:Hc.
  - simpl in H. destruct (stored_text cv _ Hc) as (c & Bc & Tc). rewrite Bc.
    destruct (not_stored cv _ H) as [(e & ->) | -> ].
    + eexists; reflexivity.
    + rewrite Tc. simpl. eexists; reflexivity.
  - destruct (not_stored cv _ Hc) as [(e & ->) | -> ].
    + eexists; reflexivity.
    + destruct (bind (dict_get json "amount" PNone)); eexists; reflexivity.
Qed.

Lemma upsert_budget_one (u : Z) (c : string) (amt : sqlval) (m : month_key)
    (ts : datetime) (rows : list budget_row) :
  at_most_one (budget_key u c m) rows ->
  exists row, filter (budget_key u c m) (upsert_budget (Some u) c amt m ts rows) = [row]
              /\ bud_amount row = amt.
Proof.
  unfold at_most_one. intros U. rewrite upsert_budget_same.
  destruct (filter (budget_key u c m) rows) as [|r [|r' rest]]; simpl in U.
  - eexists; split; reflexivity.
  - eexists; split; reflexivity.
  - lia.
Qed.

Lemma upsert_income_one (u : Z) (amt : sqlval) (m : month_key) (ts : datetime)
    (rows : list income_row) :
  at_most_one (income_key u m) rows ->
  exists row, filter (income_key u m) (upsert_income (Some u) amt m ts rows) = [row]
              /\ inc_amount row = amt /\ inc_created_at row = ts.
Proof.
  unfold at_most_one. intros U. rewrite upsert_income_same.
  destruct (filter (income_key u m) rows) as [|r [|r' rest]]; simpl in U.
  - eexists; repeat split; reflexivity.
  - eexists; repeat split; reflexivity.
  - lia.
Qed.

(** ** The session gate *)

(** C5: every data-bearing operation (fetch aggregated state, set income,
    upsert and delete budget, add expense, add and delete goal, add saving,
    fetch notifications, fetch trends), called with a session that carries no
    authenticated identity, answers the Unauthorized error and leaves the
    store as it was; the answer is the same whatever the store holds, so no
    table is read. *)
Theorem unauthorized_no_side_effect (cv : conversions) (s : session) (r : request)
    (clk : clock) (db : database) :
  logged_in s = false ->
  handle cv s r clk db = (ErrorResponse 401 NotAuthorized, db).
Proof.
  intros H.
  assert (check_session s = Some (ErrorResponse 401 NotAuthorized)) as G
    by (unfold check_session; rewrite H; reflexivity).
  destruct r; simpl;
    unfold get_data, set_income, add_budget, delete_budget, add_expense, add_goal,
           delete_goal, add_saving, get_notifications, get_trends;
    rewrite G; reflexivity.
Qed.

(** ** Budgets *)

Lemma add_budget_success (cv : conversions) (u : Z) (json : jsonobj) (clk : clock)
    (db : database) :
  fst (add_budget cv (login_session u) json clk db) = Jsonify Success
  <-> is_stored (dict_get json "category" PNone) = true
      /\ is_stored (dict_get json "amount" PNone) = true.
Proof.
  split.
  - intros S.
    destruct (is_stored (dict_get json "category" PNone)
              && is_stored (dict_get json "amount" PNone)) eqn:E.
    + apply andb_true_iff in E. exact E.
    + destruct (add_budget_refused cv u json clk db E) as (e & R).
      rewrite R in S. discriminate.
  - intros [Hc Ha]. rewrite (add_budget_stored cv u json clk db Hc Ha). reflexivity.
Qed.

(** C4: a reachable store holds at most one budget row for a (user,
    category, month), before and after the requests; of two budget requests
    for one category in one month, the second is accepted exactly when the
    store can keep its category and its amount as cells that are not NULL,
    and once it is accepted the store holds exactly one row for that (user,
    category, month), which carries the second amount, whatever the first
    request did. *)
Theorem budget_upsert_unique (cv : conversions) (db : database) (u : Z)
    (json1 json2 : jsonobj) (clk1 clk2 : clock) :
  reachable cv db ->
  dict_get json2 "category" PNone = dict_get json1 "category" PNone ->
  strftime_Ym (now clk2) = strftime_Ym (now clk1) ->
  let r1 := add_budget cv (login_session u) json1 clk1 db in
  let r2 := add_budget cv (login_session u) json2 clk2 (snd r1) in
  (forall u' c' m', at_most_one (budget_key u' c' m') (budgets db))
  /\ (forall u' c' m', at_most_one (budget_key u' c' m') (budgets (snd r2)))
  /\ (fst r2 = Jsonify Success
      <-> is_stored (dict_get json1 "category" PNone) = true
          /\ is_stored (dict_get json2 "amount" PNone) = true)
  /\ (fst r2 = Jsonify Success ->
      exists row,
        filter (budget_key u (cell_text cv (dict_get json1 "category" PNone))
                             (strftime_Ym (now clk1)))
               (budgets (snd r2)) = [row]
        /\ bud_amount row = cell_number cv (dict_get json2 "amount" PNone)).
Proof.
  intros R Ec Em r1 r2.
  assert (reachable cv (snd r2)) as R2
    by (apply (reachable_step cv _ _ (AddBudget json2));
        apply (reachable_step cv _ _ (AddBudget json1)); exact R).
  pose proof (reachable_unique_keys cv db R) as (_ & B & _).
  pose proof (reachable_unique_keys cv _ R2) as (_ & B2 & _).
  split; [exact B|]. split; [exact B2|].
  split; [subst r2; rewrite add_budget_success, Ec; reflexivity|].
  intros S. subst r2. apply add_budget_success in S. destruct S as [Hc Ha].
  rewrite (add_budget_stored cv u json2 clk2 _ Hc Ha). simpl.
  rewrite Ec, Em. apply upsert_budget_one.
  pose proof (reachable_unique_keys cv (snd r1)
                (reachable_step cv _ _ (AddBudget json1) clk1 R)) as (_ & B1 & _).
  apply B1.
Qed.

(** ** Income *)

Lemma set_income_rejected (cv : conversions) (s : session) (json : jsonobj)
    (clk : clock) (db : database) :
  logged_in s = true ->
  accepted_income cv (dict_get json "amount" PNone) = Rejected ->
  set_income cv s json clk db = (ErrorResponse 400 InvalidAmount, db).
Proof.
  intros L H. unfold set_income, check_session. rewrite L. simpl.
  destruct (dict_get json "amount" PNone) as [|b|z|f|t| |]; simpl in *;
    try reflexivity; try discriminate.
  - destruct (z <? 0); [reflexivity|]. destruct (int64 z); discriminate.
  - destruct (PrimFloat.ltb f 0); [reflexivity|]. destruct (is_nan f); discriminate.
Qed.

Lemma set_income_fails (cv : conversions) (u : Z) (json : jsonobj) (clk : clock)
    (db : database) (e : exn) :
  accepted_income cv (dict_get json "amount" PNone) = Fails e ->
  set_income cv (login_session u) json clk db = (Raised e, db).
Proof.
  intros H. unfold set_income, execute_upsert_income. simpl.
  destruct (dict_get json "amount" PNone) as [|b|z|f|t| |]; simpl in *; try discriminate.
  - destruct (z <? 0); [discriminate|]. destruct (int64 z); [discriminate|].
    inversion H; subst. reflexivity.
  - destruct (PrimFloat.ltb f 0); [discriminate|]. destruct (is_nan f); [|discriminate].
    inversion H; subst. reflexivity.
Qed.

Lemma set_income_accepted (cv : conversions) (u : Z) (json : jsonobj) (clk : clock)
    (db : database) (a : sqlval) :
  accepted_income cv (dict_get json "amount" PNone) = Sets a ->
  set_income cv (login_session u) json clk db
  = (Jsonify Success,
     set_income_rows db
       (upsert_income (Some u) a (strftime_Ym (now clk))
                      (current_timestamp clk) (income db))).
Proof.
  intros H. unfold set_income, execute_upsert_income. simpl.
  destruct (dict_get json "amount" PNone) as [|b|z|f|t| |]; simpl in *; try discriminate.
  - inversion H; subst. reflexivity.
  - destruct (z <? 0); [discriminate|]. destruct (int64 z); [|discriminate].
    inversion H; subst. reflexivity.
  - destruct (PrimFloat.ltb f 0); [discriminate|]. destruct (is_nan f); [discriminate|].
    inversion H; subst. simpl.
    destruct (float_integer f) as [z|]; [destruct (_ && _)|]; reflexivity.
Qed.

(** What an income request does: an amount that is absent, null, a string,
    a list or an object, or a negative number, answers the Validation error
    and writes nothing; an integer beyond 64 bits and NaN pass the test and
    make the store raise, and nothing is written; any other number is
    accepted, and so is a boolean, taken as 1 or 0.  An accepted amount
    leaves exactly one row for (user, current month), with that amount and
    the timestamp of the request; rows of other users and months and all
    other tables are as before; and a second accepted request in the same
    month leaves exactly one row, with the second amount. *)
Theorem set_income_validates_then_upserts (cv : conversions) (db : database) (u : Z)
    (json : jsonobj) (clk : clock) :
  reachable cv db ->
  let m := strftime_Ym (now clk) in
  let r := set_income cv (login_session u) json clk db in
  match accepted_income cv (dict_get json "amount" PNone) with
  | Rejected => r = (ErrorResponse 400 InvalidAmount, db)
  | Fails e => r = (Raised e, db)
  | Sets a =>
      fst r = Jsonify Success
      /\ (exists row, filter (income_key u m) (income (snd r)) = [row]
                      /\ inc_amount row = a
                      /\ inc_created_at row = current_timestamp clk)
      /\ (forall u' m', income_key u' m' (mkincome (Some u) a m (current_timestamp clk)) = false ->
                        filter (income_key u' m') (income (snd r))
                        = filter (income_key u' m') (income db))
      /\ set_income_rows (snd r) (income db) = db
      /\ (forall json2 clk2 a2,
            strftime_Ym (now clk2) = m ->
            accepted_income cv (dict_get json2 "amount" PNone) = Sets a2 ->
            exists row,
              filter (income_key u m)
                     (income (snd (set_income cv (login_session u) json2 clk2 (snd r))))
              = [row]
              /\ inc_amount row = a2)
  end.
Proof.
  intros R m r. subst m r.
  pose proof (reachable_unique_keys cv db R) as (I & _ & _).
  destruct (accepted_income cv (dict_get json "amount" PNone)) as [|e|a] eqn:A.
  - apply set_income_rejected; [reflexivity | exact A].
  - apply set_income_fails. exact A.
  - rewrite (set_income_accepted cv u json clk db a A). simpl.
    split; [reflexivity|]. split; [apply upsert_income_one; apply I|].
    split; [intros u' m' K; apply upsert_income_other; exact K|].
    split; [destruct db; reflexivity|].
    intros json2 clk2 a2 Em A2.
    rewrite (set_income_accepted cv u json2 clk2 _ a2 A2). simpl. rewrite Em.
    destruct (upsert_income_one u a2 (strftime_Ym (now clk))
                (current_timestamp clk2)
                (upsert_income (Some u) a (strftime_Ym (now clk))
                   (current_timestamp clk) (income db))) as (row & F & Ea & _).
    + apply upsert_income_unique. exact I.
    + exists row. split; assumption.
Qed.

Lemma bindable_bound (v : pyval) : is_bindable v = true -> bind v = inr (bound v).
Proof.
  destruct v as [|b|z|f|s| |]; simpl; try discriminate; intros H; try reflexivity.
  - rewrite H. reflexivity.
  - destruct (is_nan f); reflexivity.
Qed.

Lemma bound_text (cv : conversions) (v : pyval) :
  is_bindable v = true ->
  text_cell cv (bound v) = if is_stored v then Some (cell_text cv v) else None.
Proof.
  destruct v as [|b|z|f|s| |]; simpl; try discriminate; intros H; try reflexivity.
  - destruct b; reflexivity.
  - rewrite H. reflexivity.
  - destruct (is_nan f); reflexivity.
Qed.

Lemma budget_where_addressed (cv : conversions) (u : Z) (category : pyval)
    (m : month_key) (r : budget_row) :
  is_bindable category = true ->
  budget_where cv (Some u) (bound category) m r = addressed_budget cv u category m r.
Proof.
  intros H. unfold budget_where, addressed_budget, budget_key, text_is.
  rewrite (bound_text cv category H).
  destruct (is_stored category); [reflexivity|].
  destruct (user_is _ _); reflexivity.
Qed.

Lemma delete_budget_bindable (cv : conversions) (u : Z) (json : jsonobj) (clk : clock)
    (db : database) :
  is_bindable (dict_get json "category" PNone) = true ->
  delete_budget cv (login_session u) json clk db
  = (Jsonify Success,
     set_budget_rows db
       (filter (fun r => negb (addressed_budget cv u (dict_get json "category" PNone)
                                                (strftime_Ym (now clk)) r))
               (budgets db))).
Proof.
  intros Hc. unfold delete_budget, execute_delete_budget; simpl.
  rewrite (bindable_bound _ Hc).
  do 2 f_equal. apply filter_ext. intros r.
  rewrite (budget_where_addressed cv u _ _ r Hc). reflexivity.
Qed.

Lemma delete_budget_unbindable (cv : conversions) (u : Z) (json : jsonobj)
    (clk : clock) (db : database) :
  is_bindable (dict_get json "category" PNone) = false ->
  exists e, delete_budget cv (login_session u) json clk db = (Raised e, db).
Proof.
  intros Hc. unfold delete_budget, execute_delete_budget; simpl.
  destruct (not_bindable _ Hc) as (e & ->). eexists; reflexivity.
Qed.




(** C10, as the code has it: the budget upsert has no validation of its own
    and never answers a Validation error.  A category and an amount that
    the store keeps as cells that are not NULL (a boolean, any string, an
    integer of 64 bits of either sign, a float other than NaN) are accepted
    and written: the (user, category, current month) row is the one row of
    its key and carries that amount.  Any other category or amount (absent,
    null, NaN, a list, an object, an integer beyond 64 bits, a string with a
    lone surrogate) is not written: the statement raises and the store
    keeps its state. *)
Theorem add_budget_unvalidated (cv : conversions) (db : database) (u : Z)
    (json : jsonobj) (clk : clock) :
  reachable cv db ->
  let category := dict_get json "category" PNone in
  let amount := dict_get json "amount" PNone in
  let r := add_budget cv (login_session u) json clk db in
  (fst r = Jsonify Success \/ exists e, fst r = Raised e)
  /\ (is_stored category = true -> is_stored amount = true ->
      fst r = Jsonify Success
      /\ exists row,
           filter (budget_key u (cell_text cv category) (strftime_Ym (now clk)))
                  (budgets (snd r)) = [row]
           /\ bud_amount row = cell_number cv amount)
  /\ (is_stored category = false \/ is_stored amount = false ->
      snd r = db /\ exists e, fst r = Raised e).
Proof.
  intros R category amount r.
  pose proof (reachable_unique_keys cv db R) as (_ & B & _).
  assert (is_stored category = true -> is_stored amount = true ->
          fst r = Jsonify Success
          /\ exists row,
               filter (budget_key u (cell_text cv category) (strftime_Ym (now clk)))
                      (budgets (snd r)) = [row]
               /\ bud_amount row = cell_number cv amount) as Ok.
  { intros Hc Ha. subst r category amount.
    rewrite (add_budget_stored cv u json clk db Hc Ha). simpl.
    split; [reflexivity|]. apply upsert_budget_one. apply B. }
  assert (is_stored category = false \/ is_stored amount = false ->
          snd r = db /\ exists e, fst r = Raised e) as Refused.
  { intros H.
    destruct (add_budget_refused cv u json clk db) as (e & E).
    - fold category amount. destruct H as [-> | ->]; [reflexivity|apply andb_false_r].
    - subst r. rewrite E. split; [reflexivity|eexists; reflexivity]. }
  split; [|split; assumption].
  destruct (is_stored category) eqn:Hc; [destruct (is_stored amount) eqn:Ha|].
  - left. apply Ok; reflexivity.
  - right. apply Refused. right; reflexivity.
  - right. apply Refused. left; reflexivity.
Qed.

(** ** Goals *)

Lemma goal_exists_iff (uid : option Z) (n : string) (rows : list goal_row) (u : Z) :
  uid = Some u ->
  existsb (fun g => user_is (goal_user_id g) uid && String.eqb (goal_name g) n) rows
  = existsb (goal_key u n) rows.
Proof. intros ->. reflexivity. Qed.

(** C7, as the code has it, for a request whose name the store keeps (a
    string, a boolean, an integer of 64 bits, a float other than NaN) and
    whose target and deadline it can bind: no two goals of one owner share
    a name in a reachable store; when the owner has a goal of that name the
    request answers the Duplicate error and writes nothing; when the owner
    has none, and the store keeps the target and the deadline too (none
    absent, null or NaN), the goal is inserted as a new last row with
    accumulated amount zero, and the request succeeds. *)
Theorem add_goal_duplicate_or_insert (cv : conversions) (db : database) (u : Z)
    (json : jsonobj) (clk : clock) :
  reachable cv db ->
  let name := dict_get json "name" PNone in
  let target := dict_get json "target" PNone in
  let deadline := dict_get json "deadline" PNone in
  is_stored name = true -> is_bindable target = true -> is_bindable deadline = true ->
  let r := add_goal cv (login_session u) json clk db in
  (forall u' n', at_most_one (goal_key u' n') (goals db))
  /\ ((exists g, In g (goals db) /\ goal_key u (cell_text cv name) g = true) ->
      r = (ErrorResponse 400 (GoalExists name), db))
  /\ ((forall g, In g (goals db) -> goal_key u (cell_text cv name) g = false) ->
      is_stored target = true -> is_stored deadline = true ->
      r = (Jsonify Success,
           set_goal_rows db
             (goals db ++ [mkgoal (Some u) (cell_text cv name) (cell_number cv target)
                                  (SInt 0) (cell_number cv deadline)
                                  (current_timestamp clk)]))).
Proof.
  intros R name target deadline Hn Ht Hd r.
  pose proof (reachable_unique_keys cv db R) as (_ & _ & G).
  split; [exact G|].
  destruct (stored_text cv name Hn) as (n & Bn & Tn).
  destruct (bindable_bind target Ht) as (t & Bt).
  destruct (bindable_bind deadline Hd) as (d & Bd).
  subst r. unfold add_goal, execute_insert_goal. simpl.
  fold name target deadline. rewrite Bn, Bt, Bd, Tn. simpl.
  split.
  - intros (g & Hg & Kg).
    assert (existsb (goal_key u (cell_text cv name)) (goals db) = true) as E
      by (apply existsb_exists; exists g; split; assumption).
    destruct (some_cell (numeric_affinity cv t)); simpl; [|reflexivity].
    destruct (some_cell (numeric_affinity cv d)); simpl; [|reflexivity].
    rewrite (goal_exists_iff (Some u) _ _ u eq_refl), E. reflexivity.
  - intros N Hst Hsd.
    destruct (stored_number cv target Hst) as (t' & Bt' & Nt).
    destruct (stored_number cv deadline Hsd) as (d' & Bd' & Nd).
    rewrite Bt in Bt'. inversion Bt'; subst t'.
    rewrite Bd in Bd'. inversion Bd'; subst d'.
    rewrite Nt, Nd. simpl.
    rewrite (goal_exists_iff (Some u) _ _ u eq_refl).
    assert (existsb (goal_key u (cell_text cv name)) (goals db) = false) as E.
    { destruct (existsb _ _) eqn:X; [|reflexivity].
      apply existsb_exists in X. destruct X as (g & Hg & Kg).
      rewrite (N g Hg) in Kg. discriminate. }
    rewrite E. reflexivity.
Qed.

Lemma goal_where_addressed (cv : conversions) (u : Z) (name : pyval) (g : goal_row) :
  is_bindable name = true ->
  goal_where cv (Some u) (bound name) g = addressed_goal cv u name g.
Proof.
  intros H. unfold goal_where, addressed_goal, goal_key, text_is.
  rewrite (bound_text cv name H).
  destruct (is_stored name); [reflexivity|].
  destruct (user_is _ _); reflexivity.
Qed.




(** ** Expenses and the overspend check *)

Lemma check_overspending_no_budget (cv : conversions) (u : Z) (category : pyval)
    (clk : clock) (db : database) :
  is_bindable category = true ->
  (forall b, In b (budgets db) ->
             addressed_budget cv u category (strftime_Ym (now clk)) b = false) ->
  check_overspending cv (Some u) category clk db = inr db.
Proof.
  intros Hc N. unfold check_overspending. rewrite (bindable_bound _ Hc).
  rewrite find_none; [reflexivity|].
  intros b Hb. rewrite (budget_where_addressed cv u category _ b Hc). apply N. exact Hb.
Qed.

Lemma add_expense_inserts (cv : conversions) (u : Z) (category amount description : pyval)
    (ts : datetime) (db : database) :
  is_stored category = true -> is_stored amount = true ->
  is_bindable description = true ->
  execute_insert_expense cv (Some u) category amount description ts db
  = inr (set_expense_rows db
           (expenses db ++ [mkexpense (Some u) (cell_text cv category)
                                      (cell_number cv amount)
                                      (text_cell cv (bound description)) ts])).
Proof.
  intros Hc Ha Hd.
  destruct (stored_text cv category Hc) as (c & Bc & Tc).
  destruct (stored_number cv amount Ha) as (a & Ba & Na).
  unfold execute_insert_expense.
  rewrite Bc, Ba, (bindable_bound _ Hd), Tc, Na. reflexivity.
Qed.

(** ** The dashboard figures *)

Lemma magnitude_positive (m : positive) (e : Z) : (0 < magnitude m e)%Q.
Proof.
  unfold magnitude. destruct (0 <=? e) eqn:E.
  - apply Z.leb_le in E. change 0%Q with (inject_Z 0). rewrite <- Zlt_Qlt.
    apply Z.mul_pos_pos; [reflexivity|]. apply Z.pow_pos_nonneg; lia.
  - reflexivity.
Qed.

Lemma Qlt_bool_signed (s : bool) (x : Q) :
  (0 < x)%Q -> Qlt_bool 0 (if s then Qopp x else x) = negb s.
Proof.
  intros Hx. destruct s; simpl.
  - destruct (Qlt_bool 0 (- x)) eqn:E; [|reflexivity].
    apply Qlt_bool_iff in E. lra.
  - apply Qlt_bool_iff. exact Hx.
Qed.

Lemma float_value_positive (f : double) (q : Q) :
  float_value f = Some q -> PrimFloat.ltb 0 f = Qlt_bool 0 q.
Proof.
  rewrite ltb_spec. unfold float_value.
  change (Prim2SF 0) with (S754_zero false).
  destruct (Prim2SF f) as [s|s| |s m e]; try discriminate; cbv zeta; intros H.
  - injection H as <-. reflexivity.
  - injection H as <-.
    rewrite (Qlt_bool_signed s _ (magnitude_positive m e)).
    unfold SFltb. simpl. destruct s; reflexivity.
Qed.

Lemma tenths (n : Z) : (n # 10 == inject_Z n * (1 # 10))%Q.
Proof. unfold Qeq, Qmult, inject_Z; simpl. lia. Qed.

(** [toFixed(1)] of a magnitude is within a twentieth of it. *)
Lemma round_tenths_near (x : Q) :
  (0 <= x)%Q ->
  (Qabs (Qmake (Z.of_N (Z.to_N (Qfloor (x * inject_Z (10 ^ 1) + (1 # 2))))) 10 - x)
   <= 1 # 20)%Q.
Proof.
  intros P. change (inject_Z (10 ^ 1)) with 10%Q.
  assert (0 <= Qfloor (x * 10 + (1 # 2)))%Z as F.
  { change 0%Z with (Qfloor 0). apply Qfloor_resp_le. lra. }
  rewrite Z2N.id by exact F.
  pose proof (Qfloor_le (x * 10 + (1 # 2))) as Lo.
  pose proof (Qlt_floor (x * 10 + (1 # 2))) as Hi.
  rewrite inject_Z_plus in Hi. rewrite tenths.
  set (n := inject_Z (Qfloor (x * 10 + (1 # 2)))) in *.
  change (inject_Z 1) with 1%Q in Hi.
  apply Qabs_Qle_condition. split; lra.
Qed.

(** The text [toFixed(1)] gives a finite number below 1e21, and how far the
    number it reads as lies from the number printed. *)
Lemma toFixed_1_near (x : double) (q : Q) :
  float_value x = Some q -> (Qabs q < inject_Z (10 ^ 21))%Q ->
  exists v, printed_value (toFixed 1 x) = Some v /\ (Qabs (v - q) <= 1 # 20)%Q.
Proof.
  intros V B. unfold toFixed. rewrite V.
  destruct (Qle_bool (inject_Z (10 ^ 21)) (Qabs q)) eqn:E.
  - apply Qle_bool_iff in E. lra.
  - eexists. split; [reflexivity|].
    change (Z.to_pos (10 ^ Z.of_nat 1)) with 10%positive.
    change (Z.of_nat 1) with 1%Z.
    pose proof (round_tenths_near (Qabs q) (Qabs_nonneg q)) as N.
    set (t := Qmake (Z.of_N (Z.to_N (Qfloor (Qabs q * inject_Z (10 ^ 1) + (1 # 2))))) 10)
      in *.
    destruct (Qlt_bool q 0) eqn:S.
    + apply Qlt_bool_iff in S.
      assert (Qabs q == - q)%Q as A by (apply Qabs_neg; lra).
      rewrite A in N. apply Qabs_Qle_condition in N. apply Qabs_Qle_condition.
      destruct N. split; lra.
    + assert (0 <= q)%Q as P.
      { apply Qnot_lt_le. intros L. apply Qlt_bool_iff in L. congruence. }
      assert (Qabs q == q)%Q as A by (apply Qabs_pos; exact P).
      rewrite A in N. exact N.
Qed.

(** A figure that is not above zero shows as 0. *)
Lemma toFixed_not_positive (digits : nat) (x : double) :
  PrimFloat.ltb 0 x = false -> printed_positive (toFixed digits x) = false.
Proof.
  intros L. unfold toFixed.
  destruct (float_value x) as [q|] eqn:V; [|exact L].
  rewrite (float_value_positive x q V) in L.
  destruct (Qle_bool _ _); [simpl; rewrite (float_value_positive x q V); exact L|].
  unfold printed_positive. destruct (Qlt_bool q 0) eqn:S; [reflexivity|].
  cbn [negb andb].
  assert (q == 0)%Q as Z0.
  { apply Qle_antisym.
    - apply Qnot_lt_le. intros N. apply Qlt_bool_iff in N. congruence.
    - apply Qnot_lt_le. intros N. apply Qlt_bool_iff in N. congruence. }
  assert (Qfloor (Qabs q * inject_Z (10 ^ Z.of_nat digits) + (1 # 2)) = 0%Z) as F.
  { assert (Qabs q * inject_Z (10 ^ Z.of_nat digits) + (1 # 2) == 1 # 2)%Q as H.
    { rewrite Z0. simpl. lra. }
    rewrite H. reflexivity. }
  rewrite F. reflexivity.
Qed.

(** C9, as the code has it: every figure is a binary64.  With [i] the
    income of the read model (0 when it is NaN) and [s] the expenses given
    added up from the left, remaining is the double [i - s]; the savings
    rate shown is the double [(remaining / i) * 100] printed with one
    decimal place, when [i > 0] and the printed figure is above zero, and 0
    otherwise.  So the figure shown is never negative, is 0 whenever the
    rate is not above zero, and when it is not 0 the number it reads as is
    within 0.05 of the rate. *)
Theorem dashboard_savings_rate_rounded (state : read_model)
    (expenses : list expense_view) :
  let i := or_zero (rm_income_amount state) in
  let s := reduce_amounts expenses in
  let d := updateDashboardStats state expenses in
  let rate := (remaining d / i * 100)%float in
  totalExpenses d = s
  /\ remaining d = (i - s)%float
  /\ dashboard_savings_rate d
     = (if PrimFloat.ltb 0 i && printed_positive (toFixed 1 rate)
        then toFixed 1 rate else zero_text)
  /\ (dashboard_savings_rate d = zero_text
      \/ printed_positive (dashboard_savings_rate d) = true)
  /\ (PrimFloat.ltb 0 rate = false -> dashboard_savings_rate d = zero_text)
  /\ (forall q, float_value rate = Some q -> (Qabs q < inject_Z (10 ^ 21))%Q ->
        dashboard_savings_rate d = zero_text
        \/ exists v, printed_value (dashboard_savings_rate d) = Some v
                     /\ (Qabs (v - q) <= 1 # 20)%Q).
Proof.
  intros i s d rate.
  assert (dashboard_savings_rate d
          = (if PrimFloat.ltb 0 i && printed_positive (toFixed 1 rate)
             then toFixed 1 rate else zero_text)) as Ed.
  { subst rate d i s. unfold updateDashboardStats. cbn [dashboard_savings_rate remaining].
    destruct (PrimFloat.ltb 0 (or_zero (rm_income_amount state))); reflexivity. }
  split; [reflexivity|]. split; [reflexivity|]. split; [exact Ed|].
  split; [|split].
  - rewrite Ed. destruct (PrimFloat.ltb 0 i); simpl; [|left; reflexivity].
    destruct (printed_positive (toFixed 1 rate)) eqn:P; [right; exact P|left; reflexivity].
  - intros L. rewrite Ed, (toFixed_not_positive 1 rate L), andb_false_r. reflexivity.
  - intros q V B. rewrite Ed.
    destruct (PrimFloat.ltb 0 i && printed_positive (toFixed 1 rate));
      [right; apply toFixed_1_near; assumption|left; reflexivity].
Qed.

(** ** The trend query *)

Lemma month_ltb_irrefl (a : month_key) : month_ltb a a = false.
Proof.
  unfold month_ltb. rewrite !Z.ltb_irrefl, Z.eqb_refl. reflexivity.
Qed.

Lemma month_ltb_trans (a b c : month_key) :
  month_ltb a b = true -> month_ltb b c = true -> month_ltb a c = true.
Proof.
  destruct a as [y m], b as [y' m'], c as [y'' m'']. unfold month_ltb; simpl.
  rewrite !orb_true_iff, !andb_true_iff, !Z.ltb_lt, !Z.eqb_eq. lia.
Qed.

Lemma month_ltb_total (a b : month_key) :
  month_eqb a b = false -> month_ltb a b = false -> month_ltb b a = true.
Proof.
  destruct a as [y m], b as [y' m']. unfold month_eqb, month_ltb; simpl.
  rewrite orb_true_iff, !andb_true_iff, !orb_false_iff, !andb_false_iff,
          !Z.ltb_lt, !Z.ltb_ge, !Z.eqb_eq, !Z.eqb_neq. lia.
Qed.

Lemma month_ltb_not_eqb (a b : month_key) :
  month_ltb a b = true -> month_eqb a b = false.
Proof.
  intros L. destruct (month_eqb a b) eqn:E; [|reflexivity].
  apply month_eqb_eq in E. subst b. rewrite month_ltb_irrefl in L. discriminate.
Qed.

Lemma group_insert_keys (k : month_key) (v : sqlval)
    (gs : list (month_key * list sqlval)) (x : month_key) :
  In x (map fst (group_insert k v gs)) <-> x = k \/ In x (map fst gs).
Proof.
  induction gs as [|[k' vs] gs IH]; simpl.
  - intuition.
  - destruct (month_eqb k k') eqn:E; simpl.
    + apply month_eqb_eq in E. subst k'. intuition.
    + destruct (month_ltb k k'); simpl; [intuition|]. rewrite IH. intuition.
Qed.

Lemma group_insert_sorted (k : month_key) (v : sqlval)
    (gs : list (month_key * list sqlval)) :
  StronglySorted month_lt (map fst gs) ->
  StronglySorted month_lt (map fst (group_insert k v gs)).
Proof.
  induction gs as [|[k' vs] gs IH]; simpl; intros S.
  - constructor; constructor.
  - apply StronglySorted_inv in S. destruct S as [S F].
    destruct (month_eqb k k') eqn:E; simpl.
    + constructor; assumption.
    + destruct (month_ltb k k') eqn:L; simpl.
      * constructor; [constructor; assumption|].
        constructor; [exact L|].
        apply Forall_forall. intros x Hx.
        rewrite Forall_forall in F. apply (month_ltb_trans k k' x L). apply F. exact Hx.
      * constructor; [apply IH; exact S|].
        apply Forall_forall. intros x Hx. apply group_insert_keys in Hx.
        destruct Hx as [->|Hx].
        -- apply month_ltb_total; assumption.
        -- rewrite Forall_forall in F. apply F. exact Hx.
Qed.

Lemma amounts_of_above (k : month_key) (gs : list (month_key * list sqlval)) :
  Forall (month_lt k) (map fst gs) -> amounts_of k gs = [].
Proof.
  induction gs as [|[k' vs] gs IH]; simpl; intros F; [reflexivity|].
  inversion F as [|x l L F']; subst. unfold amounts_of in *; simpl.
  assert (month_eqb k' k = false) as E.
  { destruct (month_eqb k' k) eqn:E; [|reflexivity].
    apply month_eqb_eq in E. subst k'. unfold month_lt in L.
    rewrite month_ltb_irrefl in L. discriminate. }
  rewrite E. simpl. apply IH. exact F'.
Qed.

(** Filing an amount under [k] appends it to the amounts of [k] and leaves
    the amounts of every other key. *)
Lemma group_insert_amounts (k : month_key) (v : sqlval)
    (gs : list (month_key * list sqlval)) (x : month_key) :
  StronglySorted month_lt (map fst gs) ->
  amounts_of x (group_insert k v gs)
  = amounts_of x gs ++ (if month_eqb k x then [v] else []).
Proof.
  induction gs as [|[k' vs] gs IH]; simpl; intros S.
  - unfold amounts_of; simpl. destruct (month_eqb k x); reflexivity.
  - apply StronglySorted_inv in S. destruct S as [S F].
    destruct (month_eqb k k') eqn:E.
    + apply month_eqb_eq in E. subst k'. unfold amounts_of; simpl.
      destruct (month_eqb k x) eqn:Ex.
      * apply month_eqb_eq in Ex. subst x.
        fold (amounts_of k gs). rewrite (amounts_of_above k gs F).
        rewrite !app_nil_r. reflexivity.
      * rewrite app_nil_r. reflexivity.
    + destruct (month_ltb k k') eqn:L.
      * unfold amounts_of; simpl. fold (amounts_of x gs).
        destruct (month_eqb k x) eqn:Ex; [|simpl; rewrite app_nil_r; reflexivity].
        apply month_eqb_eq in Ex. subst x.
        assert (month_eqb k' k = false) as E'.
        { destruct (month_eqb k' k) eqn:E'; [|reflexivity].
          apply month_eqb_eq in E'. subst k'. rewrite month_eqb_refl in E. discriminate. }
        rewrite E'. simpl.
        assert (amounts_of k gs = []) as Z0.
        { apply amounts_of_above. apply Forall_forall. intros y Hy.
          rewrite Forall_forall in F. apply (month_ltb_trans k k' y L). apply F. exact Hy. }
        rewrite Z0. reflexivity.
      * unfold amounts_of in *; simpl. rewrite (IH S). rewrite app_assoc. reflexivity.
Qed.

Lemma amounts_of_group (gs : list (month_key * list sqlval))
    (g : month_key * list sqlval) :
  StronglySorted month_lt (map fst gs) -> In g gs -> amounts_of (fst g) gs = snd g.
Proof.
  induction gs as [|[k' vs] gs IH]; simpl; intros S Hg; [contradiction|].
  apply StronglySorted_inv in S. destruct S as [S F].
  unfold amounts_of; simpl. fold (amounts_of (fst g) gs).
  destruct Hg as [<-|Hg]; simpl.
  - rewrite month_eqb_refl, (amounts_of_above k' gs F). apply app_nil_r.
  - assert (month_lt k' (fst g)) as L.
    { rewrite Forall_forall in F. apply F. apply in_map. exact Hg. }
    rewrite (month_ltb_not_eqb k' (fst g) L). simpl. apply IH; assumption.
Qed.

(** The grouping of the query: ascending keys, and under each key the
    amounts of the rows of that month, in row order. *)
Lemma fold_group_insert (rows : list expense_row)
    (gs : list (month_key * list sqlval)) :
  StronglySorted month_lt (map fst gs) ->
  let groups := fold_left (fun acc e => group_insert (strftime_Ym (exp_timestamp e))
                                                     (exp_amount e) acc) rows gs in
  StronglySorted month_lt (map fst groups)
  /\ (forall k, amounts_of k groups
                = amounts_of k gs
                  ++ map exp_amount
                       (filter (fun e => month_eqb (strftime_Ym (exp_timestamp e)) k) rows))
  /\ (forall k, In k (map fst groups)
                <-> In k (map fst gs)
                    \/ exists e, In e rows /\ strftime_Ym (exp_timestamp e) = k).
Proof.
  revert gs. induction rows as [|e rows IH]; intros gs S; simpl.
  - split; [exact S|]. split.
    + intros k. rewrite app_nil_r. reflexivity.
    + intros k. split; [auto|]. intros [H|(e & [] & _)]. exact H.
  - specialize (IH (group_insert (strftime_Ym (exp_timestamp e)) (exp_amount e) gs)
                   (group_insert_sorted _ _ gs S)).
    simpl in IH. destruct IH as (S' & A & K).
    split; [exact S'|]. split.
    + intros k. rewrite A, (group_insert_amounts _ _ gs k S), <- app_assoc.
      f_equal. destruct (month_eqb (strftime_Ym (exp_timestamp e)) k); reflexivity.
    + intros k. rewrite K, group_insert_keys. split.
      * intros [[->|H]|(e' & He' & Ek)]; eauto.
      * intros [H|(e' & [<-|He'] & Ek)]; eauto.
Qed.

(** The two passes of the trend: the SUM of each group, then [float] of
    each total. *)
Lemma trend_totals (cv : conversions) (groups : list (month_key * list sqlval)) :
  match
    trends <- traverse (fun g => total <- sql_sum cv (snd g) ;; inr (fst g, total))
                       groups ;;
    totals <- traverse (fun t => float cv (match snd t with
                                           | Some total => cell_of total
                                           | None => SNull
                                           end)) trends ;;
    inr (map fst trends, totals)
  with
  | inr (labels, totals) =>
      labels = map fst groups
      /\ Forall2 (fun g t => exists total, sql_sum cv (snd g) = inr (Some total)
                                          /\ t = real_of total) groups totals
  | inl e =>
      exists g, In g groups
                /\ (sql_sum cv (snd g) = inl e
                    \/ (sql_sum cv (snd g) = inr None /\ e = TypeError))
  end.
Proof.
  induction groups as [|g groups IH]; simpl.
  - split; [reflexivity|constructor].
  - destruct (sql_sum cv (snd g)) as [e|total] eqn:S.
    + exists g. split; [left; reflexivity|left; exact S].
    + destruct (traverse _ groups) as [e|trends] eqn:T; simpl in *.
      * destruct IH as (g' & Hg' & E). exists g'. split; [right; exact Hg'|exact E].
      * destruct total as [total|]; simpl.
        -- assert (float cv (cell_of total) = inr (real_of total)) as F
             by (destruct total; reflexivity).
           rewrite F.
           destruct (traverse _ trends) as [e|totals] eqn:T2; simpl in *.
           ++ destruct IH as (g' & Hg' & E). exists g'. split; [right; exact Hg'|exact E].
           ++ destruct IH as (L & P). split; [rewrite L; reflexivity|].
              constructor; [|exact P]. exists total. split; [exact S|reflexivity].
        -- exists g. split; [left; reflexivity|right; split; [exact S|reflexivity]].
Qed.

Lemma total_amount_nonneg (rows : list expense_row) :
  Forall whole_amount rows -> 0 <= total_amount rows.
Proof.
  induction 1 as [|e rows (z & E & P) _ IH]; simpl; [lia|].
  rewrite E. simpl. lia.
Qed.

Lemma total_amount_filter (p : expense_row -> bool) (rows : list expense_row) :
  Forall whole_amount rows ->
  Forall whole_amount (filter p rows)
  /\ total_amount (filter p rows) <= total_amount rows.
Proof.
  induction 1 as [|e rows (z & E & P) _ [IH1 IH2]]; simpl; [split; [constructor|lia]|].
  destruct (p e); simpl.
  - split; [constructor; [exists z; split; assumption|exact IH1]|]. lia.
  - split; [exact IH1|]. rewrite E. simpl. lia.
Qed.

Lemma all_integers_whole (rows : list expense_row) :
  Forall whole_amount rows ->
  all_integers (map exp_amount rows)
  = Some (map (fun e => integer_amount (exp_amount e)) rows)
  /\ filter (fun v => match v with SNull => false | _ => true end) (map exp_amount rows)
     = map exp_amount rows.
Proof.
  induction 1 as [|e rows (z & E & P) _ [IH1 IH2]]; simpl; [split; reflexivity|].
  rewrite E. simpl. rewrite <- E at 2. rewrite IH1, IH2, E. split; reflexivity.
Qed.

Lemma sum_integers_whole (rows : list expense_row) (total : Z) :
  Forall whole_amount rows -> 0 <= total ->
  total + total_amount rows <= 9223372036854775807 ->
  sum_integers total (map (fun e => integer_amount (exp_amount e)) rows)
  = Some (total + total_amount rows).
Proof.
  intros F. revert total. induction F as [|e rows (z & E & P) F IH]; intros total T B; simpl.
  - f_equal. lia.
  - simpl in B. rewrite E in B |- *. simpl in B |- *.
    pose proof (total_amount_nonneg rows F) as N.
    assert (int64 (total + z) = true) as I
      by (unfold int64; apply andb_true_iff; split; apply Z.leb_le; lia).
    rewrite I, IH by lia. f_equal. lia.
Qed.

(** SUM over rows whose amounts are whole numbers that add up within 64
    bits is their sum. *)
Lemma sql_sum_whole (cv : conversions) (rows : list expense_row) :
  rows <> [] -> Forall whole_amount rows ->
  total_amount rows <= 9223372036854775807 ->
  sql_sum cv (map exp_amount rows) = inr (Some (NInt (total_amount rows))).
Proof.
  intros N F B. unfold sql_sum.
  destruct (all_integers_whole rows F) as [A K]. rewrite K.
  destruct rows as [|e rows]; [congruence|].
  remember (map exp_amount (e :: rows)) as cells eqn:C.
  destruct cells as [|c cells]; [discriminate C|].
  rewrite A, (sum_integers_whole (e :: rows) 0 F) by (try exact B; lia).
  reflexivity.
Qed.

Lemma Forall2_map_fst {A B C : Type} (P : A -> C -> Prop) (l : list (A * B))
    (ys : list C) :
  Forall2 (fun x y => P (fst x) y) l ys -> Forall2 P (map fst l) ys.
Proof. induction 1; simpl; constructor; assumption. Qed.

Lemma Forall2_weaken {A B : Type} (P Q : A -> B -> Prop) (l : list A) (ys : list B) :
  (forall x y, In x l -> P x y -> Q x y) -> Forall2 P l ys -> Forall2 Q l ys.
Proof.
  intros H F. induction F as [|x y l ys Pxy F IH]; constructor.
  - apply H; [left; reflexivity|exact Pxy].
  - apply IH. intros a b Ha. apply H. right; exact Ha.
Qed.

Lemma window_opens (y m : Z) (e : expense_row) :
  lex_leb [y; m; 1] (dt_fields (exp_timestamp e)) = true ->
  month_ltb (strftime_Ym (exp_timestamp e)) (y, m) = false.
Proof.
  unfold dt_fields, strftime_Ym, month_ltb; simpl.
  destruct (Z.ltb_spec y (year (exp_timestamp e))),
           (Z.eqb_spec y (year (exp_timestamp e))),
           (Z.ltb_spec m (month (exp_timestamp e))),
           (Z.eqb_spec m (month (exp_timestamp e))),
           (Z.ltb_spec (year (exp_timestamp e)) y),
           (Z.eqb_spec (year (exp_timestamp e)) y),
           (Z.ltb_spec (month (exp_timestamp e)) m);
    simpl; intros; try reflexivity; try discriminate; lia.
Qed.

(** The trend of a user, whenever the day 180 days back exists.  When it
    returns, the month keys come in strictly ascending order; a month has a
    point exactly when the user has an expense in it with a timestamp not
    before the first day of the month of that day, so no empty month has
    one and no month before that month has one; and the total of a month is
    the SUM of the amounts of those expenses, as a double.  When it raises,
    the SUM of one of those months overflowed, or was NULL.  And it returns
    whenever the amounts in the store are whole numbers, none negative, that
    add up within 64 bits: the total of a month is then the double nearest
    to the exact sum. *)
Theorem trend_analysis_shape (cv : conversions) (db : database) (uid : option Z)
    (clk : clock) (d : datetime) :
  minus_days 180 (now clk) = Some d ->
  let since := [year d; month d; 1] in
  let month_sum k := sql_sum cv (map exp_amount (trend_rows uid since k db)) in
  match generate_trend_analysis cv uid clk db with
  | inr (labels, totals) =>
      StronglySorted month_lt labels
      /\ (forall k, In k labels <-> trend_rows uid since k db <> [])
      /\ Forall2 (fun k t => exists total, month_sum k = inr (Some total)
                                          /\ t = real_of total) labels totals
      /\ Forall (fun k => month_ltb k (year d, month d) = false) labels
  | inl e =>
      exists k, trend_rows uid since k db <> []
                /\ (month_sum k = inl e \/ (month_sum k = inr None /\ e = TypeError))
  end
  /\ (Forall whole_amount (expenses db) ->
      total_amount (expenses db) <= 9223372036854775807 ->
      exists labels totals,
        generate_trend_analysis cv uid clk db = inr (labels, totals)
        /\ Forall2 (fun k t => t = float_of_int64 (total_amount (trend_rows uid since k db)))
                   labels totals).
Proof.
  intros Hd since month_sum.
  unfold generate_trend_analysis. rewrite Hd. fold since.
  change (filter (fun e => user_is (exp_user_id e) uid
                           && lex_leb since (dt_fields (exp_timestamp e)))
                 (expenses db))
    with (filter (trend_where uid since) (expenses db)).
  set (rows := filter (trend_where uid since) (expenses db)).
  destruct (fold_group_insert rows [] (SSorted_nil _)) as (S & A & K).
  set (groups := fold_left (fun acc e => group_insert (strftime_Ym (exp_timestamp e))
                                                      (exp_amount e) acc) rows []) in *.
  assert (forall k, In k (map fst groups) <-> trend_rows uid since k db <> []) as Keys.
  { intros k. rewrite K. unfold trend_rows. fold rows. split.
    - intros [[]|(e & He & Ek)] N.
      assert (In e (filter (fun e => month_eqb (strftime_Ym (exp_timestamp e)) k) rows)) as X
        by (apply filter_In; split; [exact He|apply month_eqb_eq; exact Ek]).
      rewrite N in X. exact X.
    - intros N. right.
      destruct (filter (fun e => month_eqb (strftime_Ym (exp_timestamp e)) k) rows)
        as [|e l] eqn:F; [congruence|].
      assert (In e (e :: l)) as X by (left; reflexivity).
      rewrite <- F in X. apply filter_In in X. destruct X as [He Ek].
      exists e. split; [exact He|apply month_eqb_eq; exact Ek]. }
  assert (forall g, In g groups ->
            snd g = map exp_amount (trend_rows uid since (fst g) db)) as Content.
  { intros g Hg. rewrite <- (amounts_of_group groups g S Hg), A. reflexivity. }
  pose proof (trend_totals cv groups) as T.
  match goal with
  | |- context [match ?x with inl _ => _ | inr _ => _ end] =>
      match type of T with
      | match ?y with inl _ => _ | inr _ => _ end => change x with y
      end
  end.
  destruct (trends <- traverse _ groups ;; _) as [e|[labels totals]].
  - split.
    + destruct T as (g & Hg & E). exists (fst g).
      split; [apply Keys; apply in_map; exact Hg|].
      unfold month_sum. rewrite <- (Content g Hg). exact E.
    + intros W B. exfalso. destruct T as (g & Hg & E).
      assert (trend_rows uid since (fst g) db <> []) as N
        by (apply Keys; apply in_map; exact Hg).
      unfold trend_rows in *.
      destruct (total_amount_filter (trend_where uid since) _ W) as [W1 B1].
      destruct (total_amount_filter
                  (fun e => month_eqb (strftime_Ym (exp_timestamp e)) (fst g))
                  _ W1) as [W2 B2].
      rewrite (Content g Hg) in E. unfold trend_rows in E.
      rewrite (sql_sum_whole cv _ N W2) in E by lia.
      destruct E as [E|[E _]]; discriminate.
  - destruct T as (-> & P).
    assert (Forall2 (fun k t => exists total, month_sum k = inr (Some total)
                                             /\ t = real_of total)
                    (map fst groups) totals) as P'.
    { apply Forall2_map_fst. eapply Forall2_weaken; [|exact P].
      intros g t Hg (total & E & ->). exists total.
      split; [unfold month_sum; rewrite <- (Content g Hg); exact E|reflexivity]. }
    split; [split; [exact S|split; [exact Keys|split; [exact P'|]]]|].
    + apply Forall_forall. intros k Hk. apply K in Hk.
      destruct Hk as [[]|(e & He & <-)].
      apply filter_In in He. destruct He as [_ W].
      unfold trend_where in W. apply andb_true_iff in W. destruct W as [_ W].
      apply window_opens. exact W.
    + intros W B. exists (map fst groups), totals. split; [reflexivity|].
      apply Forall2_map_fst. eapply Forall2_weaken; [|exact P].
      intros g t Hg (total & E & ->).
      assert (trend_rows uid since (fst g) db <> []) as N
        by (apply Keys; apply in_map; exact Hg).
      unfold trend_rows in *.
      destruct (total_amount_filter (trend_where uid since) _ W) as [W1 B1].
      destruct (total_amount_filter
                  (fun e => month_eqb (strftime_Ym (exp_timestamp e)) (fst g))
                  _ W1) as [W2 B2].
      rewrite (Content g Hg) in E. unfold trend_rows in E.
      rewrite (sql_sum_whole cv _ N W2) in E by lia.
      inversion E. reflexivity.
Qed.

(** ** The trend window *)

(** C2: on 4 November 2026 the trailing six calendar months are June to
    November, yet for a user with one expense in each month from May to
    November the trend has seven points and starts in May: the window opens
    on the first day of the month that holds the day 180 days back, 8 May. *)
Theorem trend_window_spans_seven_months :
  generate_trend_analysis integer_literals (Some 1) november_4 seven_months
  = inr ([(2026, 5); (2026, 6); (2026, 7); (2026, 8); (2026, 9); (2026, 10); (2026, 11)],
         [100; 100; 100; 100; 100; 100; 100]%float)
  /\ in_trailing_six_months (now november_4) (2026, 5) = false
  /\ in_trailing_six_months (now november_4) (2026, 6) = true.
Proof. repeat split. Qed.

(** ** The overspend check on whole amounts, on a server that keeps UTC *)

Lemma first_instant_leb (td th tmi ts : Z) :
  1 <= td -> 0 <= th -> 0 <= tmi -> 0 <= ts ->
  lex_leb [1; 0; 0; 0] [td; th; tmi; ts] = true.
Proof.
  intros D H M S. cbn [lex_leb].
  destruct (Z.ltb_spec 1 td); [reflexivity|].
  assert (td = 1) as -> by lia. rewrite Z.eqb_refl. cbn [orb andb].
  destruct (Z.ltb_spec 0 th); [reflexivity|].
  assert (th = 0) as -> by lia. rewrite Z.eqb_refl. cbn [orb andb].
  destruct (Z.ltb_spec 0 tmi); [reflexivity|].
  assert (tmi = 0) as -> by lia. rewrite Z.eqb_refl. cbn [orb andb].
  destruct (Z.ltb_spec 0 ts); [reflexivity|].
  assert (ts = 0) as -> by lia. reflexivity.
Qed.

(** A timestamp that is not of a later month than [d] is at or after the
    first instant of the month of [d] exactly when it is of that month. *)
Lemma month_start_leb (d ts : datetime) :
  timestamp_wellformed ts ->
  month_ltb (strftime_Ym d) (strftime_Ym ts) = false ->
  dt_leb (month_start d) ts = month_eqb (strftime_Ym ts) (strftime_Ym d).
Proof.
  intros (D & H & M & S) L.
  pose proof (first_instant_leb _ _ _ _ D H M S) as F.
  unfold dt_leb, dt_fields, month_start, month_eqb, month_ltb, strftime_Ym in *.
  cbn [year month day hour minute second fst snd] in *.
  change (lex_leb [year d; month d; 1; 0; 0; 0]
                  [year ts; month ts; day ts; hour ts; minute ts; second ts])
    with ((year d <? year ts)
          || ((year d =? year ts)
              && ((month d <? month ts)
                  || ((month d =? month ts)
                      && lex_leb [1; 0; 0; 0] [day ts; hour ts; minute ts; second ts])))).
  rewrite F, andb_true_r.
  destruct (Z.ltb_spec (year d) (year ts)); [discriminate|].
  destruct (Z.eqb_spec (year d) (year ts)) as [Ey|Ny].
  - simpl in L |- *. rewrite Ey, Z.eqb_refl. simpl.
    destruct (Z.ltb_spec (month d) (month ts)); [discriminate|].
    simpl. rewrite Z.eqb_sym. reflexivity.
  - simpl. destruct (Z.eqb_spec (year ts) (year d)); [congruence|reflexivity].
Qed.

Lemma int_gt_float_value (z : Z) (f : double) (q : Q) :
  float_value f = Some q -> int_gt_float z f = Qlt_bool q (inject_Z z).
Proof.
  unfold int_gt_float. intros V. rewrite V. revert V. unfold float_value.
  destruct (Prim2SF f); try discriminate; reflexivity.
Qed.

Lemma total_amount_app (rows rows' : list expense_row) :
  total_amount (rows ++ rows') = total_amount rows + total_amount rows'.
Proof. induction rows as [|e rows IH]; simpl; [reflexivity|]. rewrite IH. lia. Qed.

(** The overspend alert, where the amounts are whole numbers and the server
    keeps UTC.  An expense request for a whole amount that is not negative,
    in a reachable store whose expenses are whole amounts, none negative,
    adding up with the new one within 64 bits, and none stamped in a month
    after the current one, at a moment when the server's clock and the
    store's read the same month.  With [spent] the sum of the user's
    expenses of the category stamped in the current month, the new one
    included: when the user has no budget row for the category in the
    current month the request succeeds and no notification is written;
    when there is one, whose amount reads as the number [limit], the
    request succeeds, exactly one notification is appended if [spent]
    exceeds [limit], whatever alerts the store already holds, and none
    otherwise. *)
Theorem overspend_alert_whole_amounts (cv : conversions) (db : database) (u : Z)
    (json : jsonobj) (clk : clock) (a : Z) :
  reachable cv db ->
  let category := dict_get json "category" PNone in
  is_stored category = true ->
  dict_get json "amount" PNone = PInt a -> 0 <= a ->
  is_bindable (dict_get json "description" (PStr "")) = true ->
  let m := strftime_Ym (now clk) in
  strftime_Ym (now_again clk) = m ->
  strftime_Ym (current_timestamp clk) = m ->
  timestamp_wellformed (current_timestamp clk) ->
  Forall whole_amount (expenses db) ->
  total_amount (expenses db) + a <= 9223372036854775807 ->
  Forall (fun e => timestamp_wellformed (exp_timestamp e)
                   /\ month_ltb m (strftime_Ym (exp_timestamp e)) = false)
         (expenses db) ->
  let c := cell_text cv category in
  let spent := total_amount (month_to_date u c m db) + a in
  let r := add_expense cv (login_session u) json clk db in
  ((forall b, In b (budgets db) -> budget_key u c m b = false) ->
   fst r = Jsonify Success /\ notifications (snd r) = notifications db)
  /\ (forall b f limit,
        In b (budgets db) -> budget_key u c m b = true ->
        float cv (bud_amount b) = inr f -> float_value f = Some limit ->
        fst r = Jsonify Success
        /\ if Qlt_bool limit (inject_Z spent)
           then exists n, notifications (snd r) = notifications db ++ [n]
                          /\ ntf_user_id n = Some u
                          /\ alert_category (ntf_message n) = category
                          /\ fresh_alert n
           else notifications (snd r) = notifications db).
Proof.
  intros R category Hc Ha Pa Hd m Em Eu Wu W B T c spent r.
  pose proof (reachable_unique_keys cv db R) as (_ & U & _).
  pose proof (total_amount_nonneg _ W) as N0.
  pose proof (stored_bindable _ Hc) as Hb.
  assert (is_stored (dict_get json "amount" PNone) = true) as Hs.
  { rewrite Ha. simpl. unfold int64. apply andb_true_iff. split; apply Z.leb_le; lia. }
  pose proof (add_expense_inserts cv u category _ _ (current_timestamp clk) db
                Hc Hs Hd) as I.
  rewrite Ha in I. cbn [cell_number] in I. fold c in I.
  set (row := mkexpense (Some u) c (SInt a)
                (text_cell cv (bound (dict_get json "description" (PStr ""))))
                (current_timestamp clk)) in *.
  set (db1 := set_expense_rows db (expenses db ++ [row])) in *.
  assert (r = match check_overspending cv (Some u) category clk db1 with
              | inl e => (Raised e, db1)
              | inr db2 => (Jsonify Success, db2)
              end) as Er.
  { subst r. unfold add_expense. simpl. fold category. rewrite Ha, I. reflexivity. }
  assert (forall e, text_is cv (exp_category e) (bound category)
                    = String.eqb (exp_category e) c) as Tx.
  { intros e. unfold text_is. rewrite (bound_text cv category Hb), Hc. reflexivity. }
  assert (total_spent cv (Some u) (bound category) clk db1 = inr (PyInt spent)) as Ts.
  { unfold total_spent, select_total.
    assert (filter (fun e => user_is (exp_user_id e) (Some u)
                             && text_is cv (exp_category e) (bound category)
                             && dt_leb (month_start (now_again clk)) (exp_timestamp e))
                   (expenses db1)
            = month_to_date u c m db ++ [row]) as F.
    { unfold db1. cbn [set_expense_rows expenses]. rewrite filter_app. f_equal.
      - unfold month_to_date. apply filter_ext_in. intros e He.
        rewrite Forall_forall in T. destruct (T e He) as [We Le].
        rewrite Tx, month_start_leb; [rewrite Em; reflexivity|exact We|].
        rewrite Em. exact Le.
      - cbn [filter]. rewrite Tx. subst row. cbn [exp_user_id exp_category exp_timestamp].
        rewrite user_is_refl, String.eqb_refl.
        rewrite month_start_leb; [|exact Wu|].
        + rewrite Em, Eu, month_eqb_refl. reflexivity.
        + rewrite Em, Eu. apply month_ltb_irrefl. }
    rewrite F.
    destruct (total_amount_filter
                (fun e => user_is (exp_user_id e) (Some u) && String.eqb (exp_category e) c
                          && month_eqb (strftime_Ym (exp_timestamp e)) m)
                _ W) as [Wm Bm].
    fold (month_to_date u c m db) in Wm, Bm.
    rewrite sql_sum_whole.
    - rewrite total_amount_app. simpl. rewrite Z.add_0_r. reflexivity.
    - destruct (month_to_date u c m db); discriminate.
    - apply Forall_app. split; [exact Wm|].
      constructor; [|constructor]. exists a. split; [reflexivity|exact Pa].
    - rewrite total_amount_app. simpl. lia. }
  split.
  - intros N. rewrite Er.
    rewrite (check_overspending_no_budget cv u category clk db1 Hb).
    + split; reflexivity.
    + intros b Hb'. unfold addressed_budget. rewrite Hc. apply N. exact Hb'.
  - intros b f limit Hin Kb Fb Vf. rewrite Er. unfold check_overspending.
    rewrite (bindable_bound _ Hb).
    assert (find (budget_where cv (Some u) (bound category) (strftime_Ym (now clk)))
                 (budgets db1) = Some b) as Fd.
    { rewrite (find_pointwise _ (budget_key u c m)).
      - apply find_the_one; [apply U|exact Hin|exact Kb].
      - intros x. rewrite (budget_where_addressed cv u category _ x Hb).
        unfold addressed_budget. rewrite Hc. reflexivity. }
    rewrite Fd, Ts, Fb. cbn [py_gt]. rewrite (int_gt_float_value spent f limit Vf).
    destruct (Qlt_bool limit (inject_Z spent)); cbn [fst snd]; split; try reflexivity.
    eexists. split; [reflexivity|]. split; [reflexivity|]. split; [reflexivity|].
    split; reflexivity.
Qed.

(** ** Isolation between users *)

Lemma user_is_other (uid : option Z) (u' : Z) :
  uid <> Some u' -> user_is uid (Some u') = false.
Proof.
  destruct uid as [x|]; simpl; [|reflexivity]. intros N.
  destruct (Z.eqb_spec x u') as [->|]; [congruence|reflexivity].
Qed.

Lemma user_is_same_column (col uid : option Z) (u' : Z) :
  user_is col uid = true -> user_is col (Some u') = user_is uid (Some u').
Proof.
  intros H. apply user_is_eq in H. destruct H as (x & -> & ->). reflexivity.
Qed.

Lemma filter_app_other {A : Type} (q : A -> bool) (l : list A) (x : A) :
  q x = false -> filter q (l ++ [x]) = filter q l.
Proof. intros H. rewrite filter_app. simpl. rewrite H. apply app_nil_r. Qed.

Lemma filter_drop_other {A : Type} (q p : A -> bool) (l : list A) :
  (forall x, p x = true -> q x = false) ->
  filter q (filter (fun x => negb (p x)) l) = filter q l.
Proof.
  intros H. induction l as [|x l IH]; simpl; [reflexivity|].
  destruct (p x) eqn:P; simpl.
  - rewrite (H x P). exact IH.
  - destruct (q x); rewrite IH; reflexivity.
Qed.

Lemma filter_map_other {A : Type} (q p : A -> bool) (f : A -> A) (l : list A) :
  (forall x, p x = true -> q x = false) -> (forall x, q (f x) = q x) ->
  filter q (map (fun x => if p x then f x else x) l) = filter q l.
Proof.
  intros H K. induction l as [|x l IH]; simpl; [reflexivity|].
  destruct (p x) eqn:P.
  - rewrite K, (H x P). exact IH.
  - destruct (q x); rewrite IH; reflexivity.
Qed.

Lemma upsert_income_other_user (uid : option Z) (amt : sqlval) (m : month_key)
    (ts : datetime) (u' : Z) (rows : list income_row) :
  uid <> Some u' ->
  filter (fun r => user_is (inc_user_id r) (Some u')) (upsert_income uid amt m ts rows)
  = filter (fun r => user_is (inc_user_id r) (Some u')) rows.
Proof.
  intros N. pose proof (user_is_other uid u' N) as O.
  induction rows as [|r rows IH]; simpl.
  - rewrite O. reflexivity.
  - destruct (user_is (inc_user_id r) uid && month_eqb (inc_month_year r) m) eqn:E; simpl.
    + apply andb_true_iff in E. destruct E as [Eu _].
      rewrite (user_is_same_column _ _ u' Eu), O. reflexivity.
    + rewrite IH. reflexivity.
Qed.

Lemma upsert_budget_other_user (uid : option Z) (c : string) (amt : sqlval)
    (m : month_key) (ts : datetime) (u' : Z) (rows : list budget_row) :
  uid <> Some u' ->
  filter (fun r => user_is (bud_user_id r) (Some u')) (upsert_budget uid c amt m ts rows)
  = filter (fun r => user_is (bud_user_id r) (Some u')) rows.
Proof.
  intros N. pose proof (user_is_other uid u' N) as O.
  induction rows as [|r rows IH]; simpl.
  - rewrite O. reflexivity.
  - destruct (user_is (bud_user_id r) uid && String.eqb (bud_category r) c
              && month_eqb (bud_month_year r) m) eqn:E; simpl.
    + apply andb_true_iff in E. destruct E as [E _].
      apply andb_true_iff in E. destruct E as [Eu _].
      rewrite (user_is_same_column _ _ u' Eu), O. reflexivity.
    + rewrite IH. reflexivity.
Qed.

Lemma check_overspending_other_user (cv : conversions) (uid : option Z)
    (category : pyval) (clk : clock) (db db' : database) (u' : Z) :
  uid <> Some u' ->
  check_overspending cv uid category clk db = inr db' ->
  rows_of u' db' = rows_of u' db /\ users db' = users db.
Proof.
  intros N. pose proof (user_is_other uid u' N) as O.
  unfold check_overspending.
  repeat break_match; intros H; try discriminate; inversion H; subst;
    split; try reflexivity.
  unfold rows_of; simpl. rewrite filter_app_other by exact O. reflexivity.
Qed.

(** A request leaves the rows of every user but the session's as they were,
    in every table, and never touches the accounts. *)
Theorem handle_leaves_other_users (cv : conversions) (s : session) (r : request)
    (clk : clock) (db : database) (u' : Z) :
  user_id s <> Some u' ->
  rows_of u' (snd (handle cv s r clk db)) = rows_of u' db
  /\ users (snd (handle cv s r clk db)) = users db.
Proof.
  intros N. pose proof (user_is_other (user_id s) u' N) as O.
  destruct r; simpl.
  - unfold get_data. repeat break_match; simpl; split; reflexivity.
  - unfold set_income, execute_upsert_income, not_null.
    repeat break_match; simpl; try discriminate; split; try reflexivity.
    unfold rows_of; simpl. rewrite upsert_income_other_user by exact N. reflexivity.
  - unfold add_budget, execute_upsert_budget, not_null.
    repeat break_match; simpl; try discriminate; split; try reflexivity.
    unfold rows_of; simpl. rewrite upsert_budget_other_user by exact N. reflexivity.
  - unfold delete_budget, execute_delete_budget.
    repeat break_match; simpl; try discriminate; split; try reflexivity.
    unfold rows_of; simpl. rewrite filter_drop_other; [reflexivity|].
    intros x P. unfold budget_where in P.
    apply andb_true_iff in P. destruct P as [P _].
    apply andb_true_iff in P. destruct P as [Pu _].
    rewrite (user_is_same_column _ _ u' Pu). exact O.
  - unfold add_expense.
    destruct (check_session s); simpl; [split; reflexivity|].
    destruct (execute_insert_expense _ _ _ _ _ _ _) as [e|db1] eqn:E1; simpl;
      [split; reflexivity|].
    assert (rows_of u' db1 = rows_of u' db /\ users db1 = users db) as [R1 U1].
    { revert E1. unfold execute_insert_expense, not_null.
      repeat break_match; intros E1; try discriminate.
      all: inversion E1; subst; split; [|reflexivity].
      all: unfold rows_of; simpl; rewrite filter_app_other by exact O; reflexivity. }
    destruct (check_overspending _ _ _ _ _) as [e|db2] eqn:E2; simpl; [split; assumption|].
    destruct (check_overspending_other_user cv _ _ _ _ _ u' N E2) as [R2 U2].
    split; congruence.
  - unfold add_goal, execute_insert_goal, not_null.
    repeat break_match; simpl; try discriminate; split; try reflexivity.
    unfold rows_of; simpl. rewrite filter_app_other by exact O. reflexivity.
  - unfold delete_goal, execute_delete_goal.
    repeat break_match; simpl; try discriminate; split; try reflexivity.
    unfold rows_of; simpl. rewrite filter_drop_other; [reflexivity|].
    intros x P. unfold goal_where in P.
    apply andb_true_iff in P. destruct P as [Pu _].
    rewrite (user_is_same_column _ _ u' Pu). exact O.
  - unfold add_saving, execute_update_goal.
    repeat break_match; simpl; try discriminate; split; try reflexivity.
    unfold rows_of; simpl.
    rewrite (filter_map_other (fun g => user_is (goal_user_id g) (Some u'))
               (goal_where cv (user_id s) _)); [reflexivity| |reflexivity].
    intros x P. unfold goal_where in P.
    apply andb_true_iff in P. destruct P as [Pu _].
    rewrite (user_is_same_column _ _ u' Pu). exact O.
  - unfold get_notifications. repeat break_match; simpl; split; reflexivity.
  - unfold get_trends. repeat break_match; simpl; split; reflexivity.
Qed.

Lemma filter_through {A : Type} (p q : A -> bool) (l : list A) :
  (forall x, p x = true -> q x = true) -> filter p (filter q l) = filter p l.
Proof.
  intros H. induction l as [|x l IH]; simpl; [reflexivity|].
  destruct (q x) eqn:Q; simpl.
  - destruct (p x); rewrite IH; reflexivity.
  - destruct (p x) eqn:P; [rewrite (H x P) in Q; discriminate|exact IH].
Qed.

Lemma find_through {A : Type} (p q : A -> bool) (l : list A) :
  (forall x, p x = true -> q x = true) -> find p (filter q l) = find p l.
Proof.
  intros H. induction l as [|x l IH]; simpl; [reflexivity|].
  destruct (q x) eqn:Q; simpl.
  - destruct (p x); [reflexivity|exact IH].
  - destruct (p x) eqn:P; [rewrite (H x P) in Q; discriminate|exact IH].
Qed.

Lemma existsb_through {A : Type} (p q : A -> bool) (l : list A) :
  (forall x, p x = true -> q x = true) -> existsb p (filter q l) = existsb p l.
Proof.
  intros H. induction l as [|x l IH]; simpl; [reflexivity|].
  destruct (q x) eqn:Q; simpl.
  - rewrite IH. reflexivity.
  - destruct (p x) eqn:P; [rewrite (H x P) in Q; discriminate|exact IH].
Qed.

Lemma andb_first (a b : bool) : a && b = true -> a = true.
Proof. destruct a; [reflexivity|discriminate]. Qed.

Lemma load_user_data_own (cv : conversions) (u : Z) (clk : clock) (db : database) :
  load_user_data cv (Some u) clk (rows_of u db) = load_user_data cv (Some u) clk db.
Proof.
  unfold load_user_data, rows_of; simpl.
  rewrite find_through by (intros x P; exact (andb_first _ _ P)).
  rewrite !filter_through;
    try (intros x P; exact (andb_first _ _ P)); try (intros x P; exact P).
  reflexivity.
Qed.

Lemma get_notifications_own (u : Z) (clk : clock) (db : database) :
  fst (get_notifications (login_session u) clk (rows_of u db))
  = fst (get_notifications (login_session u) clk db).
Proof.
  unfold get_notifications, rows_of; simpl.
  rewrite filter_through by (intros x P; exact P). reflexivity.
Qed.

Lemma generate_trend_analysis_own (cv : conversions) (u : Z) (clk : clock)
    (db : database) :
  generate_trend_analysis cv (Some u) clk (rows_of u db)
  = generate_trend_analysis cv (Some u) clk db.
Proof.
  unfold generate_trend_analysis.
  destruct (minus_days 180 (now clk)); [|reflexivity].
  unfold rows_of; cbn [expenses].
  rewrite filter_through by (intros x P; exact (andb_first _ _ P)). reflexivity.
Qed.

Lemma check_overspending_raised (cv : conversions) (uid : option Z) (category : pyval)
    (clk : clock) (db : database) :
  raised (check_overspending cv uid category clk db)
  = match bind category with
    | inl e => Some e
    | inr c =>
        match find (budget_where cv uid c (strftime_Ym (now clk))) (budgets db) with
        | None => None
        | Some budget =>
            match total_spent cv uid c clk db with
            | inl e => Some e
            | inr _ => raised (float cv (bud_amount budget))
            end
        end
    end.
Proof.
  unfold check_overspending. repeat break_match; reflexivity.
Qed.

Lemma total_spent_own (cv : conversions) (u : Z) (c : sqlval) (clk : clock)
    (db : database) :
  total_spent cv (Some u) c clk (rows_of u db) = total_spent cv (Some u) c clk db.
Proof.
  unfold total_spent, select_total, rows_of; cbn [expenses].
  rewrite filter_through; [reflexivity|].
  intros x P. exact (andb_first _ _ (andb_first _ _ P)).
Qed.

Lemma execute_insert_expense_own (cv : conversions) (u : Z)
    (category amount description : pyval) (ts : datetime) (db : database) :
  match execute_insert_expense cv (Some u) category amount description ts db,
        execute_insert_expense cv (Some u) category amount description ts (rows_of u db)
  with
  | inl e, inl e' => e = e'
  | inr db1, inr db1' => db1' = rows_of u db1
  | _, _ => False
  end.
Proof.
  unfold execute_insert_expense, not_null. repeat break_match; try reflexivity.
  all: unfold rows_of; simpl; rewrite filter_app; simpl; rewrite Z.eqb_refl; reflexivity.
Qed.

Lemma add_expense_own (cv : conversions) (u : Z) (json : jsonobj) (clk : clock)
    (db : database) :
  fst (add_expense cv (login_session u) json clk (rows_of u db))
  = fst (add_expense cv (login_session u) json clk db).
Proof.
  unfold add_expense. simpl.
  pose proof (execute_insert_expense_own cv u (dict_get json "category" PNone)
                (dict_get json "amount" PNone) (dict_get json "description" (PStr ""))
                (current_timestamp clk) db) as H.
  destruct (execute_insert_expense cv (Some u) _ _ _ _ db) as [e|db1];
    destruct (execute_insert_expense cv (Some u) _ _ _ _ (rows_of u db)) as [e'|db1'];
    try contradiction; simpl; [congruence|]. subst db1'.
  pose proof (check_overspending_raised cv (Some u) (dict_get json "category" PNone)
                clk db1) as R1.
  pose proof (check_overspending_raised cv (Some u) (dict_get json "category" PNone)
                clk (rows_of u db1)) as R2.
  assert (raised (check_overspending cv (Some u) (dict_get json "category" PNone) clk
                    (rows_of u db1))
          = raised (check_overspending cv (Some u) (dict_get json "category" PNone) clk
                      db1)) as E.
  { rewrite R1, R2. destruct (bind (dict_get json "category" PNone)); [reflexivity|].
    rewrite total_spent_own.
    unfold rows_of; cbn [budgets].
    rewrite find_through; [reflexivity|].
    intros x P. unfold budget_where in P. exact (andb_first _ _ (andb_first _ _ P)). }
  destruct (check_overspending cv (Some u) _ clk db1);
    destruct (check_overspending cv (Some u) _ clk (rows_of u db1));
    simpl in E |- *; congruence.
Qed.

Lemma add_goal_own (cv : conversions) (u : Z) (json : jsonobj) (clk : clock)
    (db : database) :
  fst (add_goal cv (login_session u) json clk (rows_of u db))
  = fst (add_goal cv (login_session u) json clk db).
Proof.
  unfold add_goal, execute_insert_goal, not_null. simpl.
  repeat (break_match; try discriminate); try reflexivity;
    match goal with
    | H : existsb _ (filter _ _) = _ |- _ =>
        rewrite existsb_through in H;
        [congruence | intros x P; exact (andb_first _ _ P)]
    end.
Qed.

(** The answer to a request is read off the caller's own rows: the store
    with the rows of every other user (and the accounts) taken away gives
    the same response, for each of the ten handlers. *)
Theorem response_sees_own_rows (cv : conversions) (u : Z) (r : request)
    (clk : clock) (db : database) :
  fst (handle cv (login_session u) r clk (rows_of u db))
  = fst (handle cv (login_session u) r clk db).
Proof.
  destruct r; cbn [handle].
  - unfold get_data. simpl. rewrite load_user_data_own. repeat break_match; reflexivity.
  - unfold set_income, execute_upsert_income, not_null. simpl.
    repeat break_match; try discriminate; reflexivity.
  - unfold add_budget, execute_upsert_budget, not_null. simpl.
    repeat break_match; try discriminate; reflexivity.
  - unfold delete_budget, execute_delete_budget. simpl.
    repeat break_match; try discriminate; reflexivity.
  - apply add_expense_own.
  - apply add_goal_own.
  - unfold delete_goal, execute_delete_goal. simpl.
    repeat break_match; try discriminate; reflexivity.
  - unfold add_saving, execute_update_goal. simpl.
    repeat break_match; try discriminate; reflexivity.
  - exact (get_notifications_own u clk db).
  - unfold get_trends, check_session. cbn [login_session logged_in user_id negb].
    rewrite generate_trend_analysis_own.
    destruct (generate_trend_analysis cv (Some u) clk db); reflexivity.
Qed.

(** ** Expenses and alerts are only ever appended *)

Lemma check_overspending_appends (cv : conversions) (uid : option Z)
    (category : pyval) (clk : clock) (db db' : database) :
  check_overspending cv uid category clk db = inr db' ->
  db' = db
  \/ exists n, db' = set_notification_rows db (notifications db ++ [n])
               /\ fresh_alert n /\ ntf_user_id n = uid.
Proof.
  unfold check_overspending.
  repeat break_match; intros H; try discriminate; inversion H; subst; auto.
  right. eexists. split; [reflexivity|]. split; [|reflexivity].
  split; reflexivity.
Qed.

Lemma handle_appends (cv : conversions) (s : session) (r : request)
    (clk : clock) (db : database) :
  exists new_expenses new_alerts,
    expenses (snd (handle cv s r clk db)) = expenses db ++ new_expenses
    /\ notifications (snd (handle cv s r clk db)) = notifications db ++ new_alerts
    /\ (List.length new_alerts <= List.length new_expenses <= 1)%nat
    /\ Forall (fun n => fresh_alert n /\ ntf_user_id n = user_id s) new_alerts.
Proof.
  assert (exists new_expenses new_alerts,
            expenses db = expenses db ++ new_expenses
            /\ notifications db = notifications db ++ new_alerts
            /\ (List.length new_alerts <= List.length new_expenses <= 1)%nat
            /\ Forall (fun n => fresh_alert n /\ ntf_user_id n = user_id s) new_alerts)
    as Same.
  { exists [], []. rewrite !app_nil_r. repeat split; simpl; auto. }
  destruct r; cbn [handle].
  - unfold get_data. repeat break_match; exact Same.
  - unfold set_income, execute_upsert_income, not_null.
    repeat break_match; try discriminate; exact Same.
  - unfold add_budget, execute_upsert_budget, not_null.
    repeat break_match; try discriminate; exact Same.
  - unfold delete_budget, execute_delete_budget.
    repeat break_match; try discriminate; exact Same.
  - unfold add_expense.
    destruct (check_session s); [exact Same|].
    destruct (execute_insert_expense _ _ _ _ _ _ _) as [e|db1] eqn:E1; [exact Same|].
    assert (exists row, db1 = set_expense_rows db (expenses db ++ [row])) as (row & ->).
    { revert E1. unfold execute_insert_expense, not_null.
      repeat break_match; intros E1; try discriminate; inversion E1; eauto. }
    destruct (check_overspending _ _ _ _ _) as [e|db2] eqn:E2; cbn [snd].
    + exists [row], []. rewrite app_nil_r. repeat split; simpl; auto.
    + apply check_overspending_appends in E2.
      destruct E2 as [->|(n & -> & F & U)].
      * exists [row], []. rewrite app_nil_r. repeat split; simpl; auto.
      * exists [row], [n]. repeat split; simpl; auto.
  - unfold add_goal, execute_insert_goal, not_null.
    repeat break_match; try discriminate; exact Same.
  - unfold delete_goal, execute_delete_goal.
    repeat break_match; try discriminate; exact Same.
  - unfold add_saving, execute_update_goal.
    repeat break_match; try discriminate; exact Same.
  - unfold get_notifications. repeat break_match; exact Same.
  - unfold get_trends. repeat break_match; exact Same.
Qed.

Lemma reachable_alerts_fresh (cv : conversions) (db : database) :
  reachable cv db -> Forall fresh_alert (notifications db).
Proof.
  induction 1 as [accounts|db s r clk _ IH]; [constructor|].
  destruct (handle_appends cv s r clk db) as (es & ns & _ & -> & _ & F).
  apply Forall_app. split; [exact IH|].
  apply Forall_forall. intros n Hn. rewrite Forall_forall in F. apply (F n Hn).
Qed.

(** No request removes or rewrites an expense or a notification: a request
    appends at most one expense and at most one notification, a notification
    only together with an expense, and the notification is an unread danger
    alert of the session's user; so in a reachable store every notification
    is an unread danger alert, before the request and after. *)
Theorem history_is_append_only (cv : conversions) (s : session) (r : request)
    (clk : clock) (db : database) :
  reachable cv db ->
  (exists new_expenses new_alerts,
     expenses (snd (handle cv s r clk db)) = expenses db ++ new_expenses
     /\ notifications (snd (handle cv s r clk db)) = notifications db ++ new_alerts
     /\ (List.length new_alerts <= List.length new_expenses <= 1)%nat
     /\ Forall (fun n => fresh_alert n /\ ntf_user_id n = user_id s) new_alerts)
  /\ Forall fresh_alert (notifications db)
  /\ Forall fresh_alert (notifications (snd (handle cv s r clk db))).
Proof.
  intros R. split; [apply handle_appends|]. split.
  - exact (reachable_alerts_fresh cv db R).
  - exact (reachable_alerts_fresh cv _ (reachable_step cv db s r clk R)).
Qed.

(** ** How the writes compose *)

Lemma upsert_budget_then_drop (u : Z) (c : string) (amt : sqlval) (m : month_key)
    (ts : datetime) (rows : list budget_row) :
  filter (fun r => negb (budget_key u c m r)) (upsert_budget (Some u) c amt m ts rows)
  = filter (fun r => negb (budget_key u c m r)) rows.
Proof.
  induction rows as [|r rows IH]; simpl.
  - unfold budget_key; simpl. rewrite Z.eqb_refl, String.eqb_refl, month_eqb_refl.
    reflexivity.
  - fold (budget_key u c m r). destruct (budget_key u c m r) eqn:E; simpl.
    + unfold budget_key in *; simpl. rewrite E. reflexivity.
    + rewrite E. simpl. rewrite IH. reflexivity.
Qed.

Lemma upsert_budget_twice (uid : option Z) (c : string) (amt : sqlval)
    (m : month_key) (ts ts' : datetime) (rows : list budget_row) :
  uid <> None ->
  upsert_budget uid c amt m ts' (upsert_budget uid c amt m ts rows)
  = upsert_budget uid c amt m ts rows.
Proof.
  intros N. induction rows as [|r rows IH]; simpl.
  - destruct uid as [u|]; [|congruence]. simpl.
    rewrite Z.eqb_refl, String.eqb_refl, month_eqb_refl. reflexivity.
  - destruct (user_is (bud_user_id r) uid && String.eqb (bud_category r) c
              && month_eqb (bud_month_year r) m) eqn:E; simpl; rewrite E.
    + reflexivity.
    + rewrite IH. reflexivity.
Qed.

Lemma upsert_income_overwrites (uid : option Z) (a a' : sqlval) (m : month_key)
    (ts ts' : datetime) (rows : list income_row) :
  uid <> None ->
  upsert_income uid a' m ts' (upsert_income uid a m ts rows)
  = upsert_income uid a' m ts' rows.
Proof.
  intros N. induction rows as [|r rows IH]; simpl.
  - destruct uid as [u|]; [|congruence]. simpl.
    rewrite Z.eqb_refl, month_eqb_refl. reflexivity.
  - destruct (user_is (inc_user_id r) uid && month_eqb (inc_month_year r) m) eqn:E;
      simpl; rewrite E.
    + reflexivity.
    + rewrite IH. reflexivity.
Qed.

Lemma delete_goal_bindable (cv : conversions) (u : Z) (json : jsonobj) (clk : clock)
    (db : database) :
  is_bindable (dict_get json "name" PNone) = true ->
  delete_goal cv (login_session u) json clk db
  = (Jsonify Success,
     set_goal_rows db
       (filter (fun g => negb (addressed_goal cv u (dict_get json "name" PNone) g))
               (goals db))).
Proof.
  intros Hn. unfold delete_goal, execute_delete_goal; simpl.
  rewrite (bindable_bound _ Hn).
  do 2 f_equal. apply filter_ext. intros g.
  rewrite (goal_where_addressed cv u _ g Hn). reflexivity.
Qed.

Lemma delete_goal_unbindable (cv : conversions) (u : Z) (json : jsonobj) (clk : clock)
    (db : database) :
  is_bindable (dict_get json "name" PNone) = false ->
  exists e, delete_goal cv (login_session u) json clk db = (Raised e, db).
Proof.
  intros Hn. unfold delete_goal, execute_delete_goal; simpl.
  destruct (not_bindable _ Hn) as (e & ->). eexists; reflexivity.
Qed.

(** Deleting a budget right after upserting it, in the same month, leaves
    the store that deleting it alone leaves: of an upsert followed by the
    delete of its category nothing remains, whether the upsert was accepted
    or not. *)
Theorem delete_budget_undoes_add_budget (cv : conversions) (u : Z)
    (json : jsonobj) (clk1 clk2 : clock) (db : database) :
  strftime_Ym (now clk2) = strftime_Ym (now clk1) ->
  snd (delete_budget cv (login_session u) json clk2
         (snd (add_budget cv (login_session u) json clk1 db)))
  = snd (delete_budget cv (login_session u) json clk2 db).
Proof.
  intros Em.
  destruct (is_stored (dict_get json "category" PNone)
            && is_stored (dict_get json "amount" PNone)) eqn:S.
  - apply andb_true_iff in S. destruct S as [Hc Ha].
    rewrite !(delete_budget_bindable cv u json clk2 _ (stored_bindable _ Hc)).
    rewrite (add_budget_stored cv u json clk1 db Hc Ha). simpl.
    unfold addressed_budget. rewrite Hc. simpl.
    rewrite Em, upsert_budget_then_drop. reflexivity.
  - destruct (add_budget_refused cv u json clk1 db S) as (e & ->). reflexivity.
Qed.

(** Deleting a goal right after adding it leaves the store that deleting it
    alone leaves, whether the goal was added or refused. *)
Theorem delete_goal_undoes_add_goal (cv : conversions) (u : Z)
    (json : jsonobj) (clk1 clk2 : clock) (db : database) :
  snd (delete_goal cv (login_session u) json clk2
         (snd (add_goal cv (login_session u) json clk1 db)))
  = snd (delete_goal cv (login_session u) json clk2 db).
Proof.
  destruct (is_stored (dict_get json "name" PNone)) eqn:Hn.
  - rewrite !(delete_goal_bindable cv u json clk2 _ (stored_bindable _ Hn)). simpl.
    destruct (stored_text cv _ Hn) as (n & Bn & Tn).
    unfold add_goal, execute_insert_goal, not_null. simpl. rewrite Bn, Tn.
    repeat (break_match; try discriminate); simpl; try reflexivity.
    rewrite filter_app_other; [reflexivity|].
    unfold addressed_goal, goal_key. rewrite Hn. simpl.
    rewrite Z.eqb_refl, String.eqb_refl. reflexivity.
  - assert (snd (add_goal cv (login_session u) json clk1 db) = db) as ->;
      [|reflexivity].
    unfold add_goal, execute_insert_goal, not_null. simpl.
    destruct (not_stored cv _ Hn) as [(e & ->) | -> ].
    + destruct e; reflexivity.
    + repeat (break_match; try discriminate); reflexivity.
Qed.

(** Repeating a budget upsert in the same month changes nothing: the store
    after the second request is the store after the first, whatever the
    clock reads within the month. *)
Theorem add_budget_idempotent (cv : conversions) (u : Z) (json : jsonobj)
    (clk1 clk2 : clock) (db : database) :
  strftime_Ym (now clk2) = strftime_Ym (now clk1) ->
  snd (add_budget cv (login_session u) json clk2
         (snd (add_budget cv (login_session u) json clk1 db)))
  = snd (add_budget cv (login_session u) json clk1 db).
Proof.
  intros Em.
  destruct (is_stored (dict_get json "category" PNone)
            && is_stored (dict_get json "amount" PNone)) eqn:S.
  - apply andb_true_iff in S. destruct S as [Hc Ha].
    rewrite !(add_budget_stored cv u json _ _ Hc Ha). simpl.
    rewrite Em. unfold set_budget_rows; simpl.
    rewrite upsert_budget_twice by discriminate. reflexivity.
  - destruct (add_budget_refused cv u json clk1 db S) as (e & ->). simpl.
    destruct (add_budget_refused cv u json clk2 db S) as (e' & ->). reflexivity.
Qed.

(** The last income of a month wins whole: of two income requests in one
    month of which the second is accepted, the first leaves no trace, the
    store is the one the second alone would leave. *)
Theorem set_income_overwrites (cv : conversions) (u : Z) (json1 json2 : jsonobj)
    (clk1 clk2 : clock) (db : database) (a2 : sqlval) :
  strftime_Ym (now clk2) = strftime_Ym (now clk1) ->
  accepted_income cv (dict_get json2 "amount" PNone) = Sets a2 ->
  snd (set_income cv (login_session u) json2 clk2
         (snd (set_income cv (login_session u) json1 clk1 db)))
  = snd (set_income cv (login_session u) json2 clk2 db).
Proof.
  intros Em E2.
  rewrite !(set_income_accepted cv u json2 clk2 _ a2 E2).
  destruct (accepted_income cv (dict_get json1 "amount" PNone)) as [|e|a1] eqn:E1.
  - rewrite (set_income_rejected cv (login_session u) json1 clk1 db eq_refl E1).
    reflexivity.
  - rewrite (set_income_fails cv u json1 clk1 db e E1). reflexivity.
  - rewrite (set_income_accepted cv u json1 clk1 db a1 E1). simpl.
    rewrite Em, upsert_income_overwrites by discriminate. reflexivity.
Qed.

(** ** The notification list *)

Lemma lex_leb_total (a b : list Z) : lex_leb a b = false -> lex_leb b a = true.
Proof.
  revert b. induction a as [|x a IH]; intros [|y b] H; simpl in *;
    try discriminate; auto.
  apply orb_false_iff in H. destruct H as [H1 H2].
  apply Z.ltb_ge in H1.
  destruct (Z.eqb_spec x y) as [->|N].
  - simpl in H2. rewrite Z.eqb_refl, (IH b H2). apply orb_true_r.
  - assert (y < x) as L by lia. apply Z.ltb_lt in L. rewrite L. reflexivity.
Qed.

Lemma lex_leb_trans (a b c : list Z) :
  lex_leb a b = true -> lex_leb b c = true -> lex_leb a c = true.
Proof.
  revert b c. induction a as [|x a IH]; intros [|y b] [|z c] H1 H2; simpl in *;
    try discriminate; auto.
  apply orb_true_iff in H1. apply orb_true_iff in H2. apply orb_true_iff.
  destruct H1 as [H1|H1]; [apply Z.ltb_lt in H1|apply andb_true_iff in H1;
    destruct H1 as [E1 L1]; apply Z.eqb_eq in E1];
  (destruct H2 as [H2|H2]; [apply Z.ltb_lt in H2|apply andb_true_iff in H2;
    destruct H2 as [E2 L2]; apply Z.eqb_eq in E2]).
  - left. apply Z.ltb_lt. lia.
  - left. apply Z.ltb_lt. lia.
  - left. apply Z.ltb_lt. lia.
  - right. apply andb_true_iff. split; [apply Z.eqb_eq; lia|].
    exact (IH b c L1 L2).
Qed.

Lemma insert_desc_perm {A : Type} (key : A -> datetime) (x : A) (l : list A) :
  Permutation (insert_desc key x l) (x :: l).
Proof.
  induction l as [|y l IH]; simpl; [reflexivity|].
  destruct (dt_leb (key x) (key y)); [|reflexivity].
  rewrite IH. apply perm_swap.
Qed.

Lemma insert_desc_newest_first {A : Type} (key : A -> datetime) (x : A) (l : list A) :
  newest_first key l -> newest_first key (insert_desc key x l).
Proof.
  unfold newest_first. induction l as [|y l IH]; intros S; simpl.
  - constructor; constructor.
  - apply StronglySorted_inv in S. destruct S as [S F].
    destruct (dt_leb (key x) (key y)) eqn:E.
    + constructor; [exact (IH S)|].
      apply (Permutation_Forall (Permutation_sym (insert_desc_perm key x l))).
      constructor; assumption.
    + apply lex_leb_total in E. constructor; [constructor; assumption|].
      constructor; [exact E|].
      apply Forall_forall. intros b Hb. rewrite Forall_forall in F.
      exact (lex_leb_trans _ _ _ (F b Hb) E).
Qed.

Lemma order_by_desc_fold {A : Type} (key : A -> datetime) (l acc : list A) :
  newest_first key acc ->
  newest_first key (fold_left (fun sorted x => insert_desc key x sorted) l acc)
  /\ Permutation (fold_left (fun sorted x => insert_desc key x sorted) l acc) (acc ++ l).
Proof.
  revert acc. induction l as [|x l IH]; intros acc S; simpl.
  - rewrite app_nil_r. split; [exact S|reflexivity].
  - destruct (IH (insert_desc key x acc) (insert_desc_newest_first key x acc S))
      as [S' P]. split; [exact S'|].
    rewrite P, insert_desc_perm. simpl. apply Permutation_middle.
Qed.

Lemma order_by_desc_newest_first {A : Type} (key : A -> datetime) (l : list A) :
  newest_first key (order_by_desc key l).
Proof. apply order_by_desc_fold. constructor. Qed.

Lemma order_by_desc_perm {A : Type} (key : A -> datetime) (l : list A) :
  Permutation (order_by_desc key l) l.
Proof.
  exact (proj2 (order_by_desc_fold key l [] (SSorted_nil _))).
Qed.

(** The notification endpoint answers a logged-in user with the newest
    fifty of their notifications, newest first: what is shown and what is
    left out are together the user's rows in descending order of creation,
    so nothing shown is older than anything left out, and rows are left out
    only when fifty are shown.  The store is not touched. *)
Theorem get_notifications_newest_fifty (s : session) (clk : clock) (db : database) :
  logged_in s = true ->
  exists shown rest,
    get_notifications s clk db
    = (Jsonify (Notifications (map notification_dict shown)), db)
    /\ Permutation (shown ++ rest) (notifications_of (user_id s) db)
    /\ newest_first ntf_created_at (shown ++ rest)
    /\ (List.length shown <= 50)%nat
    /\ (List.length shown < 50 -> rest = [])%nat.
Proof.
  intros L. unfold get_notifications, check_session. rewrite L. simpl negb. cbv iota.
  fold (notifications_of (user_id s) db).
  set (sorted := order_by_desc ntf_created_at (notifications_of (user_id s) db)).
  exists (firstn 50 sorted), (skipn 50 sorted).
  rewrite firstn_skipn. split; [reflexivity|].
  split; [apply order_by_desc_perm|].
  split; [apply order_by_desc_newest_first|].
  split; [apply firstn_le_length|].
  intros Short. apply skipn_all2.
  destruct (Nat.le_gt_cases (List.length sorted) 50) as [Le|Gt]; [exact Le|].
  rewrite firstn_length_le in Short by lia. lia.
Qed.

Lemma firstn_In {A : Type} (n : nat) (l : list A) (x : A) :
  In x (firstn n l) -> In x l.
Proof.
  intros H. rewrite <- (firstn_skipn n l). apply in_or_app. left. exact H.
Qed.

Lemma load_user_data_notifications (cv : conversions) (uid : option Z)
    (clk : clock) (db : database) (d : read_model) :
  load_user_data cv uid clk db = inr d ->
  rm_notifications d
  = map notification_dict
        (firstn 10 (order_by_desc ntf_created_at
                      (filter (fun n => user_is (ntf_user_id n) uid
                                        && negb (ntf_is_read n))
                              (notifications db)))).
Proof.
  unfold load_user_data.
  repeat match goal with
         | |- match ?x with inl _ => _ | inr _ => _ end = _ -> _ =>
             destruct x; [discriminate|]
         end.
  intros E. injection E as <-. reflexivity.
Qed.

Lemma notifications_unread (cv : conversions) (db : database) (uid : option Z) :
  reachable cv db ->
  filter (fun n => user_is (ntf_user_id n) uid && negb (ntf_is_read n))
         (notifications db)
  = notifications_of uid db.
Proof.
  intros R. apply reachable_alerts_fresh in R. unfold notifications_of.
  induction R as [|n l [U _] _ IH]; simpl; [reflexivity|].
  rewrite U, IH. simpl. rewrite andb_true_r. reflexivity.
Qed.

Lemma notification_dict_unread (rows : list notification_row) :
  Forall fresh_alert rows ->
  filter (fun v => negb (nv_is_read v)) (map notification_dict rows)
  = map notification_dict rows.
Proof.
  induction 1 as [|n l [U _] _ IH]; simpl; [reflexivity|].
  rewrite U, IH. reflexivity.
Qed.

Lemma notifications_of_length_mono (uid : option Z) (db : database)
    (new_alerts : list notification_row) :
  (List.length (notifications_of uid db)
   <= List.length (filter (fun n => user_is (ntf_user_id n) uid)
                          (notifications db ++ new_alerts)))%nat.
Proof.
  unfold notifications_of. rewrite filter_app, length_app. lia.
Qed.

Lemma get_notifications_count (cv : conversions) (u : Z) (clk : clock) (db : database) :
  reachable cv db ->
  exists l,
    fst (get_notifications (login_session u) clk db) = Jsonify (Notifications l)
    /\ fst (updateNotificationCount l)
       = Nat.min 50 (List.length (notifications_of (Some u) db))
    /\ forall d, load_user_data cv (Some u) clk db = inr d ->
                 rm_notifications d = firstn 10 l.
Proof.
  intros R. unfold get_notifications. simpl check_session. cbv iota.
  cbn [login_session user_id].
  fold (notifications_of (Some u) db).
  set (sorted := order_by_desc ntf_created_at (notifications_of (Some u) db)).
  eexists. split; [reflexivity|]. split.
  - subst sorted. unfold updateNotificationCount. cbn [fst].
    rewrite notification_dict_unread.
    + rewrite length_map, length_firstn.
      rewrite (Permutation_length (order_by_desc_perm ntf_created_at _)).
      reflexivity.
    + apply Forall_forall. intros n Hn. apply firstn_In in Hn.
      apply (Permutation_in _ (order_by_desc_perm ntf_created_at _)) in Hn.
      apply filter_In in Hn. destruct Hn as [Hn _].
      pose proof (reachable_alerts_fresh cv db R) as F.
      rewrite Forall_forall in F. exact (F n Hn).
  - intros d E. apply load_user_data_notifications in E. rewrite E.
    rewrite (notifications_unread cv db (Some u) R). fold sorted.
    rewrite <- firstn_map, <- firstn_map, firstn_firstn. reflexivity.
Qed.

Lemma load_user_data_count (cv : conversions) (u : Z) (clk : clock) (db : database)
    (d : read_model) :
  reachable cv db ->
  load_user_data cv (Some u) clk db = inr d ->
  fst (updateNotificationCount (rm_notifications d))
  = Nat.min 10 (List.length (notifications_of (Some u) db)).
Proof.
  intros R E. apply load_user_data_notifications in E. rewrite E.
  rewrite (notifications_unread cv db (Some u) R).
  unfold updateNotificationCount. cbn [fst].
  rewrite notification_dict_unread.
  - rewrite length_map, length_firstn.
    rewrite (Permutation_length (order_by_desc_perm ntf_created_at _)).
    reflexivity.
  - apply Forall_forall. intros n Hn. apply firstn_In in Hn.
    apply (Permutation_in _ (order_by_desc_perm ntf_created_at _)) in Hn.
    apply filter_In in Hn. destruct Hn as [Hn _].
    pose proof (reachable_alerts_fresh cv db R) as F.
    rewrite Forall_forall in F. exact (F n Hn).
Qed.

(** The number on the bell.  In a reachable store every notification is
    unread.  After the notification panel is opened ([loadNotifications])
    the bell shows the number of the user's notifications, up to the fifty
    the endpoint lists; after the dashboard data is loaded ([loadState],
    which every action of the page ends with) it shows that number up to
    the ten the data carries, so the figure can fall from one to the other.
    The number of the user's notifications itself never falls: no request
    of anyone marks a notification read or removes one. *)
Theorem notification_bell_counts (cv : conversions) (u : Z)
    (clk clk' : clock) (s' : session) (r : request) (db : database)
    (state : read_model) :
  reachable cv db ->
  let count := List.length (notifications_of (Some u) db) in
  let bell (page : read_model) := fst (updateNotificationCount (rm_notifications page)) in
  bell (loadNotifications (fst (get_notifications (login_session u) clk db)) state)
  = Nat.min 50 count
  /\ (forall d, fst (get_data cv (login_session u) clk db) = Jsonify (Data d) ->
                json_parses d = true ->
                bell (loadState (fst (get_data cv (login_session u) clk db)) state)
                = Nat.min 10 count)
  /\ (count <= List.length (notifications_of (Some u) (snd (handle cv s' r clk' db))))%nat.
Proof.
  intros R count bell. split; [|split].
  - destruct (get_notifications_count cv u clk db R) as (l & E & C & _).
    rewrite E. exact C.
  - intros d E P. rewrite E. unfold loadState. rewrite P.
    apply (load_user_data_count cv u clk db d R).
    revert E. unfold get_data. simpl.
    destruct (load_user_data cv (Some u) clk db); intros E; inversion E; reflexivity.
  - destruct (handle_appends cv s' r clk' db) as (es & ns & _ & N & _).
    pose proof (notifications_of_length_mono (Some u) db ns) as M.
    subst count. unfold notifications_of at 2. rewrite N. exact M.
Qed.

(** ** The quick save *)





(** ** The account pages *)

Lemma set_user_rows_same (db : database) : set_user_rows db (users db) = db.
Proof. destruct db; reflexivity. Qed.

Lemma execute_insert_user_inv (username password_hash : string) (db db' : database) :
  execute_insert_user username password_hash db = inr db' ->
  existsb (fun r => String.eqb (usr_username r) username) (users db) = false
  /\ db' = set_user_rows db
             (users db ++ [Build_user_row (next_user_id (users db)) username
                                          password_hash]).
Proof.
  unfold execute_insert_user.
  destruct (existsb _ _); intros H; [discriminate|].
  inversion H. split; reflexivity.
Qed.

Lemma next_user_id_above (rows : list user_row) (r : user_row) :
  In r rows -> usr_id r < next_user_id rows.
Proof.
  unfold next_user_id.
  induction rows as [|x rows IH]; cbn [map fold_right In]; [contradiction|].
  intros [->|H]; [lia|]. specialize (IH H). lia.
Qed.

Lemma next_user_id_positive (rows : list user_row) : 0 < next_user_id rows.
Proof.
  unfold next_user_id. induction rows as [|x rows IH]; cbn [map fold_right]; lia.
Qed.

Lemma find_after (A : Type) (p : A -> bool) (l l' : list A) (x : A) :
  existsb p l = false -> p x = true -> find p (l ++ x :: l') = Some x.
Proof.
  intros N X. induction l as [|y l IH]; simpl in *.
  - rewrite X. reflexivity.
  - apply orb_false_iff in N. destruct N as [Ny Nl]. rewrite Ny. exact (IH Nl).
Qed.

Lemma find_existsb_false (A : Type) (p : A -> bool) (l : list A) :
  find p l = None -> existsb p l = false.
Proof.
  induction l as [|y l IH]; simpl; [reflexivity|].
  destruct (p y); [discriminate|]. exact IH.
Qed.

(** What [login] and [register] do to the session and the store. *)
Lemma login_effect (h : hashing) (method : http_method) (f : form) (salt : string)
    (s : session) (db : database) :
  let r := login h method f salt s db in
  (snd r = db
   \/ select_user (form_username f) db = None
      /\ field_is (form_username f) "demo" = true
      /\ field_is (form_password f) "demo" = true
      /\ execute_insert_user "demo" (generate_password_hash h salt "demo") db
         = inr (snd r))
  /\ (fst (fst r) = Redirect home_endpoint
      /\ (exists account,
            select_user (form_username f) (snd r) = Some account
            /\ check_password_hash h (usr_password_hash account) (form_password f)
               = Some true
            /\ snd (fst r) = login_session (usr_id account))
      \/ fst (fst r) <> Redirect home_endpoint /\ snd (fst r) = s).
Proof.
  unfold login. destruct method; cbn zeta.
  - split; [left; reflexivity|right; split; [discriminate|reflexivity]].
  - destruct (select_user (form_username f) db) as [user|] eqn:U.
    + split; [left; destruct (check_password_hash _ _ _) as [[|]|]; reflexivity|].
      destruct (check_password_hash h (usr_password_hash user) (form_password f))
        as [[|]|] eqn:C.
      * left. split; [reflexivity|]. exists user. repeat split; assumption.
      * right. split; [discriminate|reflexivity].
      * right. split; [discriminate|reflexivity].
    + destruct (field_is (form_username f) "demo"
                && field_is (form_password f) "demo") eqn:D.
      * apply andb_true_iff in D. destruct D as [Du Dp].
        destruct (execute_insert_user "demo" _ db) as [e|db'] eqn:I.
        { unfold execute_insert_user in I.
          destruct (existsb _ (users db)) eqn:X; [|discriminate].
          exfalso. destruct (form_username f) as [n|]; [|discriminate].
          simpl in Du, U. apply String.eqb_eq in Du. subst n.
          apply find_existsb_false in U. congruence. }
        destruct (select_user (form_username f) db') as [user|] eqn:U'.
        { destruct (check_password_hash h (usr_password_hash user) (form_password f))
            as [[|]|] eqn:C; cbn [fst snd].
          - split; [right; repeat split; assumption|].
            left. split; [reflexivity|]. exists user. repeat split; assumption.
          - split; [right; repeat split; assumption|].
            right. split; [discriminate|reflexivity].
          - split; [right; repeat split; assumption|].
            right. split; [discriminate|reflexivity]. }
        cbn [fst snd]. split; [right; repeat split; assumption|].
        right. split; [discriminate|reflexivity].
      * cbn [fst snd]. split; [left; reflexivity|].
        right. split; [discriminate|reflexivity].
Qed.

Lemma register_effect (h : hashing) (method : http_method) (f : form) (salt : string)
    (s : session) (db : database) :
  let r := register h method f salt s db in
  snd (fst r) = s
  /\ (fst (fst r) <> Redirect login_endpoint /\ snd r = db
      \/ fst (fst r) = Redirect login_endpoint
         /\ exists username password,
              form_username f = Some username
              /\ form_password f = Some password
              /\ form_confirm_password f = Some password
              /\ (6 <= String.length password)%nat
              /\ execute_insert_user username
                   (generate_password_hash h salt password) db
                 = inr (snd r)).
Proof.
  unfold register. destruct method; cbn zeta.
  - split; [reflexivity|left; split; [discriminate|reflexivity]].
  - destruct (negb _) eqn:T;
      [split; [reflexivity|left; split; [discriminate|reflexivity]]|].
    destruct (form_username f) as [username|];
      [|split; [reflexivity|left; split; [discriminate|reflexivity]]].
    destruct (form_password f) as [password|];
      [|split; [reflexivity|left; split; [discriminate|reflexivity]]].
    destruct (form_confirm_password f) as [confirm_password|];
      [|split; [reflexivity|left; split; [discriminate|reflexivity]]].
    destruct (String.eqb_spec password confirm_password) as [<-|N]; cbn [negb];
      [|split; [reflexivity|left; split; [discriminate|reflexivity]]].
    destruct (Nat.ltb_spec (String.length password) 6) as [L|L];
      [split; [reflexivity|left; split; [discriminate|reflexivity]]|].
    destruct (execute_insert_user username _ db) as [e|db'] eqn:I.
    + split; [destruct e; reflexivity|].
      left. destruct e; split; try discriminate; reflexivity.
    + split; [reflexivity|]. right. split; [reflexivity|].
      exists username, password. repeat split; assumption.
Qed.

Lemma serve_store (h : hashing) (cv : conversions) (salt : string) (clk : clock)
    (s : session) (v : visit) (db : database) :
  snd (serve h cv salt clk s v db)
  = match v with
    | Home => db
    | Login method f => snd (login h method f salt s db)
    | Register method f => snd (register h method f salt s db)
    | Logout => db
    | Api r => snd (handle cv s r clk db)
    end.
Proof.
  destruct v; simpl.
  - unfold home. destruct (negb _); reflexivity.
  - destruct (login _ _ _ _ _ _) as [[? ?] ?]. reflexivity.
  - destruct (register _ _ _ _ _ _) as [[? ?] ?]. reflexivity.
  - reflexivity.
  - destruct (handle _ _ _ _ _). reflexivity.
Qed.

Lemma serve_session (h : hashing) (cv : conversions) (salt : string) (clk : clock)
    (s : session) (v : visit) (db : database) :
  snd (fst (serve h cv salt clk s v db))
  = match v with
    | Login method f => snd (fst (login h method f salt s db))
    | Logout => anonymous
    | _ => s
    end.
Proof.
  destruct v; simpl.
  - unfold home. destruct (negb _); reflexivity.
  - destruct (login _ _ _ _ _ _) as [[? ?] ?]. reflexivity.
  - pose proof (register_effect h method f salt s db) as [E _].
    destruct (register _ _ _ _ _ _) as [[? ?] ?]. exact E.
  - reflexivity.
  - destruct (handle _ _ _ _ _). reflexivity.
Qed.

Lemma execute_insert_expense_set_users (cv : conversions) (uid : option Z)
    (category amount description : pyval) (ts : datetime) (db : database)
    (accounts : list user_row) :
  execute_insert_expense cv uid category amount description ts
                         (set_user_rows db accounts)
  = match execute_insert_expense cv uid category amount description ts db with
    | inl e => inl e
    | inr db1 => inr (set_user_rows db1 accounts)
    end.
Proof.
  unfold execute_insert_expense, not_null. repeat break_match; reflexivity.
Qed.

Lemma check_overspending_set_users (cv : conversions) (uid : option Z)
    (category : pyval) (clk : clock) (db : database) (accounts : list user_row) :
  check_overspending cv uid category clk (set_user_rows db accounts)
  = match check_overspending cv uid category clk db with
    | inl e => inl e
    | inr db2 => inr (set_user_rows db2 accounts)
    end.
Proof.
  unfold check_overspending.
  change (total_spent cv uid ?c clk (set_user_rows db accounts))
    with (total_spent cv uid c clk db).
  cbn [set_user_rows budgets]. repeat break_match; reflexivity.
Qed.

(** The data handlers neither read nor write the accounts. *)
Lemma handle_set_users (cv : conversions) (s : session) (r : request) (clk : clock)
    (db : database) (accounts : list user_row) :
  handle cv s r clk (set_user_rows db accounts)
  = (fst (handle cv s r clk db), set_user_rows (snd (handle cv s r clk db)) accounts).
Proof.
  destruct r; cbn [handle].
  - unfold get_data. destruct (check_session s); [reflexivity|].
    change (load_user_data cv (user_id s) clk (set_user_rows db accounts))
      with (load_user_data cv (user_id s) clk db).
    destruct (load_user_data cv (user_id s) clk db); reflexivity.
  - unfold set_income, execute_upsert_income, not_null.
    cbn [set_user_rows income]. repeat break_match; try discriminate; reflexivity.
  - unfold add_budget, execute_upsert_budget, not_null.
    cbn [set_user_rows budgets]. repeat break_match; try discriminate; reflexivity.
  - unfold delete_budget, execute_delete_budget.
    cbn [set_user_rows budgets]. repeat break_match; try discriminate; reflexivity.
  - unfold add_expense. destruct (check_session s); [reflexivity|].
    rewrite execute_insert_expense_set_users.
    destruct (execute_insert_expense _ _ _ _ _ _ db) as [e|db1]; [reflexivity|].
    rewrite check_overspending_set_users.
    destruct (check_overspending _ _ _ _ db1); reflexivity.
  - unfold add_goal, execute_insert_goal, not_null.
    cbn [set_user_rows goals]. repeat break_match; try discriminate; reflexivity.
  - unfold delete_goal, execute_delete_goal.
    cbn [set_user_rows goals]. repeat break_match; try discriminate; reflexivity.
  - unfold add_saving, execute_update_goal.
    cbn [set_user_rows goals]. repeat break_match; try discriminate; reflexivity.
  - unfold get_notifications.
    cbn [set_user_rows notifications]. repeat break_match; reflexivity.
  - unfold get_trends. destruct (check_session s); [reflexivity|].
    change (generate_trend_analysis cv (user_id s) clk (set_user_rows db accounts))
      with (generate_trend_analysis cv (user_id s) clk db).
    destruct (generate_trend_analysis cv (user_id s) clk db); reflexivity.
Qed.

Lemma handle_keeps_users (cv : conversions) (s : session) (r : request) (clk : clock)
    (db : database) :
  users (snd (handle cv s r clk db)) = users db.
Proof.
  pose proof (handle_set_users cv s r clk db (users db)) as E.
  rewrite set_user_rows_same in E. rewrite E at 1. reflexivity.
Qed.

Lemma handle_logged_out (cv : conversions) (s : session) (r : request) (clk : clock)
    (db : database) :
  logged_in s = false -> snd (handle cv s r clk db) = db.
Proof.
  intros L.
  destruct r; cbn [handle];
    unfold get_data, set_income, add_budget, delete_budget, add_expense, add_goal,
      delete_goal, add_saving, get_notifications, get_trends, check_session;
    rewrite L; reflexivity.
Qed.

(** *** Every row belongs to an account *)

Lemma upsert_income_owned (P : option Z -> Prop) (uid : option Z) (a : sqlval)
    (m : month_key) (ts : datetime) (rows : list income_row) :
  P uid -> Forall (fun r => P (inc_user_id r)) rows ->
  Forall (fun r => P (inc_user_id r)) (upsert_income uid a m ts rows).
Proof.
  intros U. induction 1 as [|r rows Hr Hrest IH]; simpl.
  - constructor; [exact U|constructor].
  - destruct (_ && _); constructor; simpl; assumption.
Qed.

Lemma upsert_budget_owned (P : option Z -> Prop) (uid : option Z) (c : string)
    (a : sqlval) (m : month_key) (ts : datetime) (rows : list budget_row) :
  P uid -> Forall (fun r => P (bud_user_id r)) rows ->
  Forall (fun r => P (bud_user_id r)) (upsert_budget uid c a m ts rows).
Proof.
  intros U. induction 1 as [|r rows Hr Hrest IH]; simpl.
  - constructor; [exact U|constructor].
  - destruct (_ && _); constructor; simpl; assumption.
Qed.

Lemma Forall_filter_keeps (A : Type) (P : A -> Prop) (p : A -> bool) (l : list A) :
  Forall P l -> Forall P (filter p l).
Proof.
  intros F. apply Forall_forall. intros x Hx. apply filter_In in Hx.
  rewrite Forall_forall in F. apply F. tauto.
Qed.

Lemma Forall_snoc (A : Type) (P : A -> Prop) (l : list A) (x : A) :
  Forall P l -> P x -> Forall P (l ++ [x]).
Proof. intros F X. apply Forall_app. split; [exact F|constructor; [exact X|constructor]]. Qed.

Ltac owned :=
  unfold all_owned;
  cbn [snd set_income_rows set_budget_rows set_expense_rows set_goal_rows
       set_notification_rows income budgets expenses goals notifications];
  repeat split;
  auto using upsert_income_owned, upsert_budget_owned, Forall_filter_keeps,
             Forall_snoc.

Lemma handle_all_owned (P : option Z -> Prop) (cv : conversions) (s : session)
    (r : request) (clk : clock) (db : database) :
  P (user_id s) -> all_owned P db -> all_owned P (snd (handle cv s r clk db)).
Proof.
  intros U Same. pose proof Same as (Hi & Hb & He & Hg & Hn).
  destruct r; cbn [handle].
  - unfold get_data. repeat break_match; exact Same.
  - unfold set_income, execute_upsert_income, not_null.
    repeat break_match; try discriminate; try exact Same.
    all: owned.
  - unfold add_budget, execute_upsert_budget, not_null.
    repeat break_match; try discriminate; try exact Same.
    all: owned.
  - unfold delete_budget, execute_delete_budget.
    repeat break_match; try discriminate; try exact Same.
    all: owned.
  - unfold add_expense.
    destruct (check_session s); [exact Same|].
    destruct (execute_insert_expense _ _ _ _ _ _ _) as [e|db1] eqn:E1; [exact Same|].
    assert (all_owned P db1) as Same1.
    { revert E1. unfold execute_insert_expense, not_null.
      repeat break_match; intros E1; try discriminate; inversion E1; owned. }
    destruct (check_overspending _ _ _ _ _) as [e|db2] eqn:E2; cbn [snd];
      [exact Same1|].
    apply check_overspending_appends in E2.
    destruct E2 as [->|(n & -> & _ & Un)]; [exact Same1|].
    destruct Same1 as (Hi1 & Hb1 & He1 & Hg1 & Hn1).
    owned. apply Forall_snoc; [exact Hn1|]. rewrite Un. exact U.
  - unfold add_goal, execute_insert_goal, not_null.
    repeat break_match; try discriminate; try exact Same.
    all: owned.
  - unfold delete_goal, execute_delete_goal.
    repeat break_match; try discriminate; try exact Same.
    all: owned.
  - unfold add_saving, execute_update_goal.
    repeat break_match; try discriminate; try exact Same.
    all: owned.
    apply Forall_map. apply Forall_forall. intros g Hg'.
    rewrite Forall_forall in Hg. specialize (Hg g Hg').
    destruct (goal_where _ _ _ _); exact Hg.
  - unfold get_notifications. repeat break_match; exact Same.
  - unfold get_trends. repeat break_match; exact Same.
Qed.

Lemma all_owned_weaken (P Q : option Z -> Prop) (db : database) :
  (forall uid, P uid -> Q uid) -> all_owned P db -> all_owned Q db.
Proof.
  intros W (Hi & Hb & He & Hg & Hn).
  repeat split; eapply Forall_impl; try eassumption; intros r; apply W.
Qed.

Lemma has_account_grows (db db' : database) (more : list user_row) (uid : option Z) :
  users db' = users db ++ more -> has_account db uid -> has_account db' uid.
Proof.
  intros E (account & A & U). exists account. split; [|exact U].
  rewrite E. apply in_or_app. left. exact A.
Qed.

Lemma not_existsb_not_in (rows : list user_row) (username : string) :
  existsb (fun r => String.eqb (usr_username r) username) rows = false ->
  ~ In username (map usr_username rows).
Proof.
  intros X H. apply in_map_iff in H. destruct H as (r & E & Hr).
  assert (existsb (fun r => String.eqb (usr_username r) username) rows = true) as T.
  { apply existsb_exists. exists r. split; [exact Hr|]. rewrite E.
    apply String.eqb_refl. }
  congruence.
Qed.

Lemma NoDup_snoc (A : Type) (l : list A) (x : A) :
  NoDup l -> ~ In x l -> NoDup (l ++ [x]).
Proof.
  intros N X. apply NoDup_app; [exact N|constructor; [intros []|constructor]|].
  intros y Hy [<-|[]]. exact (X Hy).
Qed.

(** A new account keeps the accounts well-formed. *)
Lemma insert_user_wellformed (username password_hash : string) (db db' : database)
    (cookies : list session) :
  execute_insert_user username password_hash db = inr db' ->
  accounts_wellformed db cookies ->
  accounts_wellformed db' cookies
  /\ users db' = users db ++ [Build_user_row (next_user_id (users db)) username
                                             password_hash].
Proof.
  intros I (Nn & Ni & Pos & Ck & Own).
  apply execute_insert_user_inv in I. destruct I as [X ->].
  split; [|reflexivity].
  set (account := Build_user_row (next_user_id (users db)) username password_hash).
  assert (forall uid, has_account db uid
                      -> has_account (set_user_rows db (users db ++ [account])) uid)
    as Grow.
  { intros uid. apply (has_account_grows db _ [account]). reflexivity. }
  unfold accounts_wellformed. cbn [set_user_rows users].
  rewrite !map_app. cbn [map].
  split; [apply NoDup_snoc; [exact Nn|apply not_existsb_not_in; exact X]|].
  split.
  { apply NoDup_snoc; [exact Ni|]. intros H. apply in_map_iff in H.
    destruct H as (r & E & Hr). apply next_user_id_above in Hr.
    simpl in E. lia. }
  split; [apply Forall_snoc; [exact Pos|apply next_user_id_positive]|].
  split.
  { eapply Forall_impl; [|exact Ck]. intros s [A|[L A]]; [left; exact A|].
    right. split; [exact L|apply Grow; exact A]. }
  apply (all_owned_weaken (has_account db)); [exact Grow|].
  destruct Own as (Hi & Hb & He & Hg & Hn). repeat split; assumption.
Qed.

Lemma wellformed_cookie (db : database) (cookies : list session) (s : session) :
  accounts_wellformed db cookies ->
  s = anonymous \/ (logged_in s = true /\ has_account db (user_id s)) ->
  accounts_wellformed db (s :: cookies).
Proof.
  intros (Nn & Ni & Pos & Ck & Own) C. unfold accounts_wellformed.
  split; [exact Nn|]. split; [exact Ni|]. split; [exact Pos|].
  split; [constructor; assumption|exact Own].
Qed.

Lemma wellformed_no_cookies (db : database) (cookies : list session) :
  accounts_wellformed db cookies -> accounts_wellformed db [].
Proof.
  intros (Nn & Ni & Pos & Ck & Own). unfold accounts_wellformed.
  split; [exact Nn|]. split; [exact Ni|]. split; [exact Pos|].
  split; [constructor|exact Own].
Qed.

Lemma visit_wellformed (h : hashing) (cv : conversions) (salt : string)
    (clk : clock) (s : session) (v : visit) (db : database) (cookies : list session) :
  accounts_wellformed db cookies -> In s cookies ->
  accounts_wellformed (snd (serve h cv salt clk s v db))
                      (snd (fst (serve h cv salt clk s v db)) :: cookies).
Proof.
  intros W S. rewrite serve_store, serve_session.
  pose proof W as (Nn & Ni & Pos & Ck & Own).
  assert (s = anonymous \/ (logged_in s = true /\ has_account db (user_id s))) as Cs.
  { rewrite Forall_forall in Ck. exact (Ck s S). }
  destruct v.
  - apply wellformed_cookie; assumption.
  - pose proof (login_effect h method f salt s db) as [Store Sess].
    cbv zeta in Store, Sess.
    assert (accounts_wellformed (snd (login h method f salt s db)) cookies
            /\ exists more, users (snd (login h method f salt s db))
                            = users db ++ more) as [W' [more G]].
    { destruct Store as [->|(_ & _ & _ & I)].
      - split; [exact W|]. exists []. rewrite app_nil_r. reflexivity.
      - destruct (insert_user_wellformed _ _ _ _ cookies I W) as [W' G].
        split; [exact W'|]. eexists. exact G. }
    apply wellformed_cookie; [exact W'|].
    destruct Sess as [(_ & account & Sel & _ & ->)|(_ & ->)].
    + right. split; [reflexivity|]. exists account. split; [|reflexivity].
      unfold select_user in Sel. destruct (form_username f); [|discriminate].
      apply find_some in Sel. tauto.
    + destruct Cs as [A|[L A]]; [left; exact A|].
      right. split; [exact L|]. exact (has_account_grows db _ more _ G A).
  - pose proof (register_effect h method f salt s db) as [_ Store].
    cbv zeta in Store.
    assert (accounts_wellformed (snd (register h method f salt s db)) cookies
            /\ exists more, users (snd (register h method f salt s db))
                            = users db ++ more) as [W' [more G]].
    { destruct Store as [(_ & ->)|(_ & username & password & _ & _ & _ & _ & I)].
      - split; [exact W|]. exists []. rewrite app_nil_r. reflexivity.
      - destruct (insert_user_wellformed _ _ _ _ cookies I W) as [W' G].
        split; [exact W'|]. eexists. exact G. }
    apply wellformed_cookie; [exact W'|].
    destruct Cs as [A|[L A]]; [left; exact A|].
    right. split; [exact L|]. exact (has_account_grows db _ more _ G A).
  - apply wellformed_cookie; [exact W|left; reflexivity].
  - pose proof (handle_keeps_users cv s r clk db) as Eu.
    assert (forall uid, has_account db uid
                        -> has_account (snd (handle cv s r clk db)) uid) as Grow.
    { intros uid. apply (has_account_grows db _ []).
      rewrite app_nil_r. exact Eu. }
    unfold accounts_wellformed. rewrite Eu.
    split; [exact Nn|]. split; [exact Ni|]. split; [exact Pos|]. split.
    + constructor.
      * destruct Cs as [A|[L A]]; [left; exact A|right; split; [exact L|auto]].
      * eapply Forall_impl; [|exact Ck]. intros s' [A|[L A]]; [left; exact A|].
        right. split; [exact L|auto].
    + apply (all_owned_weaken (has_account db)); [exact Grow|].
      destruct Cs as [->|[L A]].
      * rewrite handle_logged_out by reflexivity. exact Own.
      * apply handle_all_owned; assumption.
Qed.

(** Whatever the visitors do, the accounts stay well-formed: no two accounts
    share a user name or an id, the ids are above zero, every session cookie
    the server has signed is the empty session or the session of an existing
    account, and every row of the income, budget, expense, goal and
    notification tables carries the id of an existing account, although the
    store never enforces the foreign keys. *)
Theorem site_accounts_wellformed (h : hashing) (cv : conversions) (db : database)
    (cookies : list session) :
  site h cv db cookies -> accounts_wellformed db cookies.
Proof.
  induction 1 as [|db cookies _ IH|db cookies s v salt clk _ IH S].
  - unfold accounts_wellformed, all_owned. simpl.
    repeat split; try (constructor; fail).
    constructor; [left; reflexivity|constructor].
  - apply wellformed_cookie; [|left; reflexivity].
    exact (wellformed_no_cookies db cookies IH).
  - apply visit_wellformed; assumption.
Qed.

Lemma visit_reachable (h : hashing) (cv : conversions) (salt : string)
    (clk : clock) (s : session) (v : visit) (db : database) :
  (forall accounts, reachable cv (set_user_rows db accounts)) ->
  forall accounts,
    reachable cv (set_user_rows (snd (serve h cv salt clk s v db)) accounts).
Proof.
  intros IH accounts. rewrite serve_store. destruct v.
  - apply IH.
  - pose proof (login_effect h method f salt s db) as [Store _].
    cbv zeta in Store. destruct Store as [->|(_ & _ & _ & I)]; [apply IH|].
    apply execute_insert_user_inv in I. destruct I as [_ ->]. apply IH.
  - pose proof (register_effect h method f salt s db) as [_ Store].
    cbv zeta in Store.
    destruct Store as [(_ & ->)|(_ & username & password & _ & _ & _ & _ & I)];
      [apply IH|].
    apply execute_insert_user_inv in I. destruct I as [_ ->]. apply IH.
  - apply IH.
  - pose proof (handle_set_users cv s r clk db accounts) as E.
    apply (f_equal snd) in E. cbn [snd] in E. rewrite <- E.
    apply reachable_step. apply IH.
Qed.

(** Every store the site can reach, account pages included, is a store the
    data handlers reach from one that holds accounts only: what is proved of
    the reachable stores holds of the whole application. *)
Theorem site_store_reachable (h : hashing) (cv : conversions) (db : database)
    (cookies : list session) :
  site h cv db cookies ->
  reachable cv db /\ unique_keys db /\ Forall fresh_alert (notifications db).
Proof.
  intros S.
  assert (forall accounts, reachable cv (set_user_rows db accounts)) as R.
  { induction S as [|db cookies _ IH|db cookies s v salt clk _ IH _].
    - intros accounts. exact (reachable_init cv accounts).
    - exact IH.
    - apply visit_reachable. exact IH. }
  specialize (R (users db)). rewrite set_user_rows_same in R.
  split; [exact R|]. split.
  - apply (reachable_unique_keys cv). exact R.
  - apply (reachable_alerts_fresh cv). exact R.
Qed.

(** *** Logging in *)

Lemma browse_users_grow (h : hashing) (cv : conversions)
    (visits : list (string * clock * session * visit)) (db : database) :
  exists more, users (browse h cv visits db) = users db ++ more.
Proof.
  revert db. induction visits as [|[[[salt clk] s] v] visits IH]; intros db.
  - exists []. rewrite app_nil_r. reflexivity.
  - change (browse h cv ((salt, clk, s, v) :: visits) db)
      with (browse h cv visits (snd (serve h cv salt clk s v db))).
    destruct (IH (snd (serve h cv salt clk s v db))) as [more ->].
    assert (exists first, users (snd (serve h cv salt clk s v db))
                          = users db ++ first) as [first ->].
    { rewrite serve_store. destruct v.
      - exists []. rewrite app_nil_r. reflexivity.
      - pose proof (login_effect h method f salt s db) as [Store _].
        cbv zeta in Store. destruct Store as [->|(_ & _ & _ & I)].
        + exists []. rewrite app_nil_r. reflexivity.
        + apply execute_insert_user_inv in I. destruct I as [_ ->].
          eexists. reflexivity.
      - pose proof (register_effect h method f salt s db) as [_ Store].
        cbv zeta in Store.
        destruct Store as [(_ & ->)|(_ & username & password & _ & _ & _ & _ & I)].
        + exists []. rewrite app_nil_r. reflexivity.
        + apply execute_insert_user_inv in I. destruct I as [_ ->].
          eexists. reflexivity.
      - exists []. rewrite app_nil_r. reflexivity.
      - rewrite handle_keeps_users. exists []. rewrite app_nil_r. reflexivity. }
    exists (first ++ more). rewrite app_assoc. reflexivity.
Qed.

(** Once registered, an account can always log in.  When the register form
    is accepted, one account is appended under a fresh id, with the form's
    user name and the hash of its password; and from then on, whatever
    visits the site serves in between, the login form with that user name
    and password is answered with the redirect to the home page and the
    session of that account, and changes nothing in the store (for a hash
    that accepts the password it was generated from). *)
Theorem registered_account_can_log_in (h : hashing) (cv : conversions) (f : form)
    (salt : string) (s : session) (db : database) :
  hash_correct h ->
  fst (fst (register h POST f salt s db)) = Redirect login_endpoint ->
  exists account,
    users (snd (register h POST f salt s db)) = users db ++ [account]
    /\ form_username f = Some (usr_username account)
    /\ ~ In (usr_id account) (map usr_id (users db))
    /\ ~ In (usr_username account) (map usr_username (users db))
    /\ forall visits salt' s',
         let later := browse h cv visits (snd (register h POST f salt s db)) in
         login h POST f salt' s' later
         = (Redirect home_endpoint, login_session (usr_id account), later).
Proof.
  intros Hc Ok.
  pose proof (register_effect h POST f salt s db) as [_ Store]. cbv zeta in Store.
  destruct Store as [(N & _)|(_ & username & password & Fu & Fp & _ & _ & I)];
    [contradiction|].
  apply execute_insert_user_inv in I. destruct I as [X E].
  set (account := Build_user_row (next_user_id (users db)) username
                    (generate_password_hash h salt password)) in *.
  exists account. rewrite E. cbn [set_user_rows users].
  split; [reflexivity|]. split; [exact Fu|]. split.
  { intros H. apply in_map_iff in H. destruct H as (r & Er & Hr).
    apply next_user_id_above in Hr. simpl in Er. lia. }
  split; [apply not_existsb_not_in; exact X|].
  intros visits salt' s'.
  destruct (browse_users_grow h cv visits
              (set_user_rows db (users db ++ [account]))) as [more G].
  set (later := browse h cv visits (set_user_rows db (users db ++ [account]))) in *.
  cbn [set_user_rows users] in G.
  assert (select_user (form_username f) later = Some account) as Sel.
  { rewrite Fu. unfold select_user. rewrite G, <- app_assoc. cbn [app].
    apply find_after; [exact X|]. apply String.eqb_refl. }
  unfold login. cbv zeta. rewrite Sel. rewrite Fp.
  cbn [usr_password_hash account]. rewrite Hc. reflexivity.
Qed.

(** Nobody is logged in without an account whose hash accepts the password.
    A login request either answers the redirect to the home page, and then
    the store holds an account with the form's user name whose hash accepts
    the form's password, and the session afterwards is the session of that
    account's id; or it answers something else and leaves the session as it
    was.  It never touches the data tables, and the only account it can add
    is the demo account, when the form reads demo and demo and no account of
    that name exists. *)
Theorem login_needs_matching_account (h : hashing) (method : http_method) (f : form)
    (salt : string) (s : session) (db : database) :
  let r := login h method f salt s db in
  set_user_rows (snd r) (users db) = db
  /\ (users (snd r) = users db
      \/ select_user (Some "demo"%string) db = None
         /\ form_username f = Some "demo"%string
         /\ form_password f = Some "demo"%string
         /\ users (snd r)
            = users db ++ [Build_user_row (next_user_id (users db)) "demo"
                             (generate_password_hash h salt "demo")])
  /\ (fst (fst r) = Redirect home_endpoint
      /\ (exists account,
            In account (users (snd r))
            /\ form_username f = Some (usr_username account)
            /\ check_password_hash h (usr_password_hash account) (form_password f)
               = Some true
            /\ snd (fst r) = login_session (usr_id account))
      \/ fst (fst r) <> Redirect home_endpoint /\ snd (fst r) = s).
Proof.
  intros r. subst r.
  pose proof (login_effect h method f salt s db) as [Store Sess].
  cbv zeta in Store, Sess. split; [|split].
  - destruct Store as [->|(_ & _ & _ & I)]; [apply set_user_rows_same|].
    apply execute_insert_user_inv in I. destruct I as [_ ->].
    destruct db; reflexivity.
  - destruct Store as [->|(U & Du & Dp & I)]; [left; reflexivity|].
    right. apply execute_insert_user_inv in I. destruct I as [_ ->].
    destruct (form_username f) as [n|]; [|discriminate].
    destruct (form_password f) as [p|]; [|discriminate].
    simpl in Du, Dp. apply String.eqb_eq in Du, Dp. subst n p.
    repeat split. exact U.
  - destruct Sess as [(P & account & Sel & C & E)|N]; [left|right; exact N].
    split; [exact P|]. exists account.
    unfold select_user in Sel. destruct (form_username f) as [n|]; [|discriminate].
    apply find_some in Sel. destruct Sel as [A Un]. apply String.eqb_eq in Un.
    repeat split; try assumption. rewrite Un. reflexivity.
Qed.

(** The demo account provisions itself.  On a store with no account named
    demo, the login form reading demo and demo creates that account, under
    the next id and the hash of "demo", and logs the caller in as it; on a
    store that has an account of that name, nothing is created and the form
    is let in exactly when the hash of that account accepts "demo". *)
Theorem demo_login_provisions (h : hashing) (f : form) (salt : string) (s : session)
    (db : database) :
  hash_correct h ->
  form_username f = Some "demo"%string ->
  form_password f = Some "demo"%string ->
  match select_user (Some "demo"%string) db with
  | None =>
      login h POST f salt s db
      = (Redirect home_endpoint, login_session (next_user_id (users db)),
         set_user_rows db
           (users db ++ [Build_user_row (next_user_id (users db)) "demo"
                           (generate_password_hash h salt "demo")]))
  | Some account =>
      snd (login h POST f salt s db) = db
      /\ (fst (fst (login h POST f salt s db)) = Redirect home_endpoint
          <-> check_password_hash h (usr_password_hash account) (Some "demo"%string)
              = Some true)
      /\ (fst (fst (login h POST f salt s db)) = Redirect home_endpoint
          -> snd (fst (login h POST f salt s db)) = login_session (usr_id account))
  end.
Proof.
  intros Hc Fu Fp. unfold login. cbv zeta. rewrite Fu, Fp.
  destruct (select_user (Some "demo"%string) db) as [account|] eqn:U.
  - destruct (check_password_hash h (usr_password_hash account) (Some "demo"%string))
      as [[|]|]; cbn [fst snd].
    + repeat split; reflexivity.
    + split; [reflexivity|]. split; [split; discriminate|discriminate].
    + split; [reflexivity|]. split; [split; discriminate|discriminate].
  - cbn [field_is]. rewrite String.eqb_refl. cbn [andb].
    unfold execute_insert_user.
    simpl in U. rewrite (find_existsb_false _ _ _ U).
    unfold select_user. cbn [set_user_rows users].
    rewrite (find_after _ _ (users db) []); [|apply find_existsb_false; exact U
                                              |reflexivity].
    cbn [usr_password_hash usr_id]. rewrite Hc. reflexivity.
Qed.

(** ** An expense whose amount is no number *)

Lemma traverse_fails {A B : Type} (f : A -> result B) (l : list A) (x : A) (e : exn) :
  In x l -> f x = inl e -> exists e', traverse f l = inl e'.
Proof.
  intros H E. induction l as [|a l IH]; simpl; [contradiction|].
  destruct H as [->|H].
  - rewrite E. eauto.
  - destruct (f a); [eauto|]. destruct (IH H) as [e' ->]. eauto.
Qed.

Lemma load_user_data_unreadable (cv : conversions) (uid : option Z) (clk : clock)
    (db : database) (row : expense_row) (e : exn) :
  In row (expenses db) -> user_is (exp_user_id row) uid = true ->
  float cv (exp_amount row) = inl e ->
  exists e', load_user_data cv uid clk db = inl e'.
Proof.
  intros H U E. unfold load_user_data.
  match goal with
  | |- context [traverse ?F (order_by_desc exp_timestamp ?L)] =>
      destruct (traverse_fails F (order_by_desc exp_timestamp L) row e) as [e' X]
  end.
  - apply (Permutation_in _ (Permutation_sym (order_by_desc_perm exp_timestamp _))).
    apply filter_In. split; assumption.
  - rewrite E. reflexivity.
  - rewrite X.
    repeat match goal with
           | |- exists e', match ?x with inl _ => _ | inr _ => _ end = _ =>
               destruct x; [eauto|]
           end.
    eauto.
Qed.

Lemma browse_expenses_grow (h : hashing) (cv : conversions)
    (visits : list (string * clock * session * visit)) (db : database) :
  exists more, expenses (browse h cv visits db) = expenses db ++ more.
Proof.
  revert db. induction visits as [|[[[salt clk] s] v] visits IH]; intros db.
  - exists []. rewrite app_nil_r. reflexivity.
  - change (browse h cv ((salt, clk, s, v) :: visits) db)
      with (browse h cv visits (snd (serve h cv salt clk s v db))).
    destruct (IH (snd (serve h cv salt clk s v db))) as [more ->].
    assert (exists first, expenses (snd (serve h cv salt clk s v db))
                          = expenses db ++ first) as [first ->].
    { rewrite serve_store. destruct v.
      - exists []. rewrite app_nil_r. reflexivity.
      - pose proof (login_effect h method f salt s db) as [Store _].
        cbv zeta in Store. destruct Store as [->|(_ & _ & _ & I)].
        + exists []. rewrite app_nil_r. reflexivity.
        + apply execute_insert_user_inv in I. destruct I as [_ ->].
          exists []. rewrite app_nil_r. reflexivity.
      - pose proof (register_effect h method f salt s db) as [_ Store].
        cbv zeta in Store.
        destruct Store as [(_ & ->)|(_ & username & password & _ & _ & _ & _ & I)].
        + exists []. rewrite app_nil_r. reflexivity.
        + apply execute_insert_user_inv in I. destruct I as [_ ->].
          exists []. rewrite app_nil_r. reflexivity.
      - exists []. rewrite app_nil_r. reflexivity.
      - destruct (handle_appends cv s r clk db) as (es & _ & E & _).
        exists es. exact E. }
    exists (first ++ more). rewrite app_assoc. reflexivity.
Qed.

(** An expense whose amount is a text that is no number breaks the dashboard
    of its user for good.  The expense request (its category a value the
    store keeps, its description one the store can bind) stores the text
    (the handler validates nothing), no handler removes or rewrites an
    expense, and the
    dashboard data converts the amount of every expense of the user with
    [float]: from then on, whatever is served in between, by whomever, the
    data endpoint answers that user with an exception. *)
Theorem non_numeric_expense_breaks_dashboard (h : hashing) (cv : conversions)
    (u : Z) (json : jsonobj) (t : string) (clk : clock) (db : database) :
  is_stored (dict_get json "category" PNone) = true ->
  dict_get json "amount" PNone = PStr t ->
  is_bindable (dict_get json "description" (PStr "")) = true ->
  numeric_text cv t = None -> py_float cv t = None ->
  forall visits clk',
    let later := browse h cv visits (snd (add_expense cv (login_session u) json clk db)) in
    exists e, get_data cv (login_session u) clk' later = (Raised e, later).
Proof.
  intros Hc Ha Hd Nt Pf visits clk' later.
  assert (exists row, In row (expenses (snd (add_expense cv (login_session u) json clk db)))
                      /\ exp_user_id row = Some u /\ exp_amount row = SText t)
    as (row & Hrow & Urow & Arow).
  { unfold add_expense. cbn [check_session login_session logged_in negb user_id].
    rewrite (add_expense_inserts cv u (dict_get json "category" PNone)
               (dict_get json "amount" PNone)
               (dict_get json "description" (PStr "")) (current_timestamp clk) db
               Hc) by (try exact Hd; rewrite Ha; reflexivity).
    exists (mkexpense (Some u) (cell_text cv (dict_get json "category" PNone))
                      (SText t)
                      (text_cell cv (bound (dict_get json "description" (PStr ""))))
                      (current_timestamp clk)).
    split; [|split; reflexivity].
    rewrite Ha. cbn [cell_number numeric_affinity]. rewrite Nt.
    destruct (check_overspending _ _ _ _ _) as [e|db2] eqn:E2; cbn [snd].
    - cbn [set_expense_rows expenses]. apply in_or_app. right. left. reflexivity.
    - apply check_overspending_appends in E2.
      destruct E2 as [->|(n & -> & _)];
        cbn [set_notification_rows set_expense_rows expenses];
        apply in_or_app; right; left; reflexivity. }
  destruct (browse_expenses_grow h cv visits
              (snd (add_expense cv (login_session u) json clk db))) as [more G].
  fold later in G.
  destruct (load_user_data_unreadable cv (Some u) clk' later row ValueError) as [e E].
  - rewrite G. apply in_or_app. left. exact Hrow.
  - rewrite Urow. apply user_is_refl.
  - rewrite Arow. simpl. rewrite Pf. reflexivity.
  - exists e. unfold get_data.
    cbn [check_session login_session logged_in negb user_id]. rewrite E. reflexivity.
Qed.

(** ** Worked requests *)

Lemma run_reachable (cv : conversions) (s : session) (clk : clock)
    (rs : list request) (db : database) :
  reachable cv db -> reachable cv (run cv s clk rs db).
Proof.
  revert db. induction rs as [|r rs IH]; intros db R; simpl; [exact R|].
  apply IH. apply reachable_step. exact R.
Qed.

Lemma empty_db_reachable (cv : conversions) : reachable cv empty_db.
Proof. exact (reachable_init cv []). Qed.

Lemma after_first_expense_reachable : reachable integer_literals after_first_expense.
Proof. apply run_reachable. apply empty_db_reachable. Qed.

Lemma with_car_goal_reachable : reachable integer_literals with_car_goal.
Proof. apply run_reachable. apply empty_db_reachable. Qed.


(** The trend of the seven months on 4 November 2026, 180 days after 8 May:
    it returns, and each total is the double of the month's sum. *)
Lemma trend_analysis_shape_witness :
  minus_days 180 (now november_4) = Some (mkdt 2026 5 8 12 0 0)
  /\ exists labels totals,
       generate_trend_analysis integer_literals (Some 1) november_4 seven_months
       = inr (labels, totals)
       /\ Forall2 (fun k t => t = float_of_int64
                                    (total_amount (trend_rows (Some 1) [2026; 5; 1] k
                                                              seven_months)))
                  labels totals.
Proof.
  split; [reflexivity|].
  refine (proj2 (trend_analysis_shape integer_literals seven_months (Some 1) november_4
                   (mkdt 2026 5 8 12 0 0) eq_refl) _ _).
  - apply Forall_forall. intros e He. vm_compute in He.
    repeat (destruct He as [<-|He]; [exists 100; split; [reflexivity|lia]|]).
    contradiction.
  - vm_compute. discriminate.
Defined.

(** C1: at 02:00 on 1 November 2026 on a server five and a half hours ahead
    of UTC, the user budgets 300 for Food and then spends 400 on it.  The
    budget row is of November, the server's month; the expense is stamped
    20:30 on 31 October, the store's UTC time, which is before the start of
    the server's month, so the total the check compares with the budget is
    0: the request succeeds and no notification is written, though the
    month's spend on Food, 400, exceeds the budget of 300. *)
Theorem overspend_alert_missed_ahead_of_utc :
  handle integer_literals alice (AddExpense (food 400)) first_of_november
         (snd (handle integer_literals alice (AddBudget (food 300)) first_of_november
                      empty_db))
  = (Jsonify Success,
     mkdb [] []
          [mkbudget (Some 1) "Food" (SInt 300) (2026, 11) (mkdt 2026 10 31 20 30 0)]
          [mkexpense (Some 1) "Food" (SInt 400) (Some ""%string)
                     (mkdt 2026 10 31 20 30 0)]
          [] []).
Proof. reflexivity. Qed.

(** The second Food expense of the scenario, 250 after 120 against a budget
    of 300, writes the one alert, for 70.00. *)
Lemma overspend_alert_whole_amounts_witness :
  reachable integer_literals after_first_expense
  /\ notifications after_first_expense = []
  /\ exists n,
       notifications (snd (add_expense integer_literals alice (food 250) november_4
                                       after_first_expense))
       = [n]
       /\ ntf_user_id n = Some 1
       /\ alert_category (ntf_message n) = PStr "Food".
Proof.
  split; [exact after_first_expense_reachable|]. split; [reflexivity|].
  assert (Forall whole_amount (expenses after_first_expense)) as W
    by (constructor; [exists 120; split; [reflexivity|lia]|constructor]).
  assert (Forall (fun e => timestamp_wellformed (exp_timestamp e)
                           /\ month_ltb (2026, 11) (strftime_Ym (exp_timestamp e)) = false)
                 (expenses after_first_expense)) as T.
  { constructor; [|constructor]. split; [|reflexivity].
    repeat split; simpl; lia. }
  assert (timestamp_wellformed (current_timestamp november_4)) as Wu
    by (repeat split; simpl; lia).
  pose proof (overspend_alert_whole_amounts integer_literals after_first_expense 1
                (food 250) november_4 250 after_first_expense_reachable
                eq_refl eq_refl ltac:(lia) eq_refl eq_refl eq_refl Wu W
                ltac:(vm_compute; discriminate) T) as (_ & H).
  pose proof (H (mkbudget (Some 1) "Food" (SInt 300) (2026, 11) (mkdt 2026 11 4 12 0 0))
                300%float _ (or_introl eq_refl) eq_refl eq_refl eq_refl) as (_ & X).
  match type of X with
  | if ?c then _ else _ =>
      assert (c = true) as C by (vm_compute; reflexivity); rewrite C in X
  end.
  destruct X as (n & N & Un & Cn & _).
  exists n. split; [exact N|]. split; assumption.
Defined.

(** An anonymous caller adding an expense to the scenario's store. *)
Lemma unauthorized_no_side_effect_witness :
  logged_in anonymous = false
  /\ handle integer_literals anonymous (AddExpense (food 250)) november_4
            after_first_expense
     = (ErrorResponse 401 NotAuthorized, after_first_expense).
Proof.
  split; [reflexivity|].
  apply (unauthorized_no_side_effect integer_literals anonymous
           (AddExpense (food 250)) november_4 after_first_expense).
  reflexivity.
Defined.

(** Food budgeted at 300 in the scenario, then at 200 and at 450. *)
Lemma budget_upsert_unique_witness :
  reachable integer_literals after_first_expense
  /\ fst (add_budget integer_literals alice (food 450) november_4
            (snd (add_budget integer_literals alice (food 200) november_4
                    after_first_expense)))
     = Jsonify Success
  /\ exists row,
       filter (budget_key 1 "Food" (2026, 11))
              (budgets (snd (add_budget integer_literals alice (food 450) november_4
                               (snd (add_budget integer_literals alice (food 200)
                                       november_4 after_first_expense)))))
       = [row]
       /\ bud_amount row = SInt 450.
Proof.
  split; [exact after_first_expense_reachable|]. split; [reflexivity|].
  destruct (budget_upsert_unique integer_literals after_first_expense 1
              (food 200) (food 450) november_4 november_4
              after_first_expense_reachable eq_refl eq_refl) as (_ & _ & _ & H).
  exact (H eq_refl).
Defined.

(** An income of 5000 set on the empty store. *)
Lemma set_income_validates_then_upserts_witness :
  reachable integer_literals empty_db
  /\ fst (set_income integer_literals alice [("amount"%string, PInt 5000)] november_4
                     empty_db)
     = Jsonify Success
  /\ set_income integer_literals alice
                [("amount"%string, PInt 9223372036854775808)] november_4 empty_db
     = (Raised OverflowError, empty_db).
Proof.
  split; [apply empty_db_reachable|]. split.
  - exact (proj1 (set_income_validates_then_upserts integer_literals empty_db 1
                    [("amount"%string, PInt 5000)] november_4
                    (empty_db_reachable integer_literals))).
  - exact (set_income_validates_then_upserts integer_literals empty_db 1
             [("amount"%string, PInt 9223372036854775808)] november_4
             (empty_db_reachable integer_literals)).
Defined.

(** C3: the amount [true] of a JSON body is no number, yet the income
    request does not answer the Validation error: it succeeds and writes the
    row of (user, current month) with amount 1.  ([isinstance] counts a bool
    among the ints.) *)
Theorem set_income_accepts_boolean :
  set_income integer_literals alice [("amount"%string, PBool true)] november_4 empty_db
  = (Jsonify Success,
     mkdb [] [mkincome (Some 1) (SInt 1) (2026, 11) (mkdt 2026 11 4 12 0 0)]
          [] [] [] []).
Proof. reflexivity. Qed.


(** A first goal named Car on the empty store, and the same request
    again. *)
Lemma add_goal_duplicate_or_insert_witness :
  reachable integer_literals empty_db
  /\ add_goal integer_literals alice car_goal november_4 empty_db
     = (Jsonify Success, with_car_goal)
  /\ goals with_car_goal
     = [mkgoal (Some 1) "Car" (SInt 9000) (SInt 0) (SText "2027-06-30")
               (mkdt 2026 11 4 12 0 0)]
  /\ add_goal integer_literals alice car_goal november_4 with_car_goal
     = (ErrorResponse 400 (GoalExists (PStr "Car")), with_car_goal).
Proof.
  split; [apply empty_db_reachable|]. split; [|split; [reflexivity|]].
  - destruct (add_goal_duplicate_or_insert integer_literals empty_db 1 car_goal
                november_4 (empty_db_reachable integer_literals) eq_refl eq_refl eq_refl)
      as (_ & _ & H).
    exact (H (fun g (F : In g []) => match F with end) eq_refl eq_refl).
  - destruct (add_goal_duplicate_or_insert integer_literals with_car_goal 1 car_goal
                november_4 with_car_goal_reachable eq_refl eq_refl eq_refl)
      as (_ & H & _).
    apply H. eexists. split; [left; reflexivity|reflexivity].
Defined.

(** A goal request that carries only a name, on the empty store: no goal of
    that name exists, nothing is inserted, and the answer is the Duplicate
    error. *)
Lemma add_goal_without_target_refused :
  add_goal integer_literals alice [("name"%string, PStr "Car")] november_4 empty_db
  = (ErrorResponse 400 (GoalExists (PStr "Car")), empty_db).
Proof. reflexivity. Qed.



(** A budget of -50, and the word "plenty" as a budget. *)
Lemma add_budget_unvalidated_witness :
  reachable integer_literals empty_db
  /\ fst (add_budget integer_literals alice (food (-50)) november_4 empty_db)
     = Jsonify Success
  /\ fst (add_budget integer_literals alice
            [("category"%string, PStr "Food"); ("amount"%string, PStr "plenty")]
            november_4 empty_db)
     = Jsonify Success.
Proof.
  split; [apply empty_db_reachable|]. split.
  - destruct (add_budget_unvalidated integer_literals empty_db 1 (food (-50))
                november_4 (empty_db_reachable integer_literals)) as (_ & H & _).
    exact (proj1 (H eq_refl eq_refl)).
  - destruct (add_budget_unvalidated integer_literals empty_db 1
                [("category"%string, PStr "Food"); ("amount"%string, PStr "plenty")]
                november_4 (empty_db_reachable integer_literals)) as (_ & H & _).
    exact (proj1 (H eq_refl eq_refl)).
Defined.

(** A budget request without an amount: nothing is written, and the answer
    is the store's integrity error. *)
Lemma add_budget_absent_amount_refused :
  add_budget integer_literals alice [("category"%string, PStr "Food")] november_4
             empty_db
  = (Raised IntegrityError, empty_db).
Proof. reflexivity. Qed.

(** An income of 3 with 2 spent: the rate is a third of a hundred, and the
    figure shown is 33.3. *)
Lemma savings_rate_shown_is_rounded :
  dashboard_savings_rate (updateDashboardStats (income_of 3) [spending 2])
  = Fixed false 333 1.
Proof. reflexivity. Qed.

(** An income of 1000 with 1200 spent: remaining is -200 and the figure
    shown is 0. *)
Example overspent_income_shows_zero :
  remaining (updateDashboardStats (income_of 1000) [spending 1200]) = (-200)%float
  /\ dashboard_savings_rate (updateDashboardStats (income_of 1000) [spending 1200])
     = zero_text.
Proof. split; reflexivity. Qed.

(** An income of 80 with 29 spent: the rate is 63.75, the double computed
    lies just below it, and the figure shown is 63.7. *)
Example savings_rate_of_the_double :
  dashboard_savings_rate (updateDashboardStats (income_of 80) [spending 29])
  = Fixed false 637 1.
Proof. reflexivity. Qed.

(** The scenario in full: the second expense raises one alert, a third one
    raises another. *)
Example alerts_are_not_deduplicated :
  map (fun n => alert_overspent (ntf_message n))
      (notifications
         (run integer_literals alice november_4
              [AddExpense (food 250); AddExpense (food 10)] after_first_expense))
  = [Fixed false 7000 2; Fixed false 8000 2].
Proof. reflexivity. Qed.

(** User 1 spending on Food in a store that also holds the Car goal of
    user 2. *)
Lemma handle_leaves_other_users_witness :
  rows_of 2 (snd (handle integer_literals alice (AddExpense (food 250)) november_4
                         (snd (handle integer_literals (login_session 2)
                                      (AddGoal car_goal) november_4
                                      after_first_expense))))
  = rows_of 2 (snd (handle integer_literals (login_session 2) (AddGoal car_goal)
                           november_4 after_first_expense)).
Proof.
  refine (proj1 (handle_leaves_other_users integer_literals alice
                   (AddExpense (food 250)) november_4 _ 2 _)).
  discriminate.
Defined.

(** The second Food expense of the scenario appends one expense and one
    alert. *)
Lemma history_is_append_only_witness :
  reachable integer_literals after_first_expense
  /\ Forall fresh_alert
            (notifications (snd (handle integer_literals alice (AddExpense (food 250))
                                        november_4 after_first_expense))).
Proof.
  split; [exact after_first_expense_reachable|].
  exact (proj2 (proj2 (history_is_append_only integer_literals alice
                         (AddExpense (food 250)) november_4 after_first_expense
                         after_first_expense_reachable))).
Defined.

(** Food budgeted at 450 and deleted again, against the scenario's store
    with its budget of 300: no budget is left either way. *)
Lemma delete_budget_undoes_add_budget_witness :
  budgets (snd (delete_budget integer_literals alice (food 450) november_4
                  (snd (add_budget integer_literals alice (food 450) november_4
                          after_first_expense))))
  = []
  /\ budgets (snd (delete_budget integer_literals alice (food 450) november_4
                     after_first_expense))
     = [].
Proof.
  unfold alice.
  rewrite (delete_budget_undoes_add_budget integer_literals 1 (food 450)
             november_4 november_4 after_first_expense eq_refl).
  split; reflexivity.
Defined.

(** Food budgeted at 450 twice, at noon and a minute later. *)
Lemma add_budget_idempotent_witness :
  budgets (snd (add_budget integer_literals alice (food 450)
                  (at_instant (mkdt 2026 11 4 12 1 0) (mkdt 2026 11 4 12 1 0))
                  (snd (add_budget integer_literals alice (food 450) november_4
                          after_first_expense))))
  = [mkbudget (Some 1) "Food" (SInt 450) (2026, 11) (mkdt 2026 11 4 12 0 0)].
Proof.
  unfold alice.
  rewrite (add_budget_idempotent integer_literals 1 (food 450) november_4
             (at_instant (mkdt 2026 11 4 12 1 0) (mkdt 2026 11 4 12 1 0))
             after_first_expense eq_refl).
  reflexivity.
Defined.

(** An income of 4000 and then of 5200 in November, on the scenario's store
    with its income of 5000. *)
Lemma set_income_overwrites_witness :
  income (snd (set_income integer_literals alice [("amount"%string, PInt 5200)]
                 november_4
                 (snd (set_income integer_literals alice
                         [("amount"%string, PInt 4000)] november_4
                         after_first_expense))))
  = [mkincome (Some 1) (SInt 5200) (2026, 11) (mkdt 2026 11 4 12 0 0)].
Proof.
  unfold alice.
  rewrite (set_income_overwrites integer_literals 1
             [("amount"%string, PInt 4000)] [("amount"%string, PInt 5200)]
             november_4 november_4 after_first_expense (SInt 5200) eq_refl eq_refl).
  reflexivity.
Defined.

(** The notification list of user 1 in the scenario's store. *)
Lemma get_notifications_newest_fifty_witness :
  logged_in alice = true
  /\ exists shown rest,
       get_notifications alice november_4 after_first_expense
       = (Jsonify (Notifications (map notification_dict shown)), after_first_expense)
       /\ Permutation (shown ++ rest) (notifications_of (Some 1) after_first_expense)
       /\ (List.length shown <= 50)%nat.
Proof.
  split; [reflexivity|].
  destruct (get_notifications_newest_fifty alice november_4 after_first_expense
              eq_refl) as (shown & rest & E & P & _ & L & _).
  exists shown, rest. repeat split; assumption.
Defined.

(** The bell of user 1 after the second Food expense of the scenario, when
    the panel is opened: one alert. *)
Lemma notification_bell_counts_witness :
  reachable integer_literals
            (run integer_literals alice november_4 [AddExpense (food 250)]
                 after_first_expense)
  /\ fst (updateNotificationCount
            (rm_notifications
               (loadNotifications
                  (fst (get_notifications alice november_4
                          (run integer_literals alice november_4 [AddExpense (food 250)]
                               after_first_expense)))
                  (income_of 0))))
     = 1%nat.
Proof.
  assert (reachable integer_literals
            (run integer_literals alice november_4 [AddExpense (food 250)]
                 after_first_expense)) as R
    by (apply run_reachable; exact after_first_expense_reachable).
  split; [exact R|].
  exact (proj1 (notification_bell_counts integer_literals 1 november_4 november_4
                  alice GetData _ (income_of 0) R)).
Defined.


Lemma clear_text_correct : hash_correct clear_text.
Proof. intros salt password. simpl. rewrite String.eqb_refl. reflexivity. Qed.

Lemma bob_spends_site :
  site clear_text integer_literals bob_spends
       [login_session 1; login_session 1; anonymous; anonymous].
Proof.
  refine (site_visit clear_text integer_literals _ _ (login_session 1)
            (Api (AddExpense (food 120))) ""%string november_4 _ _).
  - refine (site_visit clear_text integer_literals _ _ anonymous
              (Login POST bob_form) ""%string november_4 _ _).
    + exact (site_visit clear_text integer_literals empty_db [anonymous] anonymous
               (Register POST bob_form) ""%string november_4
               (site_init _ _) (or_introl eq_refl)).
    + left. reflexivity.
  - left. reflexivity.
Qed.

(** The site after Bob registered, logged in and spent. *)
Lemma site_accounts_wellformed_witness :
  site clear_text integer_literals bob_spends
       [login_session 1; login_session 1; anonymous; anonymous]
  /\ accounts_wellformed bob_spends
       [login_session 1; login_session 1; anonymous; anonymous].
Proof.
  split; [exact bob_spends_site|].
  exact (site_accounts_wellformed clear_text integer_literals _ _ bob_spends_site).
Defined.

Lemma site_store_reachable_witness :
  site clear_text integer_literals bob_spends
       [login_session 1; login_session 1; anonymous; anonymous]
  /\ reachable integer_literals bob_spends.
Proof.
  split; [exact bob_spends_site|].
  exact (proj1 (site_store_reachable clear_text integer_literals _ _
                  bob_spends_site)).
Defined.

(** Bob logs in right after registering on the new store, as account 1. *)
Lemma registered_account_can_log_in_witness :
  fst (fst (register clear_text POST bob_form "" anonymous empty_db))
  = Redirect login_endpoint
  /\ login clear_text POST bob_form "" anonymous bob_registers
     = (Redirect home_endpoint, login_session 1, bob_registers).
Proof.
  split; [reflexivity|].
  destruct (registered_account_can_log_in clear_text integer_literals bob_form
              ""%string anonymous empty_db clear_text_correct eq_refl)
    as (account & E & _ & _ & _ & L).
  injection E as <-. exact (L [] ""%string anonymous).
Defined.

(** The demo form on the new store. *)
Lemma demo_login_provisions_witness :
  login clear_text POST demo_form "" anonymous empty_db
  = (Redirect home_endpoint, login_session 1,
     mkdb [Build_user_row 1 "demo" "demo"] [] [] [] [] []).
Proof.
  exact (demo_login_provisions clear_text demo_form ""%string anonymous empty_db
           clear_text_correct eq_refl eq_refl).
Defined.

(** The word "plenty" recorded as the amount of a Food expense in the
    scenario's store: the data endpoint then answers user 1 with an
    exception. *)
Lemma non_numeric_expense_breaks_dashboard_witness :
  exists e,
    get_data integer_literals alice november_4
             (snd (add_expense integer_literals alice
                     [("category"%string, PStr "Food"); ("amount"%string, PStr "plenty")]
                     november_4 after_first_expense))
    = (Raised e,
       snd (add_expense integer_literals alice
              [("category"%string, PStr "Food"); ("amount"%string, PStr "plenty")]
              november_4 after_first_expense)).
Proof.
  exact (non_numeric_expense_breaks_dashboard clear_text integer_literals 1
           [("category"%string, PStr "Food"); ("amount"%string, PStr "plenty")]
           "plenty" november_4 after_first_expense
           eq_refl eq_refl eq_refl eq_refl eq_refl [] november_4).
Defined.
